(** * PiSSM-2025: the NCLT trajectory simulator and the PiSSM losses and loops

    Shallow embedding of [NCLT/unknown_dynamics/NCLTSysModel.py] (the class
    [SystemModel]) and of [NCLT/unknown_dynamics/PiSSM.py] (the class
    [PiSSM]: constructor, loss functions, training loop).

    Numbers.  Tensor entries are real numbers ([R] of the Standard Library):
    the embedding describes the arithmetic the code denotes, not the
    rounding, infinities and NaN of its float32 execution.  Where the code
    tests for NaN (the training loop) a loss value is a [tfloat], a real or
    NaN.

    Randomness.  The global torch generator is an explicit state [gen] with
    two samplers, one for standard normal draws and one for uniform draws on
    the unit interval; [torch.normal(mean, std)] is [mean + std * z].

    Failure.  A torch or TensorFlow call that raises on mismatched shapes
    makes the simulator and the loss functions return [None]; the
    constructor and the training loop return [Raise e] with the Python
    exception.  The [print] calls of the training loop are left out. *)

From Stdlib Require Import Reals Lra Lia.
From stdpp Require Import base list option strings.

(** ** Torch tensors: a shape and row-major data *)

Module Torch.

Record tensor : Type := mkTensor { shape : list nat; data : list R }.

Definition numel (sh : list nat) : nat := foldr Nat.mul 1 sh.

(** [torch.squeeze]: every dimension of size one is removed. *)
Definition squeeze_shape (sh : list nat) : list nat :=
  filter (fun d => d <> 1) sh.

Definition squeeze (v : tensor) : tensor :=
  mkTensor (squeeze_shape (shape v)) (data v).

Definition zeros (sh : list nat) : tensor :=
  mkTensor sh (replicate (numel sh) 0%R).

Definition eye (k : nat) : tensor :=
  mkTensor [k; k]
    (i ← seq 0 k; (fun j => if decide (i = j) then 1%R else 0%R) <$> seq 0 k).

(** [c * v] for a Python scalar [c]. *)
Definition scale (c : R) (v : tensor) : tensor :=
  mkTensor (shape v) (Rmult c <$> data v).

(** Broadcasting of two dimensions, and of two shapes aligned at the right. *)
Definition bdim (a b : nat) : option nat :=
  if decide (a = b) then Some a
  else if decide (a = 1) then Some b
  else if decide (b = 1) then Some a
  else None.

Fixpoint bshape_rev (a b : list nat) : option (list nat) :=
  match a, b with
  | [], _ => Some b
  | _, [] => Some a
  | d1 :: a', d2 :: b' =>
      d ← bdim d1 d2; rest ← bshape_rev a' b'; Some (d :: rest)
  end.

Definition broadcast_shapes (a b : list nat) : option (list nat) :=
  reverse <$> bshape_rev (reverse a) (reverse b).

Fixpoint chunks (k size : nat) (l : list R) : list (list R) :=
  match k with
  | 0 => []
  | S k' => take size l :: chunks k' size (drop size l)
  end.

(** The data of a tensor of shape [sh] once expanded to the shape [out]
    ([sh] broadcasts to [out]). *)
Fixpoint expand (out sh : list nat) (dat : list R) : list R :=
  match out with
  | [] => dat
  | d :: out' =>
      if decide (length sh < length out)
      then mjoin (replicate d (expand out' sh dat))
      else match sh with
           | [] => dat
           | d' :: sh' =>
               if decide (d' = d)
               then mjoin (expand out' sh' <$> chunks d' (numel sh') dat)
               else mjoin (replicate d (expand out' sh' dat))
           end
  end.

(** [torch.add(a, b)]; a shape mismatch raises. *)
Definition add (a b : tensor) : option tensor :=
  sh ← broadcast_shapes (shape a) (shape b);
  Some (mkTensor sh (zip_with Rplus (expand sh (shape a) (data a))
                                    (expand sh (shape b) (data b)))).

(** A rank-2 tensor of fixed shape is kept as its list of rows. *)
Definition matrix : Type := list (list R).

Definition column (t : nat) (M : matrix) : option (list R) :=
  mapM (fun row : list R => row !! t) M.

Fixpoint strip_ones (sh : list nat) : list nat :=
  match sh with
  | 1 :: sh' => strip_ones sh'
  | _ => sh
  end.

(** The values written by [M[:, t] = v] into a column of [k] entries: [v] is
    copied when the sizes agree, a single value fills the column, leading
    dimensions of size one are dropped, anything else raises. *)
Definition column_values (k : nat) (v : tensor) : option (list R) :=
  if decide (shape v = [k]) then Some (data v)
  else match strip_ones (shape v) with
       | [] => Some (replicate k (default 0%R (head (data v))))
       | [d] => if decide (d = k) then Some (data v) else None
       | _ => None
       end.

Definition set_column (t : nat) (v : tensor) (M : matrix) : option matrix :=
  col ← column_values (length M) v;
  Some (zip_with (fun (row : list R) (c : R) => <[t := c]> row) M col).

Section Generator.
Context {gen : Type}.

Fixpoint draw (sample : gen -> R * gen) (k : nat) (g : gen) : list R * gen :=
  match k with
  | 0 => ([], g)
  | S k' => let '(z, g1) := sample g in
            let '(zs, g2) := draw sample k' g1 in
            (z :: zs, g2)
  end.

(** [torch.normal(mean, std)] with a tensor mean and a scalar std: a
    negative std raises, otherwise one draw per entry of the mean. *)
Definition normal (std_normal : gen -> R * gen) (mean : tensor) (std : R)
    (g : gen) : option (tensor * gen) :=
  if Rlt_dec std 0 then None
  else let '(zs, g') := draw std_normal (length (data mean)) g in
       Some (mkTensor (shape mean)
               (zip_with (fun mu z => (mu + std * z)%R) (data mean) zs), g').

(** [torch.rand_like(v)]. *)
Definition rand_like (uniform01 : gen -> R * gen) (v : tensor) (g : gen)
    : tensor * gen :=
  let '(us, g') := draw uniform01 (length (data v)) g in
  (mkTensor (shape v) us, g').
End Generator.

(** A tensor of rank one with [k] entries. *)
Definition vec (k : nat) (v : tensor) : Prop :=
  shape v = [k] /\ length (data v) = k.

(** A state-like tensor with [k] entries: rank one, or rank zero when
    [k = 1] (what [squeeze] leaves of a one-entry vector). *)
Definition svec (k : nat) (v : tensor) : Prop :=
  length (data v) = k /\ (shape v = [k] \/ (k = 1 /\ shape v = [])).

End Torch.

(** ** NCLTSysModel.py: the class [SystemModel] *)

Module NCLTSysModel.
Import Torch.

(** The attributes of a [SystemModel] object.  [Q_] and [R_] are the
    attributes [Q] and [R]; [x], [y], [x_prev], [Input] and [Target] are
    created by the generators, which write them before they read them. *)
Record SystemModel : Type := mkSystemModel {
  f : tensor -> tensor;
  m : nat;
  q : R;
  delta_t : R;
  Q_ : tensor;
  h : tensor -> tensor;
  n : nat;
  r : R;
  R_ : tensor;
  T : nat;
  m1x_0 : tensor;
  m2x_0 : tensor;
  x : matrix;
  y : matrix;
  x_prev : tensor;
  Input : list matrix;
  Target : list matrix
}.

Definition set_m1x_0 (v : tensor) (s : SystemModel) : SystemModel :=
  mkSystemModel (f s) (m s) (q s) (delta_t s) (Q_ s) (h s) (n s) (r s) (R_ s)
    (T s) v (m2x_0 s) (x s) (y s) (x_prev s) (Input s) (Target s).
Definition set_m2x_0 (v : tensor) (s : SystemModel) : SystemModel :=
  mkSystemModel (f s) (m s) (q s) (delta_t s) (Q_ s) (h s) (n s) (r s) (R_ s)
    (T s) (m1x_0 s) v (x s) (y s) (x_prev s) (Input s) (Target s).
Definition set_x (M : matrix) (s : SystemModel) : SystemModel :=
  mkSystemModel (f s) (m s) (q s) (delta_t s) (Q_ s) (h s) (n s) (r s) (R_ s)
    (T s) (m1x_0 s) (m2x_0 s) M (y s) (x_prev s) (Input s) (Target s).
Definition set_y (M : matrix) (s : SystemModel) : SystemModel :=
  mkSystemModel (f s) (m s) (q s) (delta_t s) (Q_ s) (h s) (n s) (r s) (R_ s)
    (T s) (m1x_0 s) (m2x_0 s) (x s) M (x_prev s) (Input s) (Target s).
Definition set_x_prev (v : tensor) (s : SystemModel) : SystemModel :=
  mkSystemModel (f s) (m s) (q s) (delta_t s) (Q_ s) (h s) (n s) (r s) (R_ s)
    (T s) (m1x_0 s) (m2x_0 s) (x s) (y s) v (Input s) (Target s).
Definition set_Input (l : list matrix) (s : SystemModel) : SystemModel :=
  mkSystemModel (f s) (m s) (q s) (delta_t s) (Q_ s) (h s) (n s) (r s) (R_ s)
    (T s) (m1x_0 s) (m2x_0 s) (x s) (y s) (x_prev s) l (Target s).
Definition set_Target (l : list matrix) (s : SystemModel) : SystemModel :=
  mkSystemModel (f s) (m s) (q s) (delta_t s) (Q_ s) (h s) (n s) (r s) (R_ s)
    (T s) (m1x_0 s) (m2x_0 s) (x s) (y s) (x_prev s) (Input s) l.
Definition set_noise (q' : R) (Q' : tensor) (r' : R) (R' : tensor)
    (s : SystemModel) : SystemModel :=
  mkSystemModel (f s) (m s) q' (delta_t s) Q' (h s) (n s) r' R'
    (T s) (m1x_0 s) (m2x_0 s) (x s) (y s) (x_prev s) (Input s) (Target s).

(** The three attributes a run of [GenerateSequence] assigns. *)
Definition upd (X Y : matrix) (P : tensor) (s : SystemModel) : SystemModel :=
  set_x_prev P (set_y Y (set_x X s)).

(** [M] has [rows] rows of [cols] entries. *)
Definition shaped (rows cols : nat) (M : matrix) : Prop :=
  length M = rows /\ Forall (fun row => length row = cols) M.

(** The motion model maps states to states, the observation model maps
    states to observations, and both noise scales are standard deviations. *)
Definition well_configured (self : SystemModel) : Prop :=
  (forall v, svec (m self) v -> svec (m self) (f self v)) /\
  (forall v, svec (m self) v -> svec (n self) (h self v)) /\
  (0 <= q self)%R /\ (0 <= r self)%R.

(** Two objects with the same motion and observation model. *)
Definition same_model (s s' : SystemModel) : Prop :=
  f s = f s' /\ h s = h s' /\ m s = m s' /\ n s = n s' /\
  q s = q s' /\ r s = r s'.

(** [for t in range(0, k)] over a body that may raise. *)
Fixpoint for_range {W : Type} (body : nat -> W -> option W) (ts : list nat)
    (w : W) : option W :=
  match ts with
  | [] => Some w
  | t :: ts' => w' ← body t w; for_range body ts' w'
  end.

Section Simulator.
(** The torch generator, and what [torch.empty] finds in memory. *)
Context {gen : Type}.
Variable std_normal : gen -> R * gen.
Variable uniform01 : gen -> R * gen.
Variable uninit : nat -> R.

(** The names imported from the module [parameters], which is not part of
    the two files. *)
Variable parameters_delta_t : R.
Variable parameters_variance : R.
Variable parameters_m1x_0 : tensor.
Variable parameters_m2x_0 : tensor.

Definition world : Type := SystemModel * gen.

(** [torch.empty(size=[rows, cols])]. *)
Definition empty2 (rows cols : nat) : matrix :=
  (fun i => (fun j => uninit (i * cols + j)) <$> seq 0 cols) <$> seq 0 rows.

(** [torch.empty(k, rows, cols)]. *)
Definition empty3 (k rows cols : nat) : list matrix :=
  (fun b => (fun i => (fun j => uninit ((b * rows + i) * cols + j))
                        <$> seq 0 cols) <$> seq 0 rows) <$> seq 0 k.

(** [SystemModel.__init__(f, q, h, r, T, m, n)]. *)
Definition init (f0 : tensor -> tensor) (q0 : R) (h0 : tensor -> tensor)
    (r0 : R) (T0 m0 n0 : nat) : SystemModel :=
  mkSystemModel f0 m0 q0 parameters_delta_t (scale (q0 * q0) (eye m0))
    h0 n0 r0 (scale (r0 * r0) (eye n0)) T0
    parameters_m1x_0 parameters_m2x_0 [] [] (zeros []) [] [].

Definition InitSequence (m1x_0' m2x_0' : tensor) (self : SystemModel)
    : SystemModel :=
  set_m2x_0 (squeeze m2x_0') (set_m1x_0 (squeeze m1x_0') self).

Definition UpdateCovariance_Gain (q' r' : R) (self : SystemModel)
    : SystemModel :=
  set_noise q' (scale (q' * q') (eye (m self)))
            r' (scale (r' * r') (eye (n self))) self.

Definition UpdateCovariance_Matrix (Q' R' : tensor) (self : SystemModel)
    : SystemModel :=
  set_noise (q self) Q' (r self) R' self.

(** The state evolution of one step: [xt] and the generator after it. *)
Definition state_evolution (self : SystemModel) (g : gen)
    : option (tensor * gen) :=
  if Req_dec_T (q self) 0 then Some (f self (x_prev self), g)
  else
    let xt := f self (x_prev self) in
    let mean := zeros [m self] in
    '(eq, g1) ← normal std_normal mean (q self) g;
    xt' ← add xt eq;
    Some (xt', g1).

(** The body of the loop of [GenerateSequence] at time [t]. *)
Definition GenerateSequence_body (t : nat) (w : world) : option world :=
  let '(self, g) := w in
  '(xt, g1) ← state_evolution self g;
  let yt := h self xt in
  let mean := zeros [n self] in
  '(er, g2) ← normal std_normal mean (r self) g1;
  yt' ← add yt er;
  x' ← set_column t (squeeze xt) (x self);
  y' ← set_column t (squeeze yt') (y self);
  Some (set_x_prev xt (set_y y' (set_x x' self)), g2).

(** The three assignments before the loop. *)
Definition GenerateSequence_start (T' : nat) (self : SystemModel)
    : SystemModel :=
  let s1 := set_x (empty2 (m self) T') self in
  let s2 := set_y (empty2 (n self) T') s1 in
  set_x_prev (m1x_0 s2) s2.

Definition GenerateSequence (Q_gen R_gen : tensor) (T' : nat) (w : world)
    : option world :=
  let '(self, g) := w in
  for_range GenerateSequence_body (seq 0 T')
    (GenerateSequence_start T' self, g).

(** The body of the loop of [GenerateBatch]; [initConditions] is the local
    variable, carried from one iteration to the next. *)
Definition GenerateBatch_body (T' : nat) (randomInit : bool) (i : nat)
    (st : tensor * world) : option (tensor * world) :=
  let '(initConditions, (self, g)) := st in
  let '(initConditions', g1) :=
    if randomInit
    then let '(u, g') := rand_like uniform01 (m1x_0 self) g in
         (scale parameters_variance u, g')
    else (initConditions, g) in
  let self1 := InitSequence initConditions' (m2x_0 self) self in
  '(self2, g2) ← GenerateSequence (Q_ self1) (R_ self1) T' (self1, g1);
  let self3 := set_Input (<[i := y self2]> (Input self2)) self2 in
  let self4 := set_Target (<[i := x self3]> (Target self3)) self3 in
  Some (initConditions', (self4, g2)).

Definition GenerateBatch_start (size T' : nat) (self : SystemModel)
    : SystemModel :=
  let s1 := set_Input (empty3 size (n self) T') self in
  set_Target (empty3 size (m s1) T') s1.

(** The state after the first [k] iterations of the loop of
    [GenerateBatch]. *)
Definition GenerateBatch_loop (size T' : nat) (randomInit : bool) (k : nat)
    (w : world) : option (tensor * world) :=
  let '(self, g) := w in
  let self0 := GenerateBatch_start size T' self in
  for_range (GenerateBatch_body T' randomInit) (seq 0 k)
    (m1x_0 self0, (self0, g)).

(** [GenerateBatch(size, T, randomInit)]: the returned pair and the world
    it leaves. *)
Definition GenerateBatch (size T' : nat) (randomInit : bool) (w : world)
    : option ((list matrix * list matrix) * world) :=
  '(_, (self', g')) ← GenerateBatch_loop size T' randomInit size w;
  Some ((Input self', Target self'), (self', g')).

(** [torch.rand_like(self.m1x_0) * variance] on the object [s] with the
    generator in state [g]. *)
Definition random_init (s : SystemModel) (g : gen) : tensor :=
  scale parameters_variance (rand_like uniform01 (m1x_0 s) g).1.

(** What holds after [k] iterations of the loop of [GenerateSequence]
    started on [self]. *)
Definition run_invariant (self : SystemModel) (T' k : nat) (w : world)
    : Prop :=
  exists X Y P,
    w.1 = upd X Y P self /\ svec (m self) P /\
    shaped (m self) T' X /\ shaped (n self) T' Y /\
    (q self = 0%R ->
       P = Nat.iter k (f self) (m1x_0 self) /\
       (forall t, t < k ->
          column t X = Some (data (Nat.iter (S t) (f self) (m1x_0 self)))) /\
       (r self = 0%R -> forall t, t < k ->
          column t Y =
            Some (data (h self (Nat.iter (S t) (f self) (m1x_0 self)))))).

(** The state of the loop of [GenerateBatch] after [k] iterations, for a
    call on [self] that asked for [size] trajectories of length [T']. *)
Definition batch_invariant (self : SystemModel) (size T' : nat)
    (randomInit : bool) (k : nat) (st : tensor * world) : Prop :=
  let '(ic, (s, g)) := st in
  same_model s self /\ svec (m self) ic /\ svec (m self) (m1x_0 s) /\
  length (Input s) = size /\ length (Target s) = size /\
  (randomInit = false -> ic = m1x_0 self) /\
  (0 < k -> m1x_0 s = squeeze ic) /\
  (randomInit = false -> q self = 0%R -> forall i, i < k ->
     exists X, Target s !! i = Some X /\ forall t, t < T' ->
       column t X =
         Some (data (Nat.iter (S t) (f self) (squeeze (m1x_0 self))))).

End Simulator.

(** The instance of the end-to-end scenario: [h] keeps the first coordinate,
    as the one-entry vector [v[:1]] or as the number [v[0]], and the initial
    state is [[1, 0]]. *)
Definition first_coordinate (keepdim : bool) (v : tensor) : tensor :=
  mkTensor (if keepdim then [1] else []) (take 1 (data v)).

Definition scenario_m1x_0 : tensor := mkTensor [2] [1%R; 0%R].

(** [SystemModel(f, q, h, r, T, m, n)] of the scenario: identity motion,
    no noise, horizon five. *)
Definition scenario_model (dt : R) (m2 : tensor) (keepdim : bool)
    : SystemModel :=
  init dt scenario_m1x_0 m2 (fun v => v) 0 (first_coordinate keepdim) 0 5 2 1.

(** The scenario with unit time step, a zero initial covariance and
    [h(v) = v[:1]]. *)
Definition example_model : SystemModel :=
  scenario_model 1 (zeros [2; 2]) true.

(** A generator for examples: its state counts the draws, and the draw in
    state [k] is [k + 1]. *)
Definition counting_sampler (k : nat) : R * nat := (INR (S k), S k).

End NCLTSysModel.

(** ** TensorFlow tensors: dimensions and an entry for every index

    The tensors of the loss functions have rank three, [batch, T, D]; the
    per-step errors, rewards and log-probabilities have rank two,
    [batch, T].

    Entries are real numbers.  The code computes in floating point, where
    the logarithm of a number that is not positive, a division by zero and
    the mean of an empty tensor give an infinity or NaN; the reals have
    neither, and [ln] and division are total on them.  The definitions
    below are the code's on finite values only: [PiSSM.finite_losses]
    names the inputs on which no infinity or NaN arises, and a theorem that
    gives the value of a loss assumes it or a stronger condition. *)

Module TF.

Record tensor1 : Type := mkT1 { len : nat; at1 : nat -> R }.
Record tensor2 : Type := mkT2 { rows : nat; cols : nat; at2 : nat -> nat -> R }.
Record tensor3 : Type :=
  mkT3 { dim0 : nat; dim1 : nat; dim2 : nat; at3 : nat -> nat -> nat -> R }.

(** The sum of [g 0], ..., [g (k - 1)]. *)
Fixpoint rsum (k : nat) (g : nat -> R) : R :=
  match k with
  | 0 => 0%R
  | S k' => (rsum k' g + g k')%R
  end.

(** Broadcasting: two sizes are compatible when they agree or one is one,
    and an index into a dimension of size one is zero. *)
Definition bdim (a b : nat) : option nat :=
  if decide (a = b) then Some a
  else if decide (a = 1) then Some b
  else if decide (b = 1) then Some a
  else None.

Definition bidx (d i : nat) : nat := if decide (d = 1) then 0 else i.

(** [p[..., :D]] and [p[..., D:]]. *)
Definition slice_to (D : nat) (p : tensor3) : tensor3 :=
  mkT3 (dim0 p) (dim1 p) (Nat.min D (dim2 p)) (at3 p).

Definition slice_from (D : nat) (p : tensor3) : tensor3 :=
  mkT3 (dim0 p) (dim1 p) (dim2 p - D) (fun b t k => at3 p b t (D + k)).

Definition map3 (g : R -> R) (p : tensor3) : tensor3 :=
  mkT3 (dim0 p) (dim1 p) (dim2 p) (fun b t k => g (at3 p b t k)).

Definition map2 (g : R -> R) (s : tensor2) : tensor2 :=
  mkT2 (rows s) (cols s) (fun b t => g (at2 s b t)).

(** An elementwise binary operation; incompatible shapes raise. *)
Definition zip3 (op : R -> R -> R) (a b : tensor3) : option tensor3 :=
  d0 ← bdim (dim0 a) (dim0 b);
  d1 ← bdim (dim1 a) (dim1 b);
  d2 ← bdim (dim2 a) (dim2 b);
  Some (mkT3 d0 d1 d2 (fun i j k =>
    op (at3 a (bidx (dim0 a) i) (bidx (dim1 a) j) (bidx (dim2 a) k))
       (at3 b (bidx (dim0 b) i) (bidx (dim1 b) j) (bidx (dim2 b) k)))).

Definition zip2 (op : R -> R -> R) (a b : tensor2) : option tensor2 :=
  d0 ← bdim (rows a) (rows b);
  d1 ← bdim (cols a) (cols b);
  Some (mkT2 d0 d1 (fun i j =>
    op (at2 a (bidx (rows a) i) (bidx (cols a) j))
       (at2 b (bidx (rows b) i) (bidx (cols b) j)))).

(** [tf.reduce_sum(p, axis=-1)] and [tf.reduce_sum(s, axis=1)]. *)
Definition reduce_sum_last (p : tensor3) : tensor2 :=
  mkT2 (dim0 p) (dim1 p) (fun b t => rsum (dim2 p) (at3 p b t)).

Definition reduce_sum_axis1 (s : tensor2) : tensor1 :=
  mkT1 (rows s) (fun b => rsum (cols s) (at2 s b)).

(** [tf.reduce_mean] over every entry of a tensor that has entries; of an
    empty tensor [tf.reduce_mean] is NaN, which the quotient below (zero,
    by the convention [x / 0 = 0]) does not stand for. *)
Definition reduce_mean1 (v : tensor1) : R :=
  (rsum (len v) (at1 v) / INR (len v))%R.

Definition reduce_mean2 (s : tensor2) : R :=
  (rsum (rows s) (fun b => rsum (cols s) (at2 s b))
   / INR (rows s * cols s))%R.

Definition reduce_mean3 (p : tensor3) : R :=
  (rsum (dim0 p) (fun b => rsum (dim1 p) (fun t => rsum (dim2 p) (at3 p b t)))
   / INR (dim0 p * dim1 p * dim2 p))%R.

(** [tf.reduce_mean(s, axis=0)]. *)
Definition reduce_mean_axis0 (s : tensor2) : tensor1 :=
  mkT1 (cols s)
    (fun t => (rsum (rows s) (fun b => at2 s b t) / INR (rows s))%R).

(** [tf.expand_dims(v, axis=0)]. *)
Definition expand_dims0 (v : tensor1) : tensor2 :=
  mkT2 1 (len v) (fun _ t => at1 v t).

(** [tf.tile(s, [k, 1])]. *)
Definition tile_rows (k : nat) (s : tensor2) : tensor2 :=
  mkT2 (k * rows s) (cols s) (fun b t => at2 s (b mod rows s) t).

(** [tf.squeeze(p, axis=-1)]: the last dimension must have size one. *)
Definition squeeze_last (p : tensor3) : option tensor2 :=
  if decide (dim2 p = 1)
  then Some (mkT2 (dim0 p) (dim1 p) (fun b t => at3 p b t 0))
  else None.

End TF.

(** ** PiSSM.py: the class [PiSSM] *)

Module PiSSM.
Import TF.

(** *** Loss functions *)

Section Losses.
(** The attribute [_output_dim] of a low-dimensional-output model. *)
Variable output_dim : nat.

Definition epsilon : R := 1e-8%R.

(** [pred_var] after [pred_var += 1e-8]: what the losses take the
    logarithm of and divide by. *)
Definition shifted_variance (pred_mean_var : tensor3) : tensor3 :=
  let pred_var := slice_from output_dim pred_mean_var in
  map3 (fun v => (v + epsilon)%R) pred_var.

(** [element_wise_nll], as the code builds it from whole tensors. *)
Definition element_wise_nll (target pred_mean_var : tensor3)
    : option tensor3 :=
  let pred_mean := slice_to output_dim pred_mean_var in
  let pred_var := shifted_variance pred_mean_var in
  let log_var := map3 ln pred_var in
  diff ← zip3 Rminus target pred_mean;
  let sq := map3 (fun d => (d ^ 2)%R) diff in
  quot ← zip3 Rdiv sq pred_var;
  let const_log := map3 (fun l => (ln (2 * PI) + l)%R) log_var in
  inner ← zip3 Rplus const_log quot;
  Some (map3 (fun e => (0.5 * e)%R) inner).

(** The inputs on which [element_wise_nll] and the losses built from it
    stay finite: the batch and the horizon are not empty, and every entry
    of [pred_var + 1e-8] the losses read is positive.  Outside them the
    code returns NaN or an infinity where the real-valued definitions
    return a number. *)
Definition finite_losses (target pred_mean_var : tensor3) : Prop :=
  0 < dim0 target /\ 0 < dim1 target /\
  forall b t k, b < dim0 target -> t < dim1 target -> k < output_dim ->
    (0 < at3 (shifted_variance pred_mean_var) b t k)%R.

Definition sample_wise_error (target pred_mean_var : tensor3)
    : option tensor2 :=
  reduce_sum_last <$> element_wise_nll target pred_mean_var.

Definition gaussian_nll (target pred_mean_var : tensor3) : option R :=
  reduce_mean2 <$> sample_wise_error target pred_mean_var.

Definition rmse (target pred_mean_var : tensor3) : option R :=
  let pred_mean := slice_to output_dim pred_mean_var in
  diff ← zip3 Rminus pred_mean target;
  Some (sqrt (reduce_mean3 (map3 (fun d => (d ^ 2)%R) diff))).

(** The part of [reinforce_loss] from [baseline = ...] on, as a function
    of the reward; [batch] is [pred_mean.shape[0]].  [tf.stop_gradient]
    leaves values as they are. *)
Definition reinforce_from_reward (batch : nat) (reward : tensor2)
    (logp_list : tensor3) : option R :=
  let baseline := reduce_mean_axis0 reward in
  let baseline := expand_dims0 baseline in
  let baseline := tile_rows batch baseline in
  logps ← squeeze_last logp_list;
  advantage ← zip2 Rminus reward baseline;
  reinforce_term ← zip2 Rmult (map2 Ropp advantage) logps;
  Some (reduce_mean2 reinforce_term).

Definition reinforce_loss (target pred_mean_var logp_list : tensor3)
    : option R :=
  let pred_mean := slice_to output_dim pred_mean_var in
  sample_wise_error' ← sample_wise_error target pred_mean_var;
  let base_loss := reduce_mean1 (reduce_sum_axis1 sample_wise_error') in
  let reward := map2 Ropp sample_wise_error' in
  reinforce_from_reward (dim0 pred_mean) reward logp_list.

(** The per-entry negative log-likelihood the docstring and the spec
    describe. *)
Definition nll_entry (target_ mean var : R) : R :=
  (0.5 * (ln (2 * PI) + ln (var + epsilon)
          + (target_ - mean) ^ 2 / (var + epsilon)))%R.

(** The mean over batch and time of the sum over output dimensions of
    [nll_entry], for a target of shape [B, T, D] and a prediction of shape
    [B, T, 2D]. *)
Definition gaussian_nll_spec (target pred_mean_var : tensor3) : R :=
  (rsum (dim0 target) (fun b =>
     rsum (dim1 target) (fun t =>
       rsum output_dim (fun k =>
         nll_entry (at3 target b t k) (at3 pred_mean_var b t k)
                   (at3 pred_mean_var b t (output_dim + k)))))
   / INR (dim0 target * dim1 target))%R.
End Losses.

(** Two inputs of the loss functions with [output_dim = 1]: a target with
    the single entry 0, a prediction with mean 0 and variance 1, and a
    prediction with mean 0 and variance [-1e-8]. *)
Definition target_zero : tensor3 := mkT3 1 1 1 (fun _ _ _ => 0%R).

Definition prediction_unit_variance : tensor3 :=
  mkT3 1 1 2 (fun _ _ k => if decide (k = 0) then 0%R else 1%R).

Definition prediction_negative_variance : tensor3 :=
  mkT3 1 1 2 (fun _ _ k => if decide (k = 0) then 0%R else (- 1e-8)%R).

(** *** Exceptions *)

Inductive exn : Type :=
  | AssertionError (msg : string)
  | NotImplementedError
  | UnboundLocalError (name : string)
  | NameError (name : string)
  | AttributeError (name : string)
  | ZeroDivisionError
  | IndexError
  | TypeError
  | FrameworkError.

Inductive result (A : Type) : Type :=
  | Ok (a : A)
  | Raise (e : exn).
Arguments Ok {A} a.
Arguments Raise {A} e.

#[global] Instance result_ret : MRet result := fun A a => Ok a.
#[global] Instance result_bind : MBind result := fun A B k r =>
  match r with
  | Ok a => k a
  | Raise e => Raise e
  end.

(** *** The constructor *)

(** [str.lower] on ASCII strings. *)
Definition lower_ascii (c : Ascii.ascii) : Ascii.ascii :=
  let code := Ascii.nat_of_ascii c in
  if (65 <=? code) && (code <=? 90) then Ascii.ascii_of_nat (code + 32)
  else c.

Fixpoint lower (s : string) : string :=
  match s with
  | EmptyString => EmptyString
  | String c s' => String (lower_ascii c) (lower s')
  end.

(** The transition cell: the PiSSM cell or a recurrent baseline. *)
Inductive cell : Type :=
  | PiSSMTransitionCell (lsd lod number_of_basis : nat)
      (init_kf_matrices init_Q_matrices init_KF_matrices : R)
      (trans_net_hidden_units : list nat) (never_invalid : bool)
  | LSTMCell (units : nat)
  | GRUCell (units : nat).

Definition invalid_cell_message : string :=
  "Invalid Cell type, needs tp be 'rkn', 'lstm' or 'gru'".

(** The cell types the constructor accepts, after lower-casing. *)
Definition accepted_cell_types : list string := ["gin"; "lstm"; "gru"].

(** The [if]/[elif] chain of [__init__] on [cell_type.lower()]. *)
Definition build_transition (lsd lod num_basis : nat)
    (trans_net_hidden_units : list nat) (never_invalid : bool)
    (cell_type : string) : result cell :=
  if String.eqb (lower cell_type) "gin" then
    Ok (PiSSMTransitionCell lsd lod num_basis 0 0 0.1
          trans_net_hidden_units never_invalid)
  else if String.eqb (lower cell_type) "lstm" then Ok (LSTMCell (2 * lsd))
  else if String.eqb (lower cell_type) "gru" then Ok (GRUCell (2 * lsd))
  else Raise (AssertionError invalid_cell_message).

(** [output_dim] is a number, or the shape of an image. *)
Inductive output_shape : Type :=
  | Scalar (d : nat)
  | Image (sh : list nat).

Definition isscalar (o : output_shape) : bool :=
  match o with Scalar _ => true | Image _ => false end.

Section Constructor.
(** Keras layers, and the three builders a subclass implements. *)
Context {layer : Type}.
Variable build_encoder_hidden : result (list layer).
Variable build_decoder_hidden : result (list layer).
Variable build_var_decoder_hidden : result (list layer).

Record PiSSM : Type := mkPiSSM {
  _obs_shape : list nat;
  _lod : nat;
  _lsd : nat;
  _output_dim : output_shape;
  _never_invalid : bool;
  _ld_output : bool;
  _enc_hidden_layers : list layer;
  _cell : cell;
  _dec_hidden : list layer;
  _var_dec_hidden : list layer
}.

Definition __init__ (observation_shape : list nat)
    (latent_observation_dim : nat) (output_dim : output_shape)
    (num_basis : nat) (trans_net_hidden_units : list nat)
    (never_invalid : bool) (cell_type : string) : result PiSSM :=
  let lod := latent_observation_dim in
  let lsd := lod in
  let ld_output := isscalar output_dim in
  enc ← build_encoder_hidden;
  c ← build_transition lsd lod num_basis trans_net_hidden_units
        never_invalid cell_type;
  dec ← build_decoder_hidden;
  var_dec ← (if ld_output then build_var_decoder_hidden else Ok []);
  Ok (mkPiSSM observation_shape lod lsd output_dim never_invalid ld_output
        enc c dec var_dec).
End Constructor.

(** The builders of the class [PiSSM] itself. *)
Definition abstract_builder {layer : Type} : result (list layer) :=
  Raise NotImplementedError.

(** *** The training loop *)

(** A loss value as the loop sees it: a number or NaN. *)
Inductive tfloat : Type :=
  | Fin (v : R)
  | NaN.

Definition isnan (a : tfloat) : bool :=
  match a with NaN => true | Fin _ => false end.

Definition fadd (a b : tfloat) : tfloat :=
  match a, b with
  | Fin u, Fin v => Fin (u + v)
  | _, _ => NaN
  end.

Definition fdiv_int (a : tfloat) (k : Z) : tfloat :=
  match a with
  | Fin u => Fin (u / IZR k)
  | NaN => NaN
  end.

(** The names bound at module level by [PiSSM.py], and the local names of
    [training] (its parameters and every name it assigns). *)
Definition module_globals : list string :=
  ["tf"; "k"; "np"; "PiSSMTransitionCell"; "pack_input"; "unpack_state";
   "PiSSM"].

Definition training_locals : list string :=
  ["self"; "model"; "Train_Obs"; "Train_Target"; "Valid_Obs"; "Valid_Target";
   "epochs"; "batch_size"; "ratio"; "Ybatch_val"; "Ubatch_val"; "bid";
   "Ybatch"; "Ubatch"; "Training_Loss"; "epoch"; "loss_show_tr";
   "loss_show_val"; "i"; "NetIn"; "tape"; "preds"; "logp_list";
   "reinforce_loss"; "dynamic_variables"; "gradients"; "tape2"; "_";
   "phi_loss"; "phi_vars"; "grads_phi"; "rand_sel"; "val_preds";
   "val_logp_list"; "val_reinforce_loss"; "val_phi_loss"; "val_loss"; "loss"].

Inductive binding : Type := LocalName | GlobalName | Unresolved.

Definition resolve (name : string) : binding :=
  if bool_decide (name ∈ training_locals) then LocalName
  else if bool_decide (name ∈ module_globals) then GlobalName
  else Unresolved.

(** Reading a name that is not local: it must be bound at module level. *)
Definition read_global (name : string) : result unit :=
  match resolve name with
  | Unresolved => Raise (NameError name)
  | _ => Ok ()
  end.

(** Reading a local name: it must have been assigned. *)
Definition read_local {A : Type} (name : string) (v : option A) : result A :=
  match v with
  | Some a => Ok a
  | None => Raise (UnboundLocalError name)
  end.

Definition read_attr {A : Type} (name : string) (v : option A) : result A :=
  match v with
  | Some a => Ok a
  | None => Raise (AttributeError name)
  end.

Definition index {A : Type} (l : list A) (i : nat) : result A :=
  match l !! i with
  | Some a => Ok a
  | None => Raise IndexError
  end.

(** [a % b] on Python integers. *)
Definition pymod (a b : Z) : result Z :=
  if (b =? 0)%Z then Raise ZeroDivisionError else Ok (a mod b)%Z.

(** The mini-batches [x[bid*batch_size:(bid+1)*batch_size]] for [bid] in
    [range(int(len(x)/batch_size))]. *)
Definition batches {A : Type} (xs : list A) (batch_size : Z)
    : result (list (list A)) :=
  if (batch_size =? 0)%Z then Raise ZeroDivisionError
  else Ok ((fun bid => take (Z.to_nat batch_size)
                         (drop (bid * Z.to_nat batch_size) xs))
           <$> seq 0 (Z.to_nat (Z.quot (Z.of_nat (length xs)) batch_size))).

Section Training.
(** The variables of the model, observation and target samples,
    predictions, log-probabilities and gradients. *)
Context {W Obs Tgt Pred Logp Grad : Type}.

(** [model(NetIn)] and the two loss methods. *)
Variable model_call : W -> list Obs -> result (Pred * Logp).
Variable self_reinforce_loss : list Tgt -> Pred -> Logp -> result tfloat.
Variable self_gaussian_nll : list Tgt -> Pred -> result tfloat.

(** The attribute [lr], which [__init__] does not assign. *)
Variable self_lr : option R.

(** [tape.gradient] into the coefficient network and into the remaining
    variables, and the two clipped Adam steps. *)
Variable reinforce_gradients : W -> list Obs -> list Tgt -> result Grad.
Variable phi_gradients : W -> list Obs -> list Tgt -> result Grad.
Variable apply_gradients : R -> Grad -> W -> result W.

(** What the validation step computes once its names are read. *)
Variable validation : W -> result tfloat.

(** The locals the loop carries and the variables of the model;
    [loss = None] is the local [loss] before its first assignment.  The
    local [loss_show_val], which is only ever set to zero, is left out. *)
Record train_state : Type := mkState {
  weights : W;
  Training_Loss : list tfloat;
  loss : option tfloat;
  loss_show_tr : tfloat
}.

Inductive flow : Type :=
  | Next (s : train_state)
  | Break (s : train_state).

(** Lines 269-275: the validation step of iteration [i]. *)
Definition validation_step (i : nat) (w : W) : result unit :=
  if decide (i mod 10 = 0) then
    _ ← read_global "Valid_Ubatch";
    _ ← read_global "Valid_Ybatch";
    _ ← validation w;
    Ok ()
  else Ok ().

(** The body of [for i in range(len(Ybatch))]. *)
Definition batch_body (batch_size ratio : Z) (Ubatch : list (list Obs))
    (Ybatch : list (list Tgt)) (i : nat) (s : train_state) : result flow :=
  NetIn ← index Ubatch i;
  '(preds, logp_list) ← model_call (weights s) NetIn;
  target ← index Ybatch i;
  reinforce_loss ← self_reinforce_loss target preds logp_list;
  l ← read_local "loss" (loss s);
  let s1 := mkState (weights s) (Training_Loss s) (loss s)
              (fadd (loss_show_tr s) l) in
  if isnan reinforce_loss then Ok (Break s1)
  else
    gradients ← reinforce_gradients (weights s1) NetIn target;
    lr ← read_attr "lr" self_lr;
    w1 ← apply_gradients lr gradients (weights s1);
    '(preds2, _) ← model_call w1 NetIn;
    phi_loss ← self_gaussian_nll target preds2;
    let s2 := mkState w1 (Training_Loss s1) (loss s1) (loss_show_tr s1) in
    if isnan phi_loss then Ok (Break s2)
    else
      grads_phi ← phi_gradients w1 NetIn target;
      lr' ← read_attr "lr" self_lr;
      w2 ← apply_gradients lr' grads_phi w1;
      _ ← validation_step i w2;
      let loss1 := fadd phi_loss reinforce_loss in
      let s3 := mkState w2 (Training_Loss s2) (Some loss1)
                  (loss_show_tr s2) in
      if isnan loss1 then Ok (Break s3)
      else
        rem ← pymod (Z.of_nat i) (ratio - 1);
        let loss2 := if (rem =? 0)%Z && negb (i =? 0) then Fin 0 else loss1 in
        Ok (Next (mkState w2
                    (Training_Loss s3 ++ [fdiv_int loss2 batch_size])
                    (Some loss2) (loss_show_tr s3))).

(** [for i in range(len(Ybatch))], left by [break] or at the end. *)
Fixpoint batch_loop (batch_size ratio : Z) (Ubatch : list (list Obs))
    (Ybatch : list (list Tgt)) (steps : list nat) (s : train_state)
    : result train_state :=
  match steps with
  | [] => Ok s
  | i :: steps' =>
      fl ← batch_body batch_size ratio Ubatch Ybatch i s;
      match fl with
      | Next s' => batch_loop batch_size ratio Ubatch Ybatch steps' s'
      | Break s' => Ok s'
      end
  end.

(** [for epoch in range(epochs)]. *)
Fixpoint epoch_loop (batch_size ratio : Z) (Ubatch : list (list Obs))
    (Ybatch : list (list Tgt)) (epochs : list nat) (s : train_state)
    : result train_state :=
  match epochs with
  | [] => Ok s
  | _ :: epochs' =>
      let s0 := mkState (weights s) (Training_Loss s) (loss s) (Fin 0) in
      s' ← batch_loop batch_size ratio Ubatch Ybatch
             (seq 0 (length Ybatch)) s0;
      epoch_loop batch_size ratio Ubatch Ybatch epochs' s'
  end.

(** [training(model, Train_Obs, Train_Target, Valid_Obs, Valid_Target,
    epochs, batch_size, ratio)]: the returned [Training_Loss] and the
    variables of the model after the updates. *)
Definition training (model : W) (Train_Obs : list Obs)
    (Train_Target : list Tgt) (Valid_Obs : list Obs)
    (Valid_Target : list Tgt) (epochs batch_size ratio : Z)
    : result (list tfloat * W) :=
  Ybatch_val ← batches Valid_Target batch_size;
  Ubatch_val ← batches Valid_Obs batch_size;
  Ybatch ← batches Train_Target batch_size;
  Ubatch ← batches Train_Obs batch_size;
  s ← epoch_loop batch_size ratio Ubatch Ybatch
        (seq 0 (Z.to_nat epochs)) (mkState model [] None (Fin 0));
  Ok (Training_Loss s, weights s).
End Training.

(** A toy instance of the training loop: the model has no variables, every
    forward pass succeeds, the REINFORCE loss is the given value and the
    Gaussian NLL is 1. *)
Section Toy.
Variable reinforce_value : tfloat.

Definition toy_training (Train_Obs Train_Target : list nat)
    (epochs batch_size ratio : Z) : result (list tfloat * unit) :=
  training (W := unit) (Obs := nat) (Tgt := nat) (Pred := unit)
    (Logp := unit) (Grad := unit)
    (fun _ _ => Ok (tt, tt)) (fun _ _ _ => Ok reinforce_value)
    (fun _ _ => Ok (Fin 1)) (Some 0.001%R)
    (fun _ _ _ => Ok tt) (fun _ _ _ => Ok tt) (fun _ _ w => Ok w)
    (fun _ => Ok (Fin 0))
    tt Train_Obs Train_Target [] [] epochs batch_size ratio.

(** One iteration of the batch loop of the toy instance. *)
Definition toy_batch_body (batch_size ratio : Z)
    (Ubatch Ybatch : list (list nat)) (i : nat)
    (s : train_state (W := unit)) : result flow :=
  batch_body (W := unit) (Obs := nat) (Tgt := nat) (Pred := unit)
    (Logp := unit) (Grad := unit)
    (fun _ _ => Ok (tt, tt)) (fun _ _ _ => Ok reinforce_value)
    (fun _ _ => Ok (Fin 1)) (Some 0.001%R)
    (fun _ _ _ => Ok tt) (fun _ _ _ => Ok tt) (fun _ _ w => Ok w)
    (fun _ => Ok (Fin 0))
    batch_size ratio Ubatch Ybatch i s.
End Toy.

End PiSSM.

(** ** Views of a simulation run *)

Module Simulation.
Import Torch NCLTSysModel.

Section Views.
Context {gen : Type}.
Variable std_normal : gen -> R * gen.

(** The generator after [k] standard normal draws. *)
Definition advance (k : nat) (g : gen) : gen := (draw std_normal k g).2.

(** The generator after one step of [GenerateSequence]: [m] draws for the
    process noise unless [q == 0], then [n] draws for the observation
    noise. *)
Definition step_generator (self : SystemModel) (g : gen) : gen :=
  advance (n self) (if Req_dec_T (q self) 0 then g else advance (m self) g).
End Views.

(** Trajectory [i] of a batch: an observation matrix and a state matrix of
    the right shapes, aligned column by column when there is no observation
    noise, and the iterates of [f] from the stored initial state when the
    batch is deterministic. *)
Definition trajectory (self : SystemModel) (T' : nat) (randomInit : bool)
    (Yi Xi : matrix) : Prop :=
  shaped (n self) T' Yi /\ shaped (m self) T' Xi /\
  (r self = 0%R -> forall t, t < T' ->
     exists xt, svec (m self) xt /\ column t Xi = Some (data xt) /\
                column t Yi = Some (data (h self xt))) /\
  (randomInit = false -> q self = 0%R -> forall t, t < T' ->
     column t Xi =
       Some (data (Nat.iter (S t) (f self) (squeeze (m1x_0 self))))).


End Simulation.

(** Two models for examples: one with a negative observation noise scale,
    one whose motion model returns three entries for a state of two. *)
Module SimulationExamples.
Import Torch NCLTSysModel.

Definition negative_scale_model : SystemModel :=
  init 1 scenario_m1x_0 (zeros [2; 2]) (fun v => v) 0
    (first_coordinate true) (-1) 5 2 1.

Definition misshaped_model : SystemModel :=
  init 1 scenario_m1x_0 (zeros [2; 2]) (fun _ => zeros [3]) 0
    (first_coordinate true) 0 5 2 1.

End SimulationExamples.

(** ** PiSSM.py: the rest of the class *)

Module PiSSMRest.
Import TF PiSSM.

(** *** Activations of the encoder and decoder heads *)

(** [k.activations.elu] with its default [alpha = 1]. *)
Definition elu (v : R) : R :=
  if Rlt_dec 0 v then v else (exp v - 1)%R.

(** [lambda x: k.activations.elu(x) + 1], the activation of the covariance
    and variance heads.  Over the reals it is positive; in floating point
    [exp x - 1] is [-1] already for moderately negative [x] and the
    activation is then exactly zero, so only that it is not negative is
    used below. *)
Definition elu_plus_one (v : R) : R := (elu v + 1)%R.

(** [tf.norm(x, ord='euclidean', axis=-1, keepdims=True)] on one vector,
    and [lambda x: x / tf.norm(...)]. *)
Definition sum_squares (v : list R) : R :=
  foldr (fun a acc => (a * a + acc)%R) 0%R v.

Definition norm (v : list R) : R := sqrt (sum_squares v).

Definition unit_normalise (v : list R) : list R :=
  (fun a => (a / norm v)%R) <$> v.

(** *** Layer helpers *)

Section Layers.
(** What a layer maps: one time slice of a batch. *)
Context {A : Type}.

(** [_prop_through_layers(inputs, layers)]. *)
Definition _prop_through_layers {B : Type} (inputs : B)
    (layers : list (B -> B)) : B :=
  foldl (fun h layer => layer h) inputs layers.

(** [k.layers.TimeDistributed(l)]: [l] on every time slice. *)
Definition TimeDistributed (l : A -> A) : list A -> list A := fmap l.

(** [_time_distribute_layers(layers)]. *)
Definition _time_distribute_layers (layers : list (A -> A))
    : list (list A -> list A) :=
  foldl (fun td_layers l => td_layers ++ [TimeDistributed l]) [] layers.
End Layers.

(** *** The forward pass *)

Definition missing_mask_message : string :=
  "If invalid inputs are possible, obs_valid mask needs to be provided".

Section Call.
Context {Img Mask Out : Type}.

(** What [call] receives: a pair of observations and validity mask, or the
    observations alone. *)
Inductive call_inputs : Type :=
  | WithMask (img_inputs : Img) (obs_valid : Mask)
  | Alone (inputs : Img).

(** [tf.ones([tf.shape(img_inputs)[0], tf.shape(img_inputs)[1], 1])]. *)
Variable ones_like : Img -> Mask.

(** Lines 114-133: encoder, transition cell and decoder. *)
Variable network : Img -> Mask -> result Out.

Definition call (never_invalid : bool) (inputs : call_inputs) : result Out :=
  match inputs with
  | WithMask img_inputs obs_valid => network img_inputs obs_valid
  | Alone img_inputs =>
      if never_invalid then network img_inputs (ones_like img_inputs)
      else Raise (AssertionError missing_mask_message)
  end.
End Call.

(** *** The testing loop *)

(** What [model(NetIn)] hands back: a tensor, or the tuple of prediction
    and [logp_list] that [call] returns (lines 131 and 133). *)
Inductive output (Pred Logp : Type) : Type :=
  | Tensor (pred_mean_var : Pred)
  | Tuple (pred : Pred) (logp_list : Logp).
Arguments Tensor {Pred Logp} pred_mean_var.
Arguments Tuple {Pred Logp} pred logp_list.

(** [model(NetIn)] for an instance of the class and an array [NetIn]:
    [call], which returns a tuple on either of its last two branches. *)
Definition own_model {W Obs Pred Logp Mask : Type}
    (ones_like : list Obs -> Mask)
    (network : W -> list Obs -> Mask -> result (Pred * Logp))
    (never_invalid : bool) (w : W) (NetIn : list Obs)
    : result (output Pred Logp) :=
  '(pred, logp_list) ← call ones_like (network w) never_invalid
                          (Alone NetIn);
  Ok (Tuple pred logp_list).

Section Testing.
Context {W Obs Tgt Pred Logp : Type}.
Variable model_call : W -> list Obs -> result (output Pred Logp).

(** [rmse] on a target and a prediction tensor. *)
Variable tensor_rmse : list Tgt -> Pred -> result tfloat.

(** [self.rmse(target, preds)]: the slice
    [pred_mean_var[..., :self._output_dim]] of line 156 is taken of a
    tensor; on a tuple it raises [TypeError]. *)
Definition self_rmse (target : list Tgt) (preds : output Pred Logp)
    : result tfloat :=
  match preds with
  | Tensor pred_mean_var => tensor_rmse target pred_mean_var
  | Tuple _ _ => Raise TypeError
  end.

(** The locals [Test_Loss], [Test_loss_show] and [Test_loss_show_arr]. *)
Record test_state : Type := mkTest {
  Test_Loss : list tfloat;
  Test_loss_show : tfloat;
  Test_loss_show_arr : list tfloat
}.

(** The body of [for i in range(len(Ybatch))]. *)
Definition testing_body (model : W) (ratio : Z) (Ubatch : list (list Obs))
    (Ybatch : list (list Tgt)) (i : nat) (s : test_state)
    : result test_state :=
  NetIn ← index Ubatch i;
  preds ← model_call model NetIn;
  target ← index Ybatch i;
  loss_ ← self_rmse target preds;
  let s1 := mkTest (Test_Loss s ++ [loss_]) (fadd (Test_loss_show s) loss_)
              (Test_loss_show_arr s) in
  rem ← pymod (Z.of_nat i) (ratio - 1);
  if (rem =? 0)%Z && negb (i =? 0)
  then Ok (mkTest (Test_Loss s1) (Fin 0)
             (Test_loss_show_arr s1 ++ [Test_loss_show s1]))
  else Ok s1.

Fixpoint testing_loop (model : W) (ratio : Z) (Ubatch : list (list Obs))
    (Ybatch : list (list Tgt)) (steps : list nat) (s : test_state)
    : result test_state :=
  match steps with
  | [] => Ok s
  | i :: steps' =>
      s' ← testing_body model ratio Ubatch Ybatch i s;
      testing_loop model ratio Ubatch Ybatch steps' s'
  end.

(** [testing(model, test_obs, test_targets, batch_size, ratio)]; its first
    statement is [batch_size = 1]. *)
Definition testing (model : W) (test_obs : list Obs)
    (test_targets : list Tgt) (batch_size ratio : Z)
    : result (list tfloat) :=
  let batch_size := 1%Z in
  Ybatch ← batches test_targets batch_size;
  Ubatch ← batches test_obs batch_size;
  s ← testing_loop model ratio Ubatch Ybatch (seq 0 (length Ybatch))
        (mkTest [] (Fin 0) []);
  Ok (Test_Loss s).
End Testing.

(** A toy instance of the testing loop for examples: an instance of the
    class with no variables whose network returns on every input, and an
    [rmse] that is 1 on every tensor. *)
Definition toy_testing (never_invalid : bool)
    (test_obs test_targets : list nat) (batch_size ratio : Z)
    : result (list tfloat) :=
  testing (W := unit) (Obs := nat) (Tgt := nat) (Pred := unit)
    (Logp := unit)
    (own_model (Mask := unit) (fun _ => tt) (fun _ _ _ => Ok (tt, tt))
       never_invalid)
    (fun _ _ => Ok (Fin 1))
    tt test_obs test_targets batch_size ratio.

End PiSSMRest.

(** ** The embedding on small inputs *)

Module Examples.
Import Torch.

(** Broadcasting a column against a row, as [torch.add] does. *)
Example add_column_row (a b c d : R) :
  add (mkTensor [2; 1] [a; b]) (mkTensor [2] [c; d])
    = Some (mkTensor [2; 2] [a + c; a + d; b + c; b + d]%R).
Proof. reflexivity. Qed.

Example add_mismatch (a b c d e : R) :
  add (mkTensor [2] [a; b]) (mkTensor [3] [c; d; e]) = None.
Proof. reflexivity. Qed.

Example squeeze_column (a b : R) :
  squeeze (mkTensor [2; 1] [a; b]) = mkTensor [2] [a; b].
Proof. reflexivity. Qed.

(** A scalar fills a column, a vector of the wrong size raises. *)
Example column_fill (a : R) (M : matrix) :
  length M = 3 ->
  set_column 1 (mkTensor [] [a]) M
    = Some ((fun row : list R => <[1 := a]> row) <$> M).
Proof.
  intros HM. unfold set_column, column_values. rewrite HM. simpl.
  by destruct M as [|r0 [|r1 [|r2 [|]]]].
Qed.

Example column_mismatch (a b : R) (r0 r1 r2 : list R) :
  set_column 0 (mkTensor [2] [a; b]) [r0; r1; r2] = None.
Proof. reflexivity. Qed.

Example column_read (a b c d : R) :
  column 1 [[a; b]; [c; d]] = Some [b; d].
Proof. reflexivity. Qed.

Example draw_two :
  draw NCLTSysModel.counting_sampler 2 5 = ([INR 6; INR 7], 7).
Proof. reflexivity. Qed.

Import PiSSM.

Example lower_mixed : lower "GiN" = "gin".
Proof. reflexivity. Qed.

Example build_transition_upper (lsd lod nb : nat) :
  build_transition lsd lod nb [] true "LSTM" = Ok (LSTMCell (2 * lsd)).
Proof. reflexivity. Qed.

Example batches_five : batches [1; 2; 3; 4; 5] 2 = Ok [[1; 2]; [3; 4]].
Proof. reflexivity. Qed.

Example batches_zero : batches [1; 2; 3] 0 = Raise ZeroDivisionError.
Proof. reflexivity. Qed.

Example pymod_negative : pymod 7 (-3) = Ok (-2)%Z.
Proof. reflexivity. Qed.

Example resolve_np : resolve "np" = GlobalName.
Proof. reflexivity. Qed.

Example rsum_three (g : nat -> R) :
  TF.rsum 3 g = (0 + g 0%nat + g 1%nat + g 2%nat)%R.
Proof. reflexivity. Qed.

Example slice_dims (p : TF.tensor3) :
  TF.dim2 p = 4 ->
  TF.dim2 (TF.slice_to 2 p) = 2 /\ TF.dim2 (TF.slice_from 2 p) = 2.
Proof. intros Hp. simpl. rewrite Hp. by split. Qed.

End Examples.

(** ** Facts about tensors, columns and loops *)

Module TorchFacts.
Import Torch.

Lemma squeeze_idemp (v : tensor) : squeeze (squeeze v) = squeeze v.
Proof.
  unfold squeeze, squeeze_shape; simpl. f_equal.
  induction (shape v) as [|d sh IH]; [done|].
  rewrite !filter_cons. destruct (decide (d <> 1)) as [Hd|Hd]; simpl.
  - rewrite filter_cons, decide_True by done. by rewrite IH.
  - done.
Qed.

Lemma column_values_squeeze (k : nat) (v : tensor) :
  vec k v -> column_values k (squeeze v) = Some (data v).
Proof.
  intros [Hs Hl]. unfold column_values, squeeze, squeeze_shape. simpl.
  rewrite Hs. destruct (decide (k = 1)) as [->|Hk].
  - destruct (data v) as [|a [|b l]]; simpl in *; try lia. done.
  - rewrite filter_cons. repeat case_decide; try done.
Qed.

Lemma set_column_vec (t k : nat) (v : tensor) (M : matrix) :
  vec k v -> length M = k ->
  set_column t (squeeze v) M =
    Some (zip_with (fun (row : list R) (c : R) => <[t := c]> row) M (data v)).
Proof.
  intros Hv HM. unfold set_column. rewrite HM.
  by rewrite (column_values_squeeze k v Hv).
Qed.

Lemma column_insert_eq (t : nat) (M : matrix) (col : list R) :
  length col = length M -> Forall (fun row => t < length row) M ->
  column t (zip_with (fun (row : list R) (c : R) => <[t := c]> row) M col)
    = Some col.
Proof.
  intros Hlen HM. apply mapM_Some_2.
  revert col Hlen. induction HM as [|row M Hrow HM IH]; intros [|c col] Hlen;
    simpl in *; try lia; constructor.
  - by apply list_lookup_insert_eq.
  - apply IH. lia.
Qed.

Lemma column_insert_ne (t t' : nat) (M : matrix) (col : list R) :
  t <> t' -> length col = length M ->
  column t' (zip_with (fun (row : list R) (c : R) => <[t := c]> row) M col)
    = column t' M.
Proof.
  intros Hne. revert col. unfold column.
  induction M as [|row M IH]; intros [|c col] Hlen; simpl in *; try lia;
    [done|].
  rewrite list_lookup_insert_ne by done. rewrite IH by lia. done.
Qed.

Lemma insert_rows_shape (t cols : nat) (M : matrix) (col : list R) :
  length col = length M -> Forall (fun row => length row = cols) M ->
  length (zip_with (fun (row : list R) (c : R) => <[t := c]> row) M col)
    = length M /\
  Forall (fun row => length row = cols)
    (zip_with (fun (row : list R) (c : R) => <[t := c]> row) M col).
Proof.
  intros Hlen HM. split.
  - rewrite length_zip_with. lia.
  - revert col Hlen. induction HM as [|row M Hrow HM IH]; intros [|c col] Hlen;
      simpl in *; try lia; constructor.
    + by rewrite length_insert.
    + apply IH. lia.
Qed.

Lemma column_is_Some (t cols : nat) (M : matrix) :
  t < cols -> Forall (fun row => length row = cols) M -> is_Some (column t M).
Proof.
  intros Ht HM. unfold column.
  induction HM as [|row M Hrow HM IH]; simpl; [by eexists|].
  destruct (lookup_lt_is_Some_2 row t) as [a Ha]; [lia|].
  destruct IH as [l Hl]. rewrite Ha, Hl. by eexists.
Qed.

Lemma column_cons_inv (t cols : nat) (row row' : list R) (M N : matrix) :
  t < cols -> length row = cols -> length row' = cols ->
  Forall (fun r0 => length r0 = cols) M ->
  Forall (fun r0 => length r0 = cols) N ->
  column t (row :: M) = column t (row' :: N) ->
  row !! t = row' !! t /\ column t M = column t N.
Proof.
  intros Ht Hr Hr' HM HN.
  destruct (column_is_Some t cols M Ht HM) as [l Hl].
  destruct (column_is_Some t cols N Ht HN) as [l' Hl'].
  destruct (lookup_lt_is_Some_2 row t) as [a Ha]; [lia|].
  destruct (lookup_lt_is_Some_2 row' t) as [b Hb]; [lia|].
  unfold column in *. simpl. rewrite Ha, Hb, Hl, Hl'. simpl.
  intros [= -> ->]. done.
Qed.

(** Two matrices with rows of the same length and the same columns are
    equal. *)
Lemma matrix_eq_columns (cols : nat) (M N : matrix) :
  length M = length N ->
  Forall (fun row => length row = cols) M ->
  Forall (fun row => length row = cols) N ->
  (forall t, t < cols -> column t M = column t N) ->
  M = N.
Proof.
  revert N. induction M as [|row M IH]; intros [|row' N] Hlen HM HN Hcol;
    simpl in *; try lia; [done|].
  inversion HM as [|? ? Hr HM']; subst. inversion HN as [|? ? Hr' HN']; subst.
  f_equal.
  - apply list_eq. intros t. destruct (decide (t < length row)) as [Ht|Ht].
    + by destruct (column_cons_inv t (length row) row row' M N Ht eq_refl Hr'
                    HM' HN' (Hcol t Ht)).
    + rewrite !lookup_ge_None_2; [done|lia|lia].
  - apply IH; [lia|done|done|]. intros t Ht.
    by destruct (column_cons_inv t (length row) row row' M N Ht eq_refl Hr'
                   HM' HN' (Hcol t Ht)).
Qed.

Lemma vec_svec (k : nat) (v : tensor) : vec k v -> svec k v.
Proof. intros [Hs Hl]. split; [done|by left]. Qed.

Lemma svec_squeeze (k : nat) (v : tensor) : svec k v -> svec k (squeeze v).
Proof.
  intros [Hl Hs]. split; [done|]. unfold squeeze, squeeze_shape; simpl.
  destruct Hs as [->|[-> ->]].
  - rewrite filter_cons. case_decide; [by left|]. right. split; [lia|done].
  - by right.
Qed.

Lemma column_values_svec (k : nat) (v : tensor) :
  svec k v -> column_values k (squeeze v) = Some (data v).
Proof.
  intros [Hl [Hs|[-> Hs]]].
  - by apply column_values_squeeze.
  - unfold column_values, squeeze, squeeze_shape. simpl. rewrite Hs. simpl.
    destruct (data v) as [|a [|b l]]; simpl in *; try lia. done.
Qed.

Lemma set_column_svec (t k : nat) (v : tensor) (M : matrix) :
  svec k v -> length M = k ->
  set_column t (squeeze v) M =
    Some (zip_with (fun (row : list R) (c : R) => <[t := c]> row) M (data v)).
Proof.
  intros Hv HM. unfold set_column. rewrite HM.
  by rewrite (column_values_svec k v Hv).
Qed.

Lemma mjoin_chunks (k size : nat) (l : list R) :
  mjoin (chunks k size l) = take (k * size) l.
Proof.
  revert l. induction k as [|k IH]; intros l; simpl; [done|].
  by rewrite IH, take_take_drop.
Qed.

Lemma expand_vec (k : nat) (l : list R) :
  length l = k -> expand [k] [k] l = l.
Proof.
  intros Hl. cbn [expand length]. rewrite decide_False by lia.
  rewrite decide_True by done. cbn [expand].
  rewrite list_fmap_id, mjoin_chunks. apply take_ge. simpl. lia.
Qed.

Lemma expand_scalar (l : list R) : expand [1] [] l = l.
Proof. cbn. by rewrite app_nil_r. Qed.

#[local] Arguments expand : simpl never.

Lemma broadcast_shapes_same (k : nat) : broadcast_shapes [k] [k] = Some [k].
Proof.
  unfold broadcast_shapes. simpl. unfold bdim. by rewrite decide_True.
Qed.

(** [torch.add] of a state-like tensor and a vector of the same size. *)
Lemma add_svec (k : nat) (a e : tensor) :
  svec k a -> vec k e ->
  add a e = Some (mkTensor [k] (zip_with Rplus (data a) (data e))).
Proof.
  intros [Ha Hsa] [Hse He]. unfold add. rewrite Hse.
  destruct Hsa as [->|[-> ->]].
  - rewrite broadcast_shapes_same. simpl mbind. by rewrite !expand_vec.
  - change (broadcast_shapes [] [1]) with (Some [1]). simpl mbind.
    by rewrite expand_scalar, (expand_vec 1) by done.
Qed.

Lemma length_draw {gen : Type} (sample : gen -> R * gen) (k : nat) (g : gen) :
  length (draw sample k g).1 = k.
Proof.
  revert g. induction k as [|k IH]; intros g; simpl; [done|].
  destruct (sample g) as [z g1]. specialize (IH g1).
  destruct (draw sample k g1) as [zs g2]. simpl in *. lia.
Qed.

Lemma zip_with_zero_scale (k : nat) (zs : list R) :
  length zs = k ->
  zip_with (fun mu z => (mu + 0 * z)%R) (replicate k 0%R) zs = replicate k 0%R.
Proof.
  revert zs. induction k as [|k IH]; intros [|z zs] Hl; simpl in *; try lia;
    [done|].
  rewrite IH by lia. f_equal. lra.
Qed.

Lemma zip_with_plus_zero (k : nat) (l : list R) :
  length l = k -> zip_with Rplus l (replicate k 0%R) = l.
Proof.
  revert l. induction k as [|k IH]; intros [|a l] Hl; simpl in *; try lia;
    [done|].
  rewrite IH by lia. f_equal. lra.
Qed.

(** [torch.normal(torch.zeros([k]), std)] for a scale that is not negative:
    a vector of [k] entries, all zero when the scale is zero. *)
Lemma normal_zeros {gen : Type} (sn : gen -> R * gen) (k : nat) (std : R)
    (g : gen) :
  (0 <= std)%R ->
  exists e g', normal sn (zeros [k]) std g = Some (e, g') /\ vec k e /\
               (std = 0%R -> data e = replicate k 0%R).
Proof.
  intros Hstd. unfold normal.
  destruct (Rlt_dec std 0) as [Hneg|_]; [lra|].
  pose proof (length_draw sn (length (data (zeros [k]))) g) as Hd.
  destruct (draw sn (length (data (zeros [k]))) g) as [zs g'].
  simpl in Hd. rewrite length_replicate in Hd.
  assert (Hk : k * 1 = k) by lia. rewrite Hk in Hd.
  eexists _, _. split; [done|]. split.
  - split; [done|]. simpl. rewrite length_zip_with, length_replicate. lia.
  - intros ->. simpl. rewrite Hk. by apply zip_with_zero_scale.
Qed.

End TorchFacts.

Module SystemModelFacts.
Import Torch TorchFacts NCLTSysModel.

Lemma for_range_app {W : Type} (body : nat -> W -> option W)
    (l1 l2 : list nat) (w : W) :
  for_range body (l1 ++ l2) w = for_range body l1 w ≫= for_range body l2.
Proof.
  revert w. induction l1 as [|t l1 IH]; intros w; simpl; [done|].
  destruct (body t w) as [w'|]; simpl; [apply IH|done].
Qed.

(** A loop over [range(0, k)] whose body keeps an invariant indexed by the
    number of iterations done runs to the end and establishes it at [k]. *)
Lemma for_range_invariant {W : Type} (I : nat -> W -> Prop)
    (body : nat -> W -> option W) (k : nat) (w : W) :
  I 0 w ->
  (forall t w0, t < k -> I t w0 ->
     exists w1, body t w0 = Some w1 /\ I (S t) w1) ->
  exists w', for_range body (seq 0 k) w = Some w' /\ I k w'.
Proof.
  intros H0. induction k as [|k IH]; intros Hstep.
  - exists w. by split.
  - destruct IH as (w1 & Hrun & Hk); [intros t w0 Ht; apply Hstep; lia|].
    destruct (Hstep k w1) as (w2 & Hb & HS); [lia|done|].
    exists w2. split; [|done].
    rewrite seq_S, for_range_app, Hrun. simpl. by rewrite Hb.
Qed.

Section Runs.
Context {gen : Type}.
Variable std_normal : gen -> R * gen.
Variable uninit : nat -> R.

Lemma empty2_shaped (rows cols : nat) :
  shaped rows cols (empty2 uninit rows cols).
Proof.
  unfold shaped, empty2. split.
  - by rewrite length_fmap, length_seq.
  - apply Forall_fmap, Forall_forall. intros i _. simpl.
    by rewrite length_fmap, length_seq.
Qed.

Lemma state_evolution_ok (self : SystemModel) (g : gen) :
  well_configured self -> svec (m self) (x_prev self) ->
  exists xt g1, state_evolution std_normal self g = Some (xt, g1) /\
    svec (m self) xt /\ (q self = 0%R -> xt = f self (x_prev self)).
Proof.
  intros (Hf & _ & Hq & _) Hp. unfold state_evolution.
  destruct (Req_dec_T (q self) 0) as [Hq0|Hq0].
  - eexists _, _. split; [done|]. split; [by apply Hf|done].
  - destruct (normal_zeros std_normal (m self) (q self) g Hq)
      as (e & g1 & -> & He & _). simpl.
    rewrite (add_svec (m self) _ e (Hf _ Hp) He). simpl.
    eexists _, _. split; [done|]. split; [|done].
    apply vec_svec. split; [done|]. simpl.
    destruct (Hf _ Hp) as [Hl _]. destruct He as [_ Hl'].
    rewrite length_zip_with. lia.
Qed.

Lemma GenerateSequence_body_ok (t T' : nat) (self : SystemModel) (g : gen) :
  well_configured self -> svec (m self) (x_prev self) ->
  shaped (m self) T' (x self) -> shaped (n self) T' (y self) ->
  exists xt e g',
    GenerateSequence_body std_normal t (self, g) =
      Some (upd (zip_with (fun (row : list R) (c : R) => <[t := c]> row)
                          (x self) (data xt))
                (zip_with (fun (row : list R) (c : R) => <[t := c]> row)
                          (y self)
                          (zip_with Rplus (data (h self xt)) (data e)))
                xt self, g') /\
    svec (m self) xt /\ vec (n self) e /\
    (q self = 0%R -> xt = f self (x_prev self)) /\
    (r self = 0%R -> data e = replicate (n self) 0%R).
Proof.
  intros Hwf Hp [Hx _] [Hy _].
  destruct (state_evolution_ok self g Hwf Hp) as (xt & g1 & Hev & Hxt & Hq0).
  destruct Hwf as (Hf & Hh & Hq & Hr).
  destruct (normal_zeros std_normal (n self) (r self) g1 Hr)
    as (e & g2 & Hn & He & Hr0).
  exists xt, e, g2. split; [|done].
  unfold GenerateSequence_body. rewrite Hev. simpl. rewrite Hn. simpl.
  rewrite (add_svec (n self) _ e (Hh _ Hxt) He). simpl.
  rewrite (set_column_svec t (m self) xt (x self) Hxt Hx). simpl.
  assert (Hyt : svec (n self)
            (mkTensor [n self] (zip_with Rplus (data (h self xt)) (data e)))).
  { apply vec_svec. split; [done|]. simpl.
    destruct (Hh _ Hxt) as [Hl _]. destruct He as [_ Hl'].
    rewrite length_zip_with. lia. }
  rewrite (set_column_svec t (n self) _ (y self) Hyt Hy). done.
Qed.

Lemma run_invariant_step (self : SystemModel) (T' t : nat)
    (w0 : SystemModel * gen) :
  well_configured self -> t < T' -> run_invariant self T' t w0 ->
  exists w1, GenerateSequence_body std_normal t w0 = Some w1 /\
             run_invariant self T' (S t) w1.
Proof.
  intros Hwf Ht (X & Y & P & Hw & HP & HX & HY & Hdet).
  destruct w0 as [s g]. simpl in Hw. subst s.
  destruct (GenerateSequence_body_ok t T' (upd X Y P self) g)
    as (xt & e & g' & Hb & Hxt & He & Hq0 & Hr0); try done.
  simpl in *. eexists. split; [exact Hb|].
  assert (Hlx : length (data xt) = length X).
  { destruct Hxt as [Hl1 _]. destruct HX as [Hl2 _]. by rewrite Hl1, Hl2. }
  assert (Hly : length (zip_with Rplus (data (h self xt)) (data e))
                = length Y).
  { destruct Hwf as (_ & Hh & _). destruct (Hh _ Hxt) as [Hl _].
    destruct He as [_ Hl']. destruct HY as [HlY _].
    by rewrite length_zip_with, Hl, Hl', HlY, Nat.min_id. }
  exists (zip_with (fun (row : list R) (c : R) => <[t := c]> row) X (data xt)),
    (zip_with (fun (row : list R) (c : R) => <[t := c]> row) Y
       (zip_with Rplus (data (h self xt)) (data e))), xt.
  split; [done|]. split; [done|].
  split; [|split].
  - destruct HX as [HX1 HX2].
    destruct (insert_rows_shape t T' X (data xt) Hlx HX2). split; [lia|done].
  - destruct HY as [HY1 HY2].
    destruct (insert_rows_shape t T' Y _ Hly HY2). split; [lia|done].
  - intros Hq. destruct (Hdet Hq) as (HPk & HcX & HcY).
    specialize (Hq0 Hq). subst xt P.
    split; [done|]. split.
    + intros t' Ht'. destruct (decide (t' = t)) as [->|Hne].
      * apply column_insert_eq; [done|].
        destruct HX as [_ HX2]. eapply Forall_impl; [exact HX2|].
        simpl. intros row ->. done.
      * rewrite column_insert_ne by done. apply HcX. lia.
    + intros Hr t' Ht'. destruct (decide (t' = t)) as [->|Hne].
      * rewrite (Hr0 Hr) in *.
        destruct Hwf as (_ & Hh & _). destruct (Hh _ Hxt) as [Hl _].
        rewrite zip_with_plus_zero in * by done.
        apply column_insert_eq; [done|].
        destruct HY as [_ HY2]. eapply Forall_impl; [exact HY2|].
        simpl. intros row ->. done.
      * rewrite column_insert_ne by done. apply HcY; [done|lia].
Qed.

(** A run of [GenerateSequence] on a well-configured model returns, leaves
    every attribute but [x], [y] and [x_prev] as it was, and without
    process noise fills [x] with the iterates of [f]. *)
Lemma GenerateSequence_run (Q_gen R_gen : tensor) (T' : nat)
    (self : SystemModel) (g : gen) :
  well_configured self -> svec (m self) (m1x_0 self) ->
  exists w', GenerateSequence std_normal uninit Q_gen R_gen T' (self, g)
               = Some w' /\ run_invariant self T' T' w'.
Proof.
  intros Hwf H0. unfold GenerateSequence.
  apply (for_range_invariant (run_invariant self T')).
  - exists (empty2 uninit (m self) T'), (empty2 uninit (n self) T'),
      (m1x_0 self).
    split; [done|]. split; [done|].
    split; [apply empty2_shaped|]. split; [apply empty2_shaped|].
    intros _. split; [done|]. split; [intros; lia|intros; lia].
  - intros t w0 Ht. by apply run_invariant_step.
Qed.
End Runs.

Lemma same_model_refl (s : SystemModel) : same_model s s.
Proof. by repeat split. Qed.

Lemma same_model_well_configured (s s' : SystemModel) :
  same_model s s' -> well_configured s' -> well_configured s.
Proof.
  intros (Hf & Hh & Hm & Hn & Hq & Hr). unfold well_configured.
  by rewrite Hf, Hh, Hm, Hn, Hq, Hr.
Qed.

Section Batches.
Context {gen : Type}.
Variable std_normal : gen -> R * gen.
Variable uniform01 : gen -> R * gen.
Variable uninit : nat -> R.
Variable parameters_variance : R.

Lemma random_init_svec (k : nat) (s : SystemModel) (g : gen) :
  svec k (m1x_0 s) -> svec k (random_init uniform01 parameters_variance s g).
Proof.
  intros [Hl Hs]. unfold random_init, rand_like.
  pose proof (length_draw uniform01 (length (data (m1x_0 s))) g) as Hd.
  destruct (draw uniform01 (length (data (m1x_0 s))) g) as [us g'].
  simpl in *. split; simpl; [|done]. by rewrite length_fmap, Hd.
Qed.

Lemma batch_invariant_step (self : SystemModel) (size T' : nat)
    (randomInit : bool) (k : nat) (st : tensor * (SystemModel * gen)) :
  well_configured self -> k < size ->
  batch_invariant self size T' randomInit k st ->
  exists st',
    GenerateBatch_body std_normal uniform01 uninit parameters_variance
      T' randomInit k st = Some st' /\
    batch_invariant self size T' randomInit (S k) st' /\
    st'.1 = (if randomInit
             then random_init uniform01 parameters_variance st.2.1 st.2.2
             else st.1) /\
    m1x_0 st'.2.1 = squeeze st'.1.
Proof.
  intros Hwf Hk. destruct st as [ic [s g]].
  intros (Hsame & Hic & Hm1 & HI & HT & Hfix & Hsq & Htraj).
  unfold GenerateBatch_body.
  set (pick := if randomInit
               then let '(u, g') := rand_like uniform01 (m1x_0 s) g in
                    (scale parameters_variance u, g')
               else (ic, g)).
  assert (Hpick : pick.1 = (if randomInit
                            then random_init uniform01 parameters_variance s g
                            else ic)).
  { unfold pick, random_init. destruct randomInit; [|done].
    by destruct (rand_like uniform01 (m1x_0 s) g). }
  destruct pick as [ic' g1]. simpl in Hpick.
  assert (Hic' : svec (m self) ic').
  { rewrite Hpick. destruct randomInit; [|done]. by apply random_init_svec. }
  set (self1 := InitSequence ic' (m2x_0 s) s).
  assert (Hsame1 : same_model self1 self) by exact Hsame.
  assert (Hwf1 : well_configured self1)
    by (by apply (same_model_well_configured self1 self)).
  assert (Hm : m self1 = m self) by (by destruct Hsame as (_ & _ & ? & _)).
  assert (Hstart : svec (m self1) (m1x_0 self1)).
  { rewrite Hm. simpl. by apply svec_squeeze. }
  destruct (GenerateSequence_run std_normal uninit (Q_ self1) (R_ self1) T'
              self1 g1 Hwf1 Hstart) as ([s2 g2] & Hrun & Hinv).
  rewrite Hrun. simpl.
  destruct Hinv as (X & Y & P & Hs2 & HP & HX & HY & Hdet).
  simpl in Hs2. subst s2. simpl.
  eexists. split; [done|]. simpl.
  split; [|split; [done|done]].
  split; [done|]. split; [done|]. split; [by apply svec_squeeze|].
  split; [by rewrite length_insert|]. split; [by rewrite length_insert|].
  split; [intros ->; by rewrite Hpick, Hfix|]. split; [done|].
  intros Hmode Hq i Hi. subst randomInit.
  destruct (decide (i = k)) as [->|Hne].
  - exists X. split; [apply list_lookup_insert_eq; lia|].
    intros t Ht.
    assert (Hq1 : q self1 = 0%R).
    { destruct Hsame as (_ & _ & _ & _ & Hqq & _). simpl. by rewrite Hqq. }
    destruct (Hdet Hq1) as (_ & HcX & _).
    rewrite (HcX t Ht). simpl.
    destruct Hsame as (-> & _). by rewrite Hpick, Hfix.
  - rewrite list_lookup_insert_ne by done. apply Htraj; [done|done|lia].
Qed.

Lemma empty3_length (k rows cols : nat) :
  length (empty3 uninit k rows cols) = k.
Proof. unfold empty3. by rewrite length_fmap, length_seq. Qed.

(** The loop of [GenerateBatch] on a well-configured model runs through
    any number [k <= size] of iterations. *)
Lemma GenerateBatch_loop_run (self : SystemModel) (g : gen) (size T' : nat)
    (randomInit : bool) (k : nat) :
  well_configured self -> svec (m self) (m1x_0 self) -> k <= size ->
  exists st,
    GenerateBatch_loop std_normal uniform01 uninit parameters_variance
      size T' randomInit k (self, g) = Some st /\
    batch_invariant self size T' randomInit k st.
Proof.
  intros Hwf H0 Hk. unfold GenerateBatch_loop.
  apply (for_range_invariant (batch_invariant self size T' randomInit)).
  - simpl. split; [by repeat split|]. split; [done|]. split; [done|].
    split; [apply empty3_length|]. split; [apply empty3_length|].
    split; [done|]. split; [lia|]. intros; lia.
  - intros t st Ht Hinv.
    destruct (batch_invariant_step self size T' randomInit t st Hwf)
      as (st' & Hb & Hinv' & _); [lia|done|].
    by exists st'.
Qed.

Lemma GenerateBatch_loop_S (size T' : nat) (randomInit : bool) (k : nat)
    (w : SystemModel * gen) :
  GenerateBatch_loop std_normal uniform01 uninit parameters_variance
    size T' randomInit (S k) w =
  GenerateBatch_loop std_normal uniform01 uninit parameters_variance
    size T' randomInit k w
  ≫= GenerateBatch_body std_normal uniform01 uninit parameters_variance
       T' randomInit k.
Proof.
  destruct w as [self g]. unfold GenerateBatch_loop.
  rewrite seq_S, for_range_app. simpl.
  destruct (for_range _ (seq 0 k) _) as [st|]; simpl; [|done].
  by destruct (GenerateBatch_body _ _ _ _ _ _ _ st).
Qed.
End Batches.
End SystemModelFacts.

(** ** The simulator: generated sequences and batches *)

Module SystemModelSpec.
Import Torch TorchFacts NCLTSysModel SystemModelFacts.

Lemma iter_id {A : Type} (k : nat) (a : A) : Nat.iter k (fun v => v) a = a.
Proof. induction k as [|k IH]; simpl; [done|exact IH]. Qed.

Lemma first_coordinate_svec (keepdim : bool) (v : tensor) :
  svec 2 v -> svec 1 (first_coordinate keepdim v).
Proof.
  intros [Hl _]. split; simpl.
  - rewrite length_take. lia.
  - destruct keepdim; [by left|by right].
Qed.

Lemma scenario_well_configured (dt : R) (m2 : tensor) (keepdim : bool) :
  well_configured (scenario_model dt m2 keepdim).
Proof.
  split; [intros v Hv; exact Hv|]. split; [|simpl; lra].
  intros v Hv. by apply first_coordinate_svec.
Qed.

Lemma scenario_m1x_0_svec : svec 2 scenario_m1x_0.
Proof. split; [done|by left]. Qed.

(** A run of [GenerateSequence] changes [x], [y] and [x_prev] only. *)
Lemma GenerateSequence_frame {gen : Type} (std_normal : gen -> R * gen)
    (uninit : nat -> R) (Q_gen R_gen : tensor) (T' : nat)
    (s s' : SystemModel) (g g' : gen) :
  GenerateSequence std_normal uninit Q_gen R_gen T' (s, g) = Some (s', g') ->
  exists X Y P, s' = upd X Y P s.
Proof.
  unfold GenerateSequence.
  assert (Hloop : forall ts s0 g0,
    for_range (GenerateSequence_body std_normal) ts (s0, g0) = Some (s', g') ->
    exists X Y P, s' = upd X Y P s0).
  { induction ts as [|t ts IH]; intros s0 g0; simpl.
    - intros [= <- <-]. exists (x s0), (y s0), (x_prev s0). by destruct s0.
    - destruct (state_evolution std_normal s0 g0) as [[xt g1]|]; [|done].
      simpl. destruct (normal _ _ _ g1) as [[er g2]|]; [|done]. simpl.
      destruct (add _ er) as [yt|]; [|done]. simpl.
      destruct (set_column t (squeeze xt) _) as [x'|]; [|done]. simpl.
      destruct (set_column t (squeeze yt) _) as [y'|]; [|done]. simpl.
      intros Hrest. destruct (IH _ _ Hrest) as (X & Y & P & ->).
      by exists X, Y, P. }
  intros Hrun. destruct (Hloop _ _ _ Hrun) as (X & Y & P & ->).
  by exists X, Y, P.
Qed.

(** A run of five steps on any object that carries the model of the
    scenario and its initial state. *)
Lemma scenario_run {gen : Type} (std_normal : gen -> R * gen)
    (uninit : nat -> R) (Q_gen R_gen : tensor) (self : SystemModel)
    (g : gen) (keepdim : bool) :
  f self = (fun v => v) -> h self = first_coordinate keepdim ->
  m self = 2 -> n self = 1 -> q self = 0%R -> r self = 0%R ->
  m1x_0 self = scenario_m1x_0 ->
  exists X Y P g',
    GenerateSequence std_normal uninit Q_gen R_gen 5 (self, g)
      = Some (upd X Y P self, g') /\
    X = [[1; 1; 1; 1; 1]; [0; 0; 0; 0; 0]]%R /\
    Y = [[1; 1; 1; 1; 1]]%R.
Proof.
  intros Hf Hh Hm Hn Hq Hr H0.
  assert (Hwf : well_configured self).
  { unfold well_configured. rewrite Hf, Hh, Hm, Hn, Hq, Hr.
    split; [intros v Hv; exact Hv|]. split; [|lra].
    intros v Hv. by apply first_coordinate_svec. }
  assert (Hs0 : svec (m self) (m1x_0 self)).
  { rewrite Hm, H0. exact scenario_m1x_0_svec. }
  destruct (GenerateSequence_run std_normal uninit Q_gen R_gen 5 self g
              Hwf Hs0)
    as ([s' g'] & Hrun & X & Y & P & Hs & _ & HX & HY & Hdet).
  simpl in Hs. subst s'. exists X, Y, P, g'. split; [done|].
  destruct (Hdet Hq) as (_ & HcX & HcY). specialize (HcY Hr).
  rewrite Hm in HX. rewrite Hn in HY.
  destruct HX as [HX1 HX2]. destruct HY as [HY1 HY2]. split.
  - apply (matrix_eq_columns 5); [done|done|by repeat constructor|].
    intros t Ht. rewrite (HcX t Ht), Hf, H0, iter_id.
    do 5 (destruct t as [|t]; [done|]). lia.
  - apply (matrix_eq_columns 5); [done|done|by repeat constructor|].
    intros t Ht. rewrite (HcY t Ht), Hf, Hh, H0, iter_id.
    do 5 (destruct t as [|t]; [done|]). lia.
Qed.

Section Claims.
Context {gen : Type}.
Variable std_normal : gen -> R * gen.
Variable uniform01 : gen -> R * gen.
Variable uninit : nat -> R.
Variable parameters_variance : R.

(** C1.  Without process noise ([q = 0]) a run of [GenerateSequence] on a
    model whose [f] maps states to states and whose [h] maps states to
    observations returns, and column [t] of the generated states [x] is
    [f] applied [t + 1] times to the stored initial state [m1x_0],
    whatever the generator draws. *)
Theorem GenerateSequence_noiseless_states (Q_gen R_gen : tensor) (T' : nat)
    (self : SystemModel) (g : gen) :
  q self = 0%R -> (0 <= r self)%R ->
  svec (m self) (m1x_0 self) ->
  (forall v, svec (m self) v -> svec (m self) (f self v)) ->
  (forall v, svec (m self) v -> svec (n self) (h self v)) ->
  exists self' g',
    GenerateSequence std_normal uninit Q_gen R_gen T' (self, g)
      = Some (self', g') /\
    forall t, t < T' ->
      column t (x self')
        = Some (data (Nat.iter (S t) (f self) (m1x_0 self))).
Proof.
  intros Hq Hr H0 Hf Hh.
  assert (Hwf : well_configured self)
    by (split; [done|split; [done|split; lra]]).
  destruct (GenerateSequence_run std_normal uninit Q_gen R_gen T' self g
              Hwf H0) as ([s' g'] & Hrun & X & Y & P & Hs & _ & _ & _ & Hdet).
  exists s', g'. split; [done|]. simpl in Hs. subst s'. simpl.
  by destruct (Hdet Hq) as (_ & HcX & _).
Qed.

(** C2.  The end-to-end scenario: [m = 2], [n = 1], [T = 5], [q = r = 0],
    [f] the identity, [h] the first coordinate (as [v[:1]] or as [v[0]]),
    initial state [[1, 0]].
    [GenerateSequence] returns with the states
    [[[1,1,1,1,1],[0,0,0,0,0]]] and the observations [[[1,1,1,1,1]]]. *)
Theorem GenerateSequence_scenario (dt : R) (m2 Q_gen R_gen : tensor)
    (keepdim : bool) (g : gen) :
  exists self' g',
    GenerateSequence std_normal uninit Q_gen R_gen 5
      (scenario_model dt m2 keepdim, g) = Some (self', g') /\
    x self' = [[1; 1; 1; 1; 1]; [0; 0; 0; 0; 0]]%R /\
    y self' = [[1; 1; 1; 1; 1]]%R.
Proof.
  destruct (scenario_run std_normal uninit Q_gen R_gen
              (scenario_model dt m2 keepdim) g keepdim)
    as (X & Y & P & g' & Hrun & -> & ->); try done.
  by eexists _, _.
Qed.

(** The same scenario through [GenerateBatch(1, 5)]: one input and one
    target trajectory. *)
Lemma GenerateBatch_scenario (dt : R) (m2 : tensor) (keepdim : bool)
    (g : gen) :
  exists w',
    GenerateBatch std_normal uniform01 uninit parameters_variance 1 5 false
      (scenario_model dt m2 keepdim, g)
    = Some (([[[1; 1; 1; 1; 1]]]%R,
             [[[1; 1; 1; 1; 1]; [0; 0; 0; 0; 0]]]%R), w').
Proof.
  unfold GenerateBatch, GenerateBatch_loop.
  cbn [seq for_range GenerateBatch_body].
  set (self0 := GenerateBatch_start uninit 1 5
                  (scenario_model dt m2 keepdim)).
  set (self1 := InitSequence (m1x_0 self0) (m2x_0 self0) self0).
  destruct (scenario_run std_normal uninit (Q_ self1) (R_ self1) self1 g
              keepdim) as (X & Y & P & g' & Hrun & -> & ->); try done.
  rewrite Hrun. by eexists.
Qed.

Lemma GenerateBatch_body_overwrites (T' : nat) (randomInit : bool) (k : nat)
    (st st' : tensor * (SystemModel * gen)) :
  GenerateBatch_body std_normal uniform01 uninit parameters_variance
    T' randomInit k st = Some st' ->
  m1x_0 st'.2.1 = squeeze st'.1 /\
  st'.1 = (if randomInit
           then random_init uniform01 parameters_variance st.2.1 st.2.2
           else st.1).
Proof.
  destruct st as [ic [s g]]. unfold GenerateBatch_body, random_init.
  cbn [fst snd]. destruct randomInit.
  - destruct (rand_like uniform01 (m1x_0 s) g) as [u g1].
    destruct (GenerateSequence _ _ _ _ _ _) as [[s2 g2]|] eqn:Hrun; [|done].
    destruct (GenerateSequence_frame _ _ _ _ _ _ _ _ _ Hrun)
      as (X & Y & P & ->).
    by intros [= <-].
  - destruct (GenerateSequence _ _ _ _ _ _) as [[s2 g2]|] eqn:Hrun; [|done].
    destruct (GenerateSequence_frame _ _ _ _ _ _ _ _ _ Hrun)
      as (X & Y & P & ->).
    by intros [= <-].
Qed.

(** With [randomInit=False] the local [initConditions] stays the
    [m1x_0] the object had when [GenerateBatch] was called. *)
Lemma GenerateBatch_loop_fixed (size T' k : nat) (self : SystemModel)
    (g : gen) (st : tensor * (SystemModel * gen)) :
  GenerateBatch_loop std_normal uniform01 uninit parameters_variance
    size T' false k (self, g) = Some st ->
  st.1 = m1x_0 self.
Proof.
  revert st. induction k as [|k IH]; intros st.
  - by intros [= <-].
  - rewrite GenerateBatch_loop_S.
    destruct (GenerateBatch_loop _ _ _ _ _ _ _ k _) as [st0|]; [|done].
    simpl. intros Hb.
    destruct (GenerateBatch_body_overwrites _ _ _ _ _ Hb) as [_ ->].
    by apply IH.
Qed.

(** C6.  In a call [GenerateBatch(size, T, randomInit=False)] on a
    well-configured model, with or without noise, every iteration [k] of
    the loop is reached with the local [initConditions] still the [m1x_0]
    stored when the call was made; it runs [GenerateSequence] on the object
    whose [m1x_0] is that state squeezed, stores the [y] and [x] of that
    run as [Input[k]] and [Target[k]], and leaves the stored [m1x_0] equal
    to that same squeezed state.  The call returns, and without process
    noise every target trajectory consists of the iterates of [f] from that
    one state. *)
Theorem GenerateBatch_shared_initial_state (size T' : nat)
    (self : SystemModel) (g : gen) :
  well_configured self -> svec (m self) (m1x_0 self) ->
  (forall k, k < size ->
     exists s gk s2 s' g',
       GenerateBatch_loop std_normal uniform01 uninit parameters_variance
         size T' false k (self, g) = Some (m1x_0 self, (s, gk)) /\
       GenerateSequence std_normal uninit (Q_ s) (R_ s) T'
         (InitSequence (m1x_0 self) (m2x_0 s) s, gk) = Some (s2, g') /\
       x_prev (GenerateSequence_start uninit T'
                 (InitSequence (m1x_0 self) (m2x_0 s) s))
         = squeeze (m1x_0 self) /\
       m1x_0 s2 = squeeze (m1x_0 self) /\
       GenerateBatch_loop std_normal uniform01 uninit parameters_variance
         size T' false (S k) (self, g) = Some (m1x_0 self, (s', g')) /\
       m1x_0 s' = squeeze (m1x_0 self) /\
       Input s' !! k = Some (y s2) /\ Target s' !! k = Some (x s2)) /\
  exists out w',
    GenerateBatch std_normal uniform01 uninit parameters_variance
      size T' false (self, g) = Some (out, w') /\
    length out.2 = size /\
    (q self = 0%R -> forall i, i < size ->
       exists X, out.2 !! i = Some X /\ forall t, t < T' ->
         column t X =
           Some (data (Nat.iter (S t) (f self) (squeeze (m1x_0 self))))).
Proof.
  intros Hwf H0. split.
  - intros k Hk.
    destruct (GenerateBatch_loop_run std_normal uniform01 uninit
                parameters_variance self g size T' false k Hwf H0)
      as ([ic [s gk]] & Hloop & Hinv); [lia|].
    pose proof (GenerateBatch_loop_fixed _ _ _ _ _ _ Hloop) as Hic.
    cbn [fst] in Hic. subst ic.
    destruct (batch_invariant_step std_normal uniform01 uninit
                parameters_variance self size T' false k _ Hwf Hk Hinv)
      as ([ic' [s' g']] & Hb & _ & Hic' & Hm).
    cbn [fst snd] in Hic', Hm. subst ic'.
    destruct Hinv as (_ & _ & _ & HI & HT & _).
    assert (HS : GenerateBatch_loop std_normal uniform01 uninit
                   parameters_variance size T' false (S k) (self, g)
                 = Some (m1x_0 self, (s', g')))
      by (by rewrite GenerateBatch_loop_S, Hloop).
    unfold GenerateBatch_body in Hb.
    change (Q_ (InitSequence (m1x_0 self) (m2x_0 s) s)) with (Q_ s) in Hb.
    change (R_ (InitSequence (m1x_0 self) (m2x_0 s) s)) with (R_ s) in Hb.
    destruct (GenerateSequence std_normal uninit (Q_ s) (R_ s) T'
                (InitSequence (m1x_0 self) (m2x_0 s) s, gk))
      as [[s2 g2]|] eqn:Hrun; [|done].
    cbn [mbind option_bind] in Hb. injection Hb as Hs' Hg'. subst g2.
    destruct (GenerateSequence_frame _ _ _ _ _ _ _ _ _ Hrun)
      as (X & Y & P & Es2).
    exists s, gk, s2, s', g'. split; [done|]. split; [done|].
    split; [done|]. split; [by rewrite Es2|].
    split; [exact HS|].
    split; [done|]. rewrite <- Hs', Es2.
    cbn [Input Target set_Input set_Target upd set_x set_y set_x_prev x y
         InitSequence set_m1x_0 set_m2x_0].
    split; apply list_lookup_insert_eq; lia.
  - destruct (GenerateBatch_loop_run std_normal uniform01 uninit
                parameters_variance self g size T' false size Hwf H0)
      as ([ic [s' g']] & Hloop & Hinv); [lia|].
    unfold GenerateBatch. rewrite Hloop. simpl.
    eexists _, _. split; [done|]. simpl.
    destruct Hinv as (_ & _ & _ & _ & HT & _ & _ & Htraj).
    split; [done|]. intros Hq. by apply Htraj.
Qed.

End Claims.

(** The scenario model with a counting generator meets the hypotheses of
    C1. *)
Lemma GenerateSequence_noiseless_states_witness :
  q example_model = 0%R /\
  exists self' g',
    GenerateSequence counting_sampler (fun _ => 0%R) (zeros []) (zeros []) 5
      (example_model, 0) = Some (self', g') /\
    forall t, t < 5 ->
      column t (x self')
        = Some (data (Nat.iter (S t) (f example_model)
                        (m1x_0 example_model))).
Proof.
  split; [reflexivity|].
  apply (GenerateSequence_noiseless_states counting_sampler (fun _ => 0%R)
           (zeros []) (zeros []) 5 example_model 0).
  - reflexivity.
  - simpl. lra.
  - split; [reflexivity|left; reflexivity].
  - intros v Hv. exact Hv.
  - intros v [Hl _]. simpl in *. split; [|left; reflexivity]. simpl.
    rewrite length_take. lia.
Defined.

(** Three trajectories of the scenario model with [randomInit=False]. *)
Lemma GenerateBatch_shared_initial_state_witness :
  (forall k, k < 3 ->
     exists s gk s2 s' g',
       GenerateBatch_loop counting_sampler counting_sampler (fun _ => 0%R) 2
         3 5 false k (example_model, 0)
         = Some (m1x_0 example_model, (s, gk)) /\
       GenerateSequence counting_sampler (fun _ => 0%R) (Q_ s) (R_ s) 5
         (InitSequence (m1x_0 example_model) (m2x_0 s) s, gk)
         = Some (s2, g') /\
       x_prev (GenerateSequence_start (fun _ => 0%R) 5
                 (InitSequence (m1x_0 example_model) (m2x_0 s) s))
         = squeeze (m1x_0 example_model) /\
       m1x_0 s2 = squeeze (m1x_0 example_model) /\
       GenerateBatch_loop counting_sampler counting_sampler (fun _ => 0%R) 2
         3 5 false (S k) (example_model, 0)
         = Some (m1x_0 example_model, (s', g')) /\
       m1x_0 s' = squeeze (m1x_0 example_model) /\
       Input s' !! k = Some (y s2) /\ Target s' !! k = Some (x s2)) /\
  exists out w',
    GenerateBatch counting_sampler counting_sampler (fun _ => 0%R) 2
      3 5 false (example_model, 0) = Some (out, w') /\
    length out.2 = 3 /\
    (q example_model = 0%R -> forall i, i < 3 ->
       exists X, out.2 !! i = Some X /\ forall t, t < 5 ->
         column t X =
           Some (data (Nat.iter (S t) (f example_model)
                         (squeeze (m1x_0 example_model))))).
Proof.
  apply (GenerateBatch_shared_initial_state counting_sampler counting_sampler
           (fun _ => 0%R) 2 3 5 example_model 0).
  - split; [intros v Hv; exact Hv|]. split; [|simpl; lra].
    intros v [Hl _]. simpl in *. split; [|left; reflexivity]. simpl.
    rewrite length_take. lia.
  - split; [reflexivity|left; reflexivity].
Defined.

End SystemModelSpec.

(** ** The loss functions *)

Module LossSpec.
Import TF PiSSM.

Lemma rsum_ext (k : nat) (g g' : nat -> R) :
  (forall i, i < k -> g i = g' i) -> rsum k g = rsum k g'.
Proof.
  induction k as [|k IH]; intros Hg; simpl; [done|].
  rewrite IH by (intros i Hi; apply Hg; lia). by rewrite Hg by lia.
Qed.

Lemma rsum_shift (k : nat) (g : nat -> R) (c : R) :
  rsum k (fun i => (g i + c)%R) = (rsum k g + INR k * c)%R.
Proof.
  induction k as [|k IH]; [simpl; lra|].
  cbn [rsum]. rewrite IH, S_INR. lra.
Qed.

Lemma bdim_same (a : nat) : bdim a a = Some a.
Proof. unfold bdim. by rewrite decide_True. Qed.

Lemma bdim_comm (a b : nat) : bdim a b = bdim b a.
Proof. unfold bdim. repeat case_decide; congruence. Qed.

Lemma bidx_lt (a b d i : nat) : bdim a b = Some d -> i < d -> bidx a i < a.
Proof.
  unfold bdim, bidx. repeat case_decide; intros [= <-] Hi; lia.
Qed.

Lemma bidx_id (d i : nat) : i < d -> bidx d i = i.
Proof. unfold bidx. case_decide; lia. Qed.

(** The baseline absorbs a constant added to the reward. *)
Lemma mean_shift (k : nat) (g : nat -> R) (c : R) :
  0 < k ->
  (rsum k (fun i => (g i + c)%R) / INR k = rsum k g / INR k + c)%R.
Proof.
  intros Hk. rewrite rsum_shift.
  assert (INR k <> 0%R) by (apply not_0_INR; lia). by field.
Qed.

Section Claims.
Variable output_dim : nat.

(** C3.  [reinforce_loss] is the code from the baseline on, applied to the
    reward [-sample_wise_error].  That code returns the same value (or
    raises alike) when a constant [c] is added to every entry of the
    reward, because the per-step batch mean it subtracts absorbs [c]; so
    replacing the reward by [reward + c] inside [reinforce_loss] leaves its
    value unchanged. *)
Theorem reinforce_loss_shift_invariant :
  (forall target pred_mean_var logp_list,
     reinforce_loss output_dim target pred_mean_var logp_list =
     sample_wise_error output_dim target pred_mean_var ≫= fun swe =>
       reinforce_from_reward (dim0 (slice_to output_dim pred_mean_var))
         (map2 Ropp swe) logp_list) /\
  (forall batch reward logp_list c,
     reinforce_from_reward batch (map2 (fun v => (v + c)%R) reward) logp_list
     = reinforce_from_reward batch reward logp_list) /\
  (forall target pred_mean_var logp_list c,
     (sample_wise_error output_dim target pred_mean_var ≫= fun swe =>
        reinforce_from_reward (dim0 (slice_to output_dim pred_mean_var))
          (map2 (fun v => (v + c)%R) (map2 Ropp swe)) logp_list)
     = reinforce_loss output_dim target pred_mean_var logp_list).
Proof.
  assert (Hshift : forall batch reward logp_list c,
    reinforce_from_reward batch (map2 (fun v => (v + c)%R) reward) logp_list
    = reinforce_from_reward batch reward logp_list); last first.
  { split; [done|]. split; [exact Hshift|].
    intros target pred_mean_var logp_list c. unfold reinforce_loss.
    destruct (sample_wise_error output_dim target pred_mean_var) as [swe|];
      [|done].
    cbn [mbind option_bind]. apply Hshift. }
  intros batch reward logp_list c. unfold reinforce_from_reward.
  destruct (squeeze_last logp_list) as [logps|]; [|done].
  cbn [mbind option_bind]. unfold zip2.
  cbn [rows cols map2 tile_rows expand_dims0 reduce_mean_axis0 len].
  destruct (bdim (rows reward) (batch * 1)) as [d0|] eqn:E0; [|done].
  cbn [mbind option_bind]. rewrite bdim_same. cbn [mbind option_bind rows cols].
  destruct (bdim d0 (rows logps)) as [e0|] eqn:E1; [|done].
  cbn [mbind option_bind].
  destruct (bdim (cols reward) (cols logps)) as [e1|] eqn:E2; [|done].
  cbn [mbind option_bind]. f_equal. unfold reduce_mean2.
  cbn [rows cols at2 at1]. f_equal.
  apply rsum_ext. intros i Hi. apply rsum_ext. intros j Hj.
  assert (Hrow : bidx (rows reward) (bidx d0 i) < rows reward).
  { apply (bidx_lt _ _ _ _ E0). by apply (bidx_lt _ _ _ _ E1). }
  cbn [at2 at1 map2 tile_rows expand_dims0 reduce_mean_axis0 rows cols].
  rewrite mean_shift by lia. lra.
Qed.

(** The entries of [element_wise_nll] for a target of shape [B, T, D] and
    a prediction of shape [B, T, 2D]. *)
Lemma element_wise_nll_entries (target pred_mean_var : tensor3) :
  dim2 target = output_dim -> dim2 pred_mean_var = output_dim + output_dim ->
  dim0 pred_mean_var = dim0 target -> dim1 pred_mean_var = dim1 target ->
  exists e,
    element_wise_nll output_dim target pred_mean_var = Some e /\
    dim0 e = dim0 target /\ dim1 e = dim1 target /\ dim2 e = output_dim /\
    forall b t k, b < dim0 target -> t < dim1 target -> k < output_dim ->
      at3 e b t k =
        nll_entry (at3 target b t k) (at3 pred_mean_var b t k)
                  (at3 pred_mean_var b t (output_dim + k)).
Proof.
  intros H2 HP2 HP0 HP1. unfold element_wise_nll, shifted_variance, zip3.
  cbn [dim0 dim1 dim2 slice_to slice_from map3].
  rewrite HP0, HP1, HP2, H2.
  replace (output_dim `min` (output_dim + output_dim)) with output_dim by lia.
  replace (output_dim + output_dim - output_dim) with output_dim by lia.
  rewrite !bdim_same. cbn [mbind option_bind dim0 dim1 dim2].
  rewrite !bdim_same. cbn [mbind option_bind dim0 dim1 dim2].
  rewrite !bdim_same. cbn [mbind option_bind dim0 dim1 dim2].
  eexists. split; [done|]. cbn [dim0 dim1 dim2 at3].
  split; [done|]. split; [done|]. split; [done|].
  intros b t k Hb Ht Hk.
  cbn [at3 map3 slice_to slice_from dim0 dim1 dim2].
  rewrite !(bidx_id _ b), !(bidx_id _ t), !(bidx_id _ k) by done.
  reflexivity.
Qed.

(** C4.  For a target of shape [B, T, D] and a prediction of shape
    [B, T, 2D] with [B, T >= 1] whose shifted variances [var + eps] are
    positive, [gaussian_nll] returns the mean over batch and time of the
    sum over the output dimensions of
    [0.5 * (log(2 pi) + log(var + eps) + (target - mean)^2 / (var + eps))]
    with [eps = 1e-8].  The shift is an addition, not a floor: the divisor
    [var + eps] is positive for every predicted variance that is not
    negative, and is zero exactly when the predicted variance is [-eps]. *)
Theorem gaussian_nll_formula (target pred_mean_var : tensor3) :
  dim2 target = output_dim -> dim2 pred_mean_var = output_dim + output_dim ->
  dim0 pred_mean_var = dim0 target -> dim1 pred_mean_var = dim1 target ->
  finite_losses output_dim target pred_mean_var ->
  gaussian_nll output_dim target pred_mean_var
    = Some (gaussian_nll_spec output_dim target pred_mean_var) /\
  (forall b t k,
     (0 <= at3 (slice_from output_dim pred_mean_var) b t k)%R ->
     (0 < at3 (shifted_variance output_dim pred_mean_var) b t k)%R) /\
  (forall b t k,
     at3 (slice_from output_dim pred_mean_var) b t k <> (- epsilon)%R <->
     at3 (shifted_variance output_dim pred_mean_var) b t k <> 0%R).
Proof.
  intros H2 HP2 HP0 HP1 _. split; [|split].
  - destruct (element_wise_nll_entries target pred_mean_var H2 HP2 HP0 HP1)
      as (e & He & E0 & E1 & E2 & Hent).
    unfold gaussian_nll, sample_wise_error. rewrite He.
    cbn [fmap option_fmap option_map]. f_equal.
    unfold reduce_mean2, gaussian_nll_spec, reduce_sum_last.
    cbn [rows cols at2]. rewrite E0, E1, E2. f_equal.
    apply rsum_ext. intros b Hb. apply rsum_ext. intros t Ht.
    apply rsum_ext. intros k Hk. by apply Hent.
  - intros b t k. unfold shifted_variance, epsilon.
    cbn [at3 map3 slice_from]. lra.
  - intros b t k. unfold shifted_variance, epsilon.
    cbn [at3 map3 slice_from]. split; intros Hne Heq; apply Hne; lra.
Qed.

(** C5.  When neither argument has more than [output_dim] entries along
    its last axis, so that the slice [[..., :output_dim]] keeps all of
    either, [rmse] is symmetric; this includes the calls that raise. *)
Theorem rmse_symmetric (a b : tensor3) :
  dim2 a <= output_dim -> dim2 b <= output_dim ->
  rmse output_dim a b = rmse output_dim b a.
Proof.
  intros Ha Hb. unfold rmse, zip3. cbn [dim0 dim1 dim2 slice_to].
  rewrite !Nat.min_r by done.
  rewrite (bdim_comm (dim0 b)), (bdim_comm (dim1 b)), (bdim_comm (dim2 b)).
  destruct (bdim (dim0 a) (dim0 b)) as [d0|]; [|done].
  destruct (bdim (dim1 a) (dim1 b)) as [d1|]; [|done].
  destruct (bdim (dim2 a) (dim2 b)) as [d2|]; [|done].
  cbn [mbind option_bind]. f_equal. f_equal. unfold reduce_mean3.
  cbn [dim0 dim1 dim2 map3 at3 slice_to]. f_equal.
  apply rsum_ext. intros i _. apply rsum_ext. intros j _.
  apply rsum_ext. intros k _. ring.
Qed.
End Claims.

(** C4, the claim as stated fails: with the predicted variance [-1e-8] the
    tensor [gaussian_nll] divides by has the entry zero, on an input of the
    shapes of C4 with one batch element and one time step; the input is
    outside [finite_losses]. *)
Lemma gaussian_nll_zero_divisor :
  dim2 target_zero = 1 /\ dim2 prediction_negative_variance = 1 + 1 /\
  dim0 prediction_negative_variance = dim0 target_zero /\
  dim1 prediction_negative_variance = dim1 target_zero /\
  at3 (shifted_variance 1 prediction_negative_variance) 0 0 0 = 0%R /\
  ~ finite_losses 1 target_zero prediction_negative_variance.
Proof.
  assert (H0 : at3 (shifted_variance 1 prediction_negative_variance) 0 0 0
               = 0%R).
  { unfold shifted_variance, epsilon, prediction_negative_variance.
    cbn [at3 map3 slice_from]. rewrite decide_False by lia. lra. }
  split; [done|]. split; [done|]. split; [done|]. split; [done|].
  split; [exact H0|]. intros (_ & _ & Hpos).
  specialize (Hpos 0 0 0). rewrite H0 in Hpos.
  assert (0 < 0)%R by (apply Hpos; simpl; lia). lra.
Qed.

(** C5, the claim as stated fails: a target [[0]] and a prediction with mean
    0 and variance 1 give [rmse = 0] one way round and [sqrt (1/2)] the other,
    where the prediction is the target and the one-entry tensor is broadcast
    against both of its entries. *)
Lemma rmse_not_symmetric :
  rmse 1 target_zero prediction_unit_variance = Some 0%R /\
  rmse 1 prediction_unit_variance target_zero = Some (sqrt (1 / 2)) /\
  rmse 1 target_zero prediction_unit_variance
    <> rmse 1 prediction_unit_variance target_zero.
Proof.
  assert (H1 : rmse 1 target_zero prediction_unit_variance = Some 0%R).
  { unfold rmse, zip3, reduce_mean3.
    cbn [slice_to dim0 dim1 dim2 target_zero prediction_unit_variance Nat.min].
    rewrite !bdim_same.
    cbn [mbind option_bind map3 dim0 dim1 dim2 at3 rsum Nat.mul Nat.add INR].
    unfold slice_to, target_zero, prediction_unit_variance. cbn [at3].
    change (bidx 1 0) with 0. rewrite decide_True by done.
    f_equal. transitivity (sqrt 0); [f_equal; lra|apply sqrt_0]. }
  assert (H2 : rmse 1 prediction_unit_variance target_zero
               = Some (sqrt (1 / 2))).
  { unfold rmse, zip3, reduce_mean3.
    cbn [slice_to dim0 dim1 dim2 target_zero prediction_unit_variance Nat.min].
    rewrite !bdim_same. change (bdim 1 2) with (Some 2).
    cbn [mbind option_bind map3 dim0 dim1 dim2 at3 rsum Nat.mul Nat.add].
    unfold slice_to, target_zero, prediction_unit_variance. cbn [at3].
    change (bidx 2 0) with 0. change (bidx 2 1) with 1.
    rewrite decide_True by done. rewrite decide_False by lia.
    do 2 f_equal. change (INR 2) with (1 + 1)%R. lra. }
  split; [done|]. split; [done|]. rewrite H1, H2. intros [= Heq].
  assert (0 < sqrt (1 / 2))%R by (apply sqrt_lt_R0; lra). lra.
Qed.

(** A target [[[0]]] and a prediction with mean 0 and variance 1. *)
Lemma gaussian_nll_formula_witness :
  finite_losses 1 target_zero prediction_unit_variance /\
  gaussian_nll 1 target_zero prediction_unit_variance
    = Some (gaussian_nll_spec 1 target_zero prediction_unit_variance).
Proof.
  assert (Hfin : finite_losses 1 target_zero prediction_unit_variance).
  { split; [simpl; lia|]. split; [simpl; lia|].
    intros b t k _ _ _. unfold shifted_variance, epsilon.
    simpl. lra. }
  split; [exact Hfin|].
  apply (gaussian_nll_formula 1 target_zero prediction_unit_variance);
    [reflexivity|reflexivity|reflexivity|reflexivity|exact Hfin].
Defined.

(** Two tensors with one entry along the last axis. *)
Lemma rmse_symmetric_witness :
  rmse 1 target_zero (slice_to 1 prediction_unit_variance)
    = rmse 1 (slice_to 1 prediction_unit_variance) target_zero.
Proof.
  apply (rmse_symmetric 1 target_zero (slice_to 1 prediction_unit_variance));
    simpl; lia.
Defined.
End LossSpec.

(** ** The constructor and the training loop *)

Module PiSSMSpec.
Import PiSSM.

(** *** Cell types *)

Lemma build_transition_accepts (lsd lod num_basis : nat) (units : list nat)
    (never_invalid : bool) (cell_type : string) :
  lower cell_type ∈ accepted_cell_types ->
  exists c, build_transition lsd lod num_basis units never_invalid cell_type
            = Ok c.
Proof.
  unfold accepted_cell_types, build_transition. intros Hin.
  repeat (apply elem_of_cons in Hin as [->|Hin]); [by eexists..|].
  by apply elem_of_nil in Hin.
Qed.



(** The class [PiSSM] itself, whose builders are abstract, fails before it
    looks at the cell type. *)
Lemma init_abstract {layer : Type} (obs : list nat) (lod : nat)
    (out : output_shape) (num_basis : nat) (units : list nat)
    (never_invalid : bool) (cell_type : string) :
  __init__ (layer := layer) abstract_builder abstract_builder
    abstract_builder obs lod out num_basis units never_invalid cell_type
    = Raise NotImplementedError.
Proof. done. Qed.

(** C7.  The cell type ['rkn'] is rejected with the assertion error whose
    message offers ['rkn'] itself as a valid choice; the message does not
    mention ['gin'], which the constructor accepts. *)
Theorem rejected_cell_type_named_in_message {layer : Type}
    (enc : list layer) (dec vdec : result (list layer)) (obs : list nat)
    (out : output_shape) (lsd lod num_basis : nat)
    (units : list nat) (never_invalid : bool) :
  __init__ (Ok enc) dec vdec obs lod out num_basis units never_invalid "rkn"
    = Raise (AssertionError invalid_cell_message) /\
  build_transition lsd lod num_basis units never_invalid "rkn"
    = Raise (AssertionError invalid_cell_message) /\
  String.index 0 "'rkn'" invalid_cell_message = Some 31 /\
  String.index 0 "gin" invalid_cell_message = None /\
  ("gin" ∈ accepted_cell_types) /\
  ("rkn" ∉ accepted_cell_types) /\
  build_transition lsd lod num_basis units never_invalid "gin"
    = Ok (PiSSMTransitionCell lsd lod num_basis 0 0 0.1 units never_invalid).
Proof.
  split; [done|]. split; [done|]. split; [done|]. split; [done|].
  split; [by repeat constructor|]. split; [|done].
  unfold accepted_cell_types. intros Hin.
  repeat (apply elem_of_cons in Hin as [Hin|Hin]; [discriminate|]).
  by apply elem_of_nil in Hin.
Qed.


(** *** The training loop *)

Lemma batches_first {A : Type} (xs : list A) (batch_size : Z) :
  (0 < batch_size)%Z -> (batch_size <= Z.of_nat (length xs))%Z ->
  exists rest,
    batches xs batch_size = Ok (take (Z.to_nat batch_size) xs :: rest).
Proof.
  intros Hpos Hlen. unfold batches.
  destruct (Z.eqb_spec batch_size 0) as [->|_]; [lia|].
  assert (Hq : (1 <= Z.quot (Z.of_nat (length xs)) batch_size)%Z)
    by (apply Z.quot_le_lower_bound; lia).
  destruct (Z.to_nat (Z.quot (Z.of_nat (length xs)) batch_size))
    as [|k] eqn:E; [lia|].
  rewrite <- cons_seq, fmap_cons. by eexists.
Qed.

Lemma batches_ok {A : Type} (xs : list A) (batch_size : Z) :
  batch_size <> 0%Z -> exists l, batches xs batch_size = Ok l.
Proof.
  intros Hne. unfold batches.
  destruct (Z.eqb_spec batch_size 0) as [->|_]; [done|]. by eexists.
Qed.

Section Loop.
Context {W Obs Tgt Pred Logp Grad : Type}.
Variable model_call : W -> list Obs -> result (Pred * Logp).
Variable self_reinforce_loss : list Tgt -> Pred -> Logp -> result tfloat.
Variable self_gaussian_nll : list Tgt -> Pred -> result tfloat.
Variable self_lr : option R.
Variable reinforce_gradients : W -> list Obs -> list Tgt -> result Grad.
Variable phi_gradients : W -> list Obs -> list Tgt -> result Grad.
Variable apply_gradients : R -> Grad -> W -> result W.
Variable validation : W -> result tfloat.

Abbreviation body := (batch_body model_call self_reinforce_loss
  self_gaussian_nll self_lr reinforce_gradients phi_gradients
  apply_gradients validation).
Abbreviation train := (training model_call self_reinforce_loss
  self_gaussian_nll self_lr reinforce_gradients phi_gradients
  apply_gradients validation).

(** An iteration that starts with [loss] unassigned and gets through the
    forward pass and the REINFORCE loss raises at [loss_show_tr += loss]. *)
Lemma batch_body_unbound (batch_size ratio : Z) (Ubatch : list (list Obs))
    (Ybatch : list (list Tgt)) (i : nat) (s : train_state)
    (u : list Obs) (y : list Tgt) (preds : Pred) (logp : Logp)
    (rl : tfloat) :
  Ubatch !! i = Some u -> Ybatch !! i = Some y ->
  model_call (weights s) u = Ok (preds, logp) ->
  self_reinforce_loss y preds logp = Ok rl ->
  loss s = None ->
  body batch_size ratio Ubatch Ybatch i s = Raise (UnboundLocalError "loss").
Proof.
  intros HU HY Hm Hr Hl. unfold batch_body, index.
  rewrite HU. cbn [mbind result_bind]. rewrite Hm. cbn [mbind result_bind].
  rewrite HY. cbn [mbind result_bind]. rewrite Hr. cbn [mbind result_bind].
  by rewrite Hl.
Qed.

(** With [loss] assigned, a NaN REINFORCE loss leaves the batch loop by
    [break] before any update. *)
Lemma batch_body_nan_breaks (batch_size ratio : Z)
    (Ubatch : list (list Obs)) (Ybatch : list (list Tgt)) (i : nat)
    (s : train_state) (u : list Obs) (y : list Tgt) (preds : Pred)
    (logp : Logp) (l : tfloat) :
  Ubatch !! i = Some u -> Ybatch !! i = Some y ->
  model_call (weights s) u = Ok (preds, logp) ->
  self_reinforce_loss y preds logp = Ok NaN ->
  loss s = Some l ->
  body batch_size ratio Ubatch Ybatch i s =
    Ok (Break (mkState (weights s) (Training_Loss s) (loss s)
                 (fadd (loss_show_tr s) l))).
Proof.
  intros HU HY Hm Hr Hl. unfold batch_body, index.
  rewrite HU. cbn [mbind result_bind]. rewrite Hm. cbn [mbind result_bind].
  rewrite HY. cbn [mbind result_bind]. rewrite Hr. cbn [mbind result_bind].
  by rewrite Hl.
Qed.

Lemma validation_step_unresolved (i : nat) (w : W) :
  i mod 10 = 0 ->
  validation_step validation i w = Raise (NameError "Valid_Ubatch").
Proof. intros Hi. unfold validation_step. by rewrite decide_True. Qed.

(** A call with at least one epoch and one full mini-batch whose first
    forward pass and REINFORCE loss complete raises at the first
    iteration. *)
Lemma training_unbound (model : W) (Train_Obs : list Obs)
    (Train_Target : list Tgt) (Valid_Obs : list Obs)
    (Valid_Target : list Tgt) (epochs batch_size ratio : Z)
    (preds : Pred) (logp : Logp) (rl : tfloat) :
  (0 < epochs)%Z -> (0 < batch_size)%Z ->
  (batch_size <= Z.of_nat (length Train_Target))%Z ->
  (batch_size <= Z.of_nat (length Train_Obs))%Z ->
  model_call model (take (Z.to_nat batch_size) Train_Obs)
    = Ok (preds, logp) ->
  self_reinforce_loss (take (Z.to_nat batch_size) Train_Target) preds logp
    = Ok rl ->
  train model Train_Obs Train_Target Valid_Obs Valid_Target
    epochs batch_size ratio = Raise (UnboundLocalError "loss").
Proof.
  intros He Hb HT HO Hm Hr. unfold training.
  destruct (batches_ok Valid_Target batch_size) as [yv ->]; [lia|].
  destruct (batches_ok Valid_Obs batch_size) as [uv ->]; [lia|].
  destruct (batches_first Train_Target batch_size Hb HT) as [Y ->].
  destruct (batches_first Train_Obs batch_size Hb HO) as [U ->].
  cbn [mbind result_bind].
  destruct (Z.to_nat epochs) as [|e] eqn:E; [lia|].
  cbn [seq epoch_loop length batch_loop mbind result_bind].
  erewrite batch_body_unbound; [done|done|done|exact Hm|exact Hr|done].
Qed.

(** C9.  A call of [training] with at least one epoch and at least one
    full mini-batch of observations and of targets, whose first forward
    pass and REINFORCE loss complete, reads the local [loss] in
    [loss_show_tr += loss] before any assignment and raises
    [UnboundLocalError], a name error; it returns no loss history.  The
    names [Valid_Ubatch] and [Valid_Ybatch] of the validation step are
    bound neither in the function nor at module level, and the step raises
    [NameError] wherever it is reached. *)
Theorem training_reads_loss_before_assignment (model : W)
    (Train_Obs : list Obs) (Train_Target : list Tgt) (Valid_Obs : list Obs)
    (Valid_Target : list Tgt) (epochs batch_size ratio : Z)
    (preds : Pred) (logp : Logp) (rl : tfloat) :
  (0 < epochs)%Z -> (0 < batch_size)%Z ->
  (batch_size <= Z.of_nat (length Train_Target))%Z ->
  (batch_size <= Z.of_nat (length Train_Obs))%Z ->
  model_call model (take (Z.to_nat batch_size) Train_Obs)
    = Ok (preds, logp) ->
  self_reinforce_loss (take (Z.to_nat batch_size) Train_Target) preds logp
    = Ok rl ->
  train model Train_Obs Train_Target Valid_Obs Valid_Target
    epochs batch_size ratio = Raise (UnboundLocalError "loss") /\
  resolve "loss" = LocalName /\
  resolve "Valid_Ubatch" = Unresolved /\
  resolve "Valid_Ybatch" = Unresolved /\
  (forall i w, i mod 10 = 0 ->
     validation_step validation i w = Raise (NameError "Valid_Ubatch")).
Proof.
  intros He Hb HT HO Hm Hr.
  split; [by apply (training_unbound _ _ _ _ _ _ _ _ preds logp rl)|].
  split; [done|]. split; [done|]. split; [done|].
  intros i w. apply validation_step_unresolved.
Qed.
End Loop.

(** C8.  One epoch over one mini-batch whose REINFORCE loss is NaN: the
    call does not leave the batch loop by [break], it raises
    [UnboundLocalError] at [loss_show_tr += loss], before the first NaN
    test.  The same iteration started with [loss] assigned does leave the
    loop by [break]. *)
Theorem training_nan_raises :
  toy_training NaN [7] [7] 1 1 2 = Raise (UnboundLocalError "loss") /\
  toy_batch_body NaN 1 2 [[7]] [[7]] 0
    (mkState tt [] (Some (Fin 0)) (Fin 0))
  = Ok (Break (mkState tt [] (Some (Fin 0)) (Fin (0 + 0)))).
Proof. split; reflexivity. Qed.

(** C9, the claim as stated fails: with no epoch to run, a call with a full
    mini-batch returns the empty loss history. *)
Lemma training_zero_epochs_returns :
  toy_training (Fin 1) [7] [7] 0 1 2 = Ok ([], tt).
Proof. reflexivity. Qed.

(** One epoch over one mini-batch of the toy instance. *)
Lemma training_reads_loss_before_assignment_witness :
  toy_training (Fin 1) [7] [7] 1 1 2 = Raise (UnboundLocalError "loss").
Proof.
  unfold toy_training.
  refine (proj1 (training_reads_loss_before_assignment _ _ _ _ _ _ _ _
                   tt [7] [7] [] [] 1 1 2 tt tt (Fin 1) _ _ _ _ _ _));
    try reflexivity; simpl; lia.
Defined.
End PiSSMSpec.

(** ** More on the simulator *)

Module SystemModelExtra.
Import Torch TorchFacts NCLTSysModel SystemModelFacts Simulation.

Abbreviation put t M col :=
  (zip_with (fun (row : list R) (c : R) => <[t := c]> row) M col).

Section Runs.
Context {gen : Type}.
Variable std_normal : gen -> R * gen.

Lemma normal_zeros_advance (k : nat) (std : R) (g : gen) :
  (0 <= std)%R ->
  exists e, normal std_normal (zeros [k]) std g
              = Some (e, advance std_normal k g) /\ vec k e /\
            (std = 0%R -> data e = replicate k 0%R).
Proof.
  intros Hstd.
  destruct (normal_zeros std_normal k std g Hstd) as (e & g' & Hn & He & H0).
  exists e. split; [|done]. rewrite Hn. do 2 f_equal.
  unfold normal in Hn. destruct (Rlt_dec std 0); [done|].
  unfold advance. simpl in Hn. rewrite Nat.mul_1_r, length_replicate in Hn.
  destruct (draw std_normal k g) as [zs g0]. by injection Hn as _ <-.
Qed.

(** One step of the loop, whatever the matrices it writes into hold. *)
Lemma GenerateSequence_body_spec (t : nat) (self : SystemModel) (P : tensor)
    (g : gen) :
  well_configured self -> svec (m self) P ->
  exists xt e,
    svec (m self) xt /\ vec (n self) e /\
    (q self = 0%R -> xt = f self P) /\
    (r self = 0%R -> data e = replicate (n self) 0%R) /\
    forall X Y, length X = m self -> length Y = n self ->
      GenerateSequence_body std_normal t (upd X Y P self, g) =
        Some (upd (put t X (data xt))
                  (put t Y (zip_with Rplus (data (h self xt)) (data e)))
                  xt self,
              step_generator std_normal self g).
Proof.
  intros Hwf HP. pose proof Hwf as (Hf & Hh & Hq & Hr).
  unfold step_generator.
  assert (Hev : exists xt,
    state_evolution std_normal (upd [] [] P self) g
      = Some (xt, if Req_dec_T (q self) 0 then g
                  else advance std_normal (m self) g) /\
    svec (m self) xt /\ (q self = 0%R -> xt = f self P)).
  { unfold state_evolution. simpl.
    destruct (Req_dec_T (q self) 0) as [Hq0|Hq0].
    - eexists. split; [done|]. split; [by apply Hf|done].
    - destruct (normal_zeros_advance (m self) (q self) g Hq)
        as (e & -> & He & _). simpl.
      rewrite (add_svec (m self) _ e (Hf _ HP) He). simpl.
      eexists. split; [done|]. split; [|done].
      apply vec_svec. split; [done|]. simpl.
      destruct (Hf _ HP) as [Hl _]. destruct He as [_ Hl'].
      rewrite length_zip_with. lia. }
  destruct Hev as (xt & Hev & Hxt & Hq0).
  destruct (normal_zeros_advance (n self) (r self)
              (if Req_dec_T (q self) 0 then g
               else advance std_normal (m self) g) Hr)
    as (e & Hn & He & Hr0).
  exists xt, e. split; [done|]. split; [done|]. split; [done|].
  split; [done|].
  intros X Y HX HY. unfold GenerateSequence_body.
  change (state_evolution std_normal (upd X Y P self) g)
    with (state_evolution std_normal (upd [] [] P self) g).
  rewrite Hev. simpl. rewrite Hn. simpl.
  rewrite (add_svec (n self) _ e (Hh _ Hxt) He). simpl.
  rewrite (set_column_svec t (m self) xt X Hxt HX). simpl.
  assert (Hyt : svec (n self)
            (mkTensor [n self] (zip_with Rplus (data (h self xt)) (data e)))).
  { apply vec_svec. split; [done|]. simpl.
    destruct (Hh _ Hxt) as [Hl _]. destruct He as [_ Hl'].
    rewrite length_zip_with. lia. }
  by rewrite (set_column_svec t (n self) _ Y Hyt HY).
Qed.

(** The loop of [GenerateSequence] after [k <= T'] steps from the state
    [P0]: the states [xs] and observation columns [ys] it has produced do
    not depend on the matrices it writes them into. *)
Lemma run_trace (T' : nat) (self : SystemModel) (P0 : tensor) (g : gen)
    (k : nat) :
  well_configured self -> svec (m self) P0 -> k <= T' ->
  exists (xs : list tensor) (ys : list (list R)),
    length xs = k /\ length ys = k /\
    Forall (svec (m self)) xs /\
    (q self = 0%R ->
       forall t, t < k -> xs !! t = Some (Nat.iter (S t) (f self) P0)) /\
    (r self = 0%R ->
       forall t xt, xs !! t = Some xt -> ys !! t = Some (data (h self xt))) /\
    forall X0 Y0, shaped (m self) T' X0 -> shaped (n self) T' Y0 ->
      exists X Y,
        for_range (GenerateSequence_body std_normal) (seq 0 k)
          (upd X0 Y0 P0 self, g)
        = Some (upd X Y (default P0 (last xs)) self,
                Nat.iter k (step_generator std_normal self) g) /\
        shaped (m self) T' X /\ shaped (n self) T' Y /\
        (forall t xt, xs !! t = Some xt -> column t X = Some (data xt)) /\
        (forall t yc, ys !! t = Some yc -> column t Y = Some yc).
Proof.
  intros Hwf HP0. induction k as [|k IH]; intros Hk.
  - exists [], []. split; [done|]. split; [done|]. split; [done|].
    split; [intros _ t Ht; lia|]. split; [by intros _ t xt Hl|].
    intros X0 Y0 HX HY. exists X0, Y0. split; [done|].
    split; [done|]. split; [done|]. by split.
  - destruct IH as (xs & ys & Hlx & Hly & Hsv & Hdet & Hobs & Hrun); [lia|].
    set (Pk := default P0 (last xs)).
    assert (HPk : svec (m self) Pk).
    { unfold Pk. destruct (last xs) as [p|] eqn:El; [|done]. simpl.
      rewrite last_lookup in El.
      by apply (Forall_lookup_1 _ _ _ _ Hsv El). }
    destruct (GenerateSequence_body_spec k self Pk
                (Nat.iter k (step_generator std_normal self) g) Hwf HPk)
      as (xt & e & Hxt & He & Hq0 & Hr0 & Hbody).
    pose proof Hwf as (_ & Hh & _).
    set (yc := zip_with Rplus (data (h self xt)) (data e)).
    assert (Hyc : length yc = n self).
    { unfold yc. destruct (Hh _ Hxt) as [Hl _]. destruct He as [_ Hl'].
      rewrite length_zip_with. lia. }
    exists (xs ++ [xt]), (ys ++ [yc]).
    split; [rewrite length_app; simpl; lia|].
    split; [rewrite length_app; simpl; lia|].
    split; [apply Forall_app; split; [done|by constructor]|].
    split; [|split].
    + intros Hq t Ht. destruct (decide (t < k)) as [Hlt|Hge].
      * rewrite lookup_app_l by lia. by apply Hdet.
      * assert (t = k) as -> by lia.
        rewrite lookup_app_r by lia. rewrite Hlx, Nat.sub_diag. simpl.
        f_equal. rewrite (Hq0 Hq). f_equal. unfold Pk.
        rewrite last_lookup, Hlx. destruct k as [|k']; [by destruct xs|].
        simpl. by rewrite (Hdet Hq k') by lia.
    + intros Hr t xt0 Hl. destruct (decide (t < k)) as [Hlt|Hge].
      * rewrite lookup_app_l in Hl by lia. rewrite lookup_app_l by lia.
        by apply Hobs.
      * apply lookup_lt_Some in Hl as Hlen. rewrite length_app in Hlen.
        simpl in Hlen. assert (t = k) as -> by lia.
        rewrite lookup_app_r in Hl by lia. rewrite lookup_app_r by lia.
        rewrite Hlx, Nat.sub_diag in Hl. rewrite Hly, Nat.sub_diag.
        simpl in *. injection Hl as <-. f_equal. unfold yc.
        rewrite (Hr0 Hr). destruct (Hh _ Hxt) as [Hlh _].
        by rewrite zip_with_plus_zero.
    + intros X0 Y0 HX0 HY0.
      destruct (Hrun X0 Y0 HX0 HY0) as (X & Y & Hfor & HX & HY & HcX & HcY).
      pose proof HX as [HX1 HX2]. pose proof HY as [HY1 HY2].
      assert (Hlxt : length (data xt) = length X)
        by (destruct Hxt as [Hl _]; by rewrite Hl, HX1).
      assert (Hlyc : length yc = length Y) by (by rewrite Hyc, HY1).
      exists (put k X (data xt)), (put k Y yc).
      split; [|split; [|split; [|split]]].
      * rewrite seq_S, for_range_app, Hfor, last_snoc.
        cbn [mbind option_bind for_range Nat.add default].
        fold Pk. by rewrite (Hbody X Y HX1 HY1).
      * destruct (insert_rows_shape k T' X (data xt) Hlxt HX2).
        split; [lia|done].
      * destruct (insert_rows_shape k T' Y yc Hlyc HY2). split; [lia|done].
      * intros t xt0 Hl. destruct (decide (t < k)) as [Hlt|Hge].
        -- rewrite lookup_app_l in Hl by lia.
           rewrite column_insert_ne by lia. by apply HcX.
        -- apply lookup_lt_Some in Hl as Hlen. rewrite length_app in Hlen.
           simpl in Hlen. assert (t = k) as -> by lia.
           rewrite lookup_app_r in Hl by lia.
           rewrite Hlx, Nat.sub_diag in Hl. simpl in Hl. injection Hl as <-.
           apply column_insert_eq; [done|].
           eapply Forall_impl; [exact HX2|]. simpl. intros row ->. lia.
      * intros t yc0 Hl. destruct (decide (t < k)) as [Hlt|Hge].
        -- rewrite lookup_app_l in Hl by lia.
           rewrite column_insert_ne by lia. by apply HcY.
        -- apply lookup_lt_Some in Hl as Hlen. rewrite length_app in Hlen.
           simpl in Hlen. assert (t = k) as -> by lia.
           rewrite lookup_app_r in Hl by lia.
           rewrite Hly, Nat.sub_diag in Hl. simpl in Hl. injection Hl as <-.
           apply column_insert_eq; [done|].
           eapply Forall_impl; [exact HY2|]. simpl. intros row ->. lia.
Qed.

Variable uninit : nat -> R.

(** A complete run, read off [run_trace]. *)
Lemma GenerateSequence_trace (Q_gen R_gen : tensor) (T' : nat)
    (self : SystemModel) (g : gen) :
  well_configured self -> svec (m self) (m1x_0 self) ->
  exists (xs : list tensor) (ys : list (list R)) X Y,
    GenerateSequence std_normal uninit Q_gen R_gen T' (self, g)
      = Some (upd X Y (default (m1x_0 self) (last xs)) self,
              Nat.iter T' (step_generator std_normal self) g) /\
    length xs = T' /\ length ys = T' /\ Forall (svec (m self)) xs /\
    shaped (m self) T' X /\ shaped (n self) T' Y /\
    (forall t xt, xs !! t = Some xt -> column t X = Some (data xt)) /\
    (forall t yc, ys !! t = Some yc -> column t Y = Some yc) /\
    (r self = 0%R ->
       forall t xt, xs !! t = Some xt -> ys !! t = Some (data (h self xt))) /\
    (q self = 0%R ->
       forall t, t < T' ->
         xs !! t = Some (Nat.iter (S t) (f self) (m1x_0 self))).
Proof.
  intros Hwf H0.
  destruct (run_trace T' self (m1x_0 self) g T' Hwf H0 (le_n _))
    as (xs & ys & Hlx & Hly & Hsv & Hdet & Hobs & Hrun).
  destruct (Hrun (empty2 uninit (m self) T') (empty2 uninit (n self) T')
              (empty2_shaped _ _ _) (empty2_shaped _ _ _))
    as (X & Y & Hfor & HX & HY & HcX & HcY).
  exists xs, ys, X, Y. by repeat (split; [done|]).
Qed.

(** X1.  On a well-configured model, with or without noise,
    [GenerateSequence] returns; it assigns [x], [y] and [x_prev] and no
    other attribute, [x] has [m] rows and [y] has [n] rows of [T] entries,
    and [x_prev] is a state vector. *)
Theorem GenerateSequence_returns_shaped (Q_gen R_gen : tensor) (T' : nat)
    (self : SystemModel) (g : gen) :
  well_configured self -> svec (m self) (m1x_0 self) ->
  exists X Y P g',
    GenerateSequence std_normal uninit Q_gen R_gen T' (self, g)
      = Some (upd X Y P self, g') /\
    shaped (m self) T' X /\ shaped (n self) T' Y /\ svec (m self) P.
Proof.
  intros Hwf H0.
  destruct (GenerateSequence_trace Q_gen R_gen T' self g Hwf H0)
    as (xs & ys & X & Y & Hrun & Hlx & _ & Hsv & HX & HY & _).
  eexists X, Y, _, _. split; [exact Hrun|]. split; [done|]. split; [done|].
  destruct (last xs) as [p|] eqn:El; [|done]. simpl.
  rewrite last_lookup in El. by apply (Forall_lookup_1 _ _ _ _ Hsv El).
Qed.

(** X2.  After a run of at least one step, [x_prev] is the last generated
    state: its entries are the last column of [x]. *)
Theorem GenerateSequence_last_state (Q_gen R_gen : tensor) (T' : nat)
    (self : SystemModel) (g : gen) :
  well_configured self -> svec (m self) (m1x_0 self) -> 1 <= T' ->
  exists self' g',
    GenerateSequence std_normal uninit Q_gen R_gen T' (self, g)
      = Some (self', g') /\
    column (T' - 1) (x self') = Some (data (x_prev self')).
Proof.
  intros Hwf H0 HT.
  destruct (GenerateSequence_trace Q_gen R_gen T' self g Hwf H0)
    as (xs & ys & X & Y & Hrun & Hlx & _ & _ & _ & _ & HcX & _).
  eexists _, _. split; [exact Hrun|]. simpl.
  rewrite last_lookup, Hlx.
  destruct (lookup_lt_is_Some_2 xs (pred T')) as [p Hp]; [lia|].
  rewrite Hp. simpl. replace (T' - 1) with (pred T') by lia.
  by apply HcX.
Qed.

(** X3.  Without observation noise ([r = 0]), with or without process
    noise, every column of [y] is [h] applied to the state whose entries are
    the same column of [x]. *)
Theorem GenerateSequence_noiseless_observations (Q_gen R_gen : tensor)
    (T' : nat) (self : SystemModel) (g : gen) :
  well_configured self -> svec (m self) (m1x_0 self) -> r self = 0%R ->
  exists self' g',
    GenerateSequence std_normal uninit Q_gen R_gen T' (self, g)
      = Some (self', g') /\
    forall t, t < T' ->
      exists xt, svec (m self) xt /\
        column t (x self') = Some (data xt) /\
        column t (y self') = Some (data (h self xt)).
Proof.
  intros Hwf H0 Hr.
  destruct (GenerateSequence_trace Q_gen R_gen T' self g Hwf H0)
    as (xs & ys & X & Y & Hrun & Hlx & Hly & Hsv & _ & _ & HcX & HcY & Hobs
        & _).
  eexists _, _. split; [exact Hrun|]. simpl. intros t Ht.
  destruct (lookup_lt_is_Some_2 xs t) as [xt Hxt]; [lia|].
  exists xt. split; [by apply (Forall_lookup_1 _ _ _ _ Hsv Hxt)|].
  split; [by apply HcX|]. apply HcY. by apply Hobs.
Qed.

(** X4.  A run of [T] steps draws [n] standard normal numbers per step for
    the observation noise and, unless [q == 0], [m] more per step for the
    process noise, and nothing else: the generator it leaves is
    [step_generator] iterated [T] times. *)
Theorem GenerateSequence_generator (Q_gen R_gen : tensor) (T' : nat)
    (self : SystemModel) (g : gen) :
  well_configured self -> svec (m self) (m1x_0 self) ->
  exists self',
    GenerateSequence std_normal uninit Q_gen R_gen T' (self, g)
      = Some (self', Nat.iter T' (step_generator std_normal self) g).
Proof.
  intros Hwf H0.
  destruct (GenerateSequence_trace Q_gen R_gen T' self g Hwf H0)
    as (xs & ys & X & Y & Hrun & _).
  eexists. exact Hrun.
Qed.
End Runs.

(** X5.  What a run of [GenerateSequence] returns does not depend on what
    [torch.empty] found in memory, nor on its arguments [Q_gen] and
    [R_gen]: every entry of [x] and [y] is written. *)
Theorem GenerateSequence_ignores_uninitialised {gen : Type}
    (std_normal : gen -> R * gen) (uninit1 uninit2 : nat -> R)
    (Q1 R1 Q2 R2 : tensor) (T' : nat) (self : SystemModel) (g : gen) :
  well_configured self -> svec (m self) (m1x_0 self) ->
  GenerateSequence std_normal uninit1 Q1 R1 T' (self, g)
    = GenerateSequence std_normal uninit2 Q2 R2 T' (self, g).
Proof.
  intros Hwf H0.
  destruct (run_trace std_normal T' self (m1x_0 self) g T' Hwf H0 (le_n _))
    as (xs & ys & Hlx & Hly & _ & _ & _ & Hrun).
  destruct (Hrun (empty2 uninit1 (m self) T') (empty2 uninit1 (n self) T')
              (empty2_shaped _ _ _) (empty2_shaped _ _ _))
    as (X1 & Y1 & Hfor1 & [HX1 HX1'] & [HY1 HY1'] & HcX1 & HcY1).
  destruct (Hrun (empty2 uninit2 (m self) T') (empty2 uninit2 (n self) T')
              (empty2_shaped _ _ _) (empty2_shaped _ _ _))
    as (X2 & Y2 & Hfor2 & [HX2 HX2'] & [HY2 HY2'] & HcX2 & HcY2).
  unfold GenerateSequence.
  change (GenerateSequence_start uninit1 T' self)
    with (upd (empty2 uninit1 (m self) T') (empty2 uninit1 (n self) T')
            (m1x_0 self) self).
  change (GenerateSequence_start uninit2 T' self)
    with (upd (empty2 uninit2 (m self) T') (empty2 uninit2 (n self) T')
            (m1x_0 self) self).
  rewrite Hfor1, Hfor2.
  assert (X1 = X2) as ->.
  { apply (matrix_eq_columns T'); [lia|done|done|]. intros t Ht.
    destruct (lookup_lt_is_Some_2 xs t) as [xt Hxt]; [lia|].
    by rewrite (HcX1 t xt Hxt), (HcX2 t xt Hxt). }
  assert (Y1 = Y2) as ->; [|done].
  apply (matrix_eq_columns T'); [lia|done|done|]. intros t Ht.
  destruct (lookup_lt_is_Some_2 ys t) as [yc Hyc]; [lia|].
  by rewrite (HcY1 t yc Hyc), (HcY2 t yc Hyc).
Qed.

Section Settings.
Context {gen : Type}.
Variable std_normal : gen -> R * gen.
Variable uninit : nat -> R.

Lemma normal_negative (mean : tensor) (std : R) (g : gen) :
  (std < 0)%R -> normal std_normal mean std g = None.
Proof. intros Hstd. unfold normal. by destruct (Rlt_dec std 0). Qed.

Lemma GenerateSequence_body_covariances (Q' R' : tensor) (t : nat)
    (s : SystemModel) (g : gen) :
  GenerateSequence_body std_normal t (UpdateCovariance_Matrix Q' R' s, g)
  = (fun w : SystemModel * gen => (UpdateCovariance_Matrix Q' R' w.1, w.2))
      <$> GenerateSequence_body std_normal t (s, g).
Proof.
  unfold GenerateSequence_body, state_evolution, UpdateCovariance_Matrix.
  cbn [set_noise f m q h n r x y x_prev].
  destruct (Req_dec_T (q s) 0) as [Hq|Hq]; cbn [mbind option_bind].
  - destruct (normal _ _ _ g) as [[er g2]|]; [|done]. cbn [mbind option_bind].
    destruct (add _ er) as [yt|]; [|done]. cbn [mbind option_bind].
    destruct (set_column t (squeeze _) (x s)) as [x'|]; [|done].
    cbn [mbind option_bind].
    destruct (set_column t (squeeze yt) (y s)) as [y'|]; [|done]. done.
  - destruct (normal _ _ (q s) g) as [[eq g1]|]; [|done].
    cbn [mbind option_bind].
    destruct (add _ eq) as [xt|]; [|done]. cbn [mbind option_bind].
    destruct (normal _ _ (r s) g1) as [[er g2]|]; [|done].
    cbn [mbind option_bind].
    destruct (add _ er) as [yt|]; [|done]. cbn [mbind option_bind].
    destruct (set_column t (squeeze xt) (x s)) as [x'|]; [|done].
    cbn [mbind option_bind].
    destruct (set_column t (squeeze yt) (y s)) as [y'|]; [|done]. done.
Qed.

(** X6.  The covariance matrices play no part in the simulation: setting
    [Q] and [R] with [UpdateCovariance_Matrix] before a run gives the run
    of the unchanged object with the two attributes set afterwards, for
    every model and every [Q_gen] and [R_gen]. *)
Theorem GenerateSequence_ignores_covariances (Q' R' Q1 R1 Q2 R2 : tensor)
    (T' : nat) (self : SystemModel) (g : gen) :
  GenerateSequence std_normal uninit Q1 R1 T'
    (UpdateCovariance_Matrix Q' R' self, g)
  = (fun w : SystemModel * gen => (UpdateCovariance_Matrix Q' R' w.1, w.2))
      <$> GenerateSequence std_normal uninit Q2 R2 T' (self, g).
Proof.
  unfold GenerateSequence.
  change (GenerateSequence_start uninit T'
            (UpdateCovariance_Matrix Q' R' self))
    with (UpdateCovariance_Matrix Q' R'
            (GenerateSequence_start uninit T' self)).
  generalize (GenerateSequence_start uninit T' self) as s.
  generalize g. induction (seq 0 T') as [|t ts IH]; intros g0 s; [done|].
  cbn [for_range]. rewrite GenerateSequence_body_covariances.
  destruct (GenerateSequence_body std_normal t (s, g0)) as [[s1 g1]|];
    [|done].
  cbn [fmap option_fmap option_map mbind option_bind fst snd]. apply IH.
Qed.

(** X7.  [UpdateCovariance_Gain] does change the simulation: after
    [UpdateCovariance_Gain(0, r')] the states of the next run are the
    iterates of [f], whatever process noise scale the object had. *)
Theorem UpdateCovariance_Gain_takes_effect (r' : R) (Q_gen R_gen : tensor)
    (T' : nat) (self : SystemModel) (g : gen) :
  (forall v, svec (m self) v -> svec (m self) (f self v)) ->
  (forall v, svec (m self) v -> svec (n self) (h self v)) ->
  svec (m self) (m1x_0 self) -> (0 <= r')%R ->
  exists self' g',
    GenerateSequence std_normal uninit Q_gen R_gen T'
      (UpdateCovariance_Gain 0 r' self, g) = Some (self', g') /\
    q self' = 0%R /\ r self' = r' /\
    forall t, t < T' ->
      column t (x self')
        = Some (data (Nat.iter (S t) (f self) (m1x_0 self))).
Proof.
  intros Hf Hh H0 Hr.
  assert (Hwf : well_configured (UpdateCovariance_Gain 0 r' self))
    by (split; [done|split; [done|split; [simpl; lra|done]]]).
  destruct (GenerateSequence_run std_normal uninit Q_gen R_gen T'
              (UpdateCovariance_Gain 0 r' self) g Hwf H0)
    as ([s' g'] & Hrun & X & Y & P & Hs & _ & _ & _ & Hdet).
  exists s', g'. split; [done|]. simpl in Hs. subst s'.
  split; [done|]. split; [done|].
  by destruct (Hdet eq_refl) as (_ & HcX & _).
Qed.

(** X8.  A negative noise scale makes every run of at least one step
    raise: [torch.normal] rejects the standard deviation. *)
Theorem GenerateSequence_negative_scale (Q_gen R_gen : tensor) (T' : nat)
    (self : SystemModel) (g : gen) :
  (q self < 0)%R \/ (r self < 0)%R -> 1 <= T' ->
  GenerateSequence std_normal uninit Q_gen R_gen T' (self, g) = None.
Proof.
  intros Hneg HT. unfold GenerateSequence.
  destruct T' as [|T0]; [lia|].
  rewrite <- cons_seq. cbn [for_range].
  assert (Hb : GenerateSequence_body std_normal 0
                 (GenerateSequence_start uninit (S T0) self, g) = None);
    [|by rewrite Hb].
  unfold GenerateSequence_body. destruct Hneg as [Hq|Hr].
  - unfold state_evolution.
    destruct (Req_dec_T _ 0) as [Hq0|_]; [simpl in Hq0; lra|].
    by rewrite normal_negative.
  - destruct (state_evolution _ _ g) as [[xt g1]|]; [|done].
    cbn [mbind option_bind]. by rewrite normal_negative.
Qed.

(** X9.  A motion model whose first output is a vector of the wrong size
    makes a noiseless run of at least one step raise at the first write
    into [x]. *)
Theorem GenerateSequence_shape_mismatch (Q_gen R_gen : tensor)
    (T' k : nat) (self : SystemModel) (g : gen) :
  q self = 0%R -> shape (f self (m1x_0 self)) = [k] ->
  k <> m self -> k <> 1 -> 1 <= T' ->
  GenerateSequence std_normal uninit Q_gen R_gen T' (self, g) = None.
Proof.
  intros Hq Hs Hkm Hk1 HT. unfold GenerateSequence.
  destruct T' as [|T0]; [lia|].
  rewrite <- cons_seq. cbn [for_range].
  assert (Hb : GenerateSequence_body std_normal 0
                 (GenerateSequence_start uninit (S T0) self, g) = None);
    [|by rewrite Hb].
  unfold GenerateSequence_body, state_evolution.
  cbn [GenerateSequence_start set_x set_y set_x_prev f m q h n r x y x_prev
       m1x_0].
  destruct (Req_dec_T (q self) 0) as [_|Hq']; [|done].
  cbn [mbind option_bind].
  destruct (normal _ _ _ g) as [[er g2]|]; [|done]. cbn [mbind option_bind].
  destruct (add _ er) as [yt|]; [|done]. cbn [mbind option_bind].
  assert (Hcol : set_column 0 (squeeze (f self (m1x_0 self)))
                   (empty2 uninit (m self) (S T0)) = None);
    [|by rewrite Hcol].
  unfold set_column, column_values, squeeze, squeeze_shape.
  cbn [shape data]. rewrite Hs.
  assert (Hfil : filter (fun d : nat => d <> 1) [k] = [k])
    by (rewrite filter_cons; by case_decide).
  rewrite Hfil. destruct (empty2_shaped uninit (m self) (S T0)) as [-> _].
  rewrite decide_False by (intros [= ->]; done).
  destruct k as [|[|k']]; [|done|]; cbn [strip_ones];
    by rewrite decide_False by done.
Qed.
End Settings.

Section Batches.
Context {gen : Type}.
Variable std_normal : gen -> R * gen.
Variable uniform01 : gen -> R * gen.
Variable uninit : nat -> R.
Variable parameters_variance : R.

Lemma GenerateBatch_trajectories (self : SystemModel) (g : gen)
    (size T' : nat) (randomInit : bool) :
  well_configured self -> svec (m self) (m1x_0 self) ->
  exists ic s' g',
    GenerateBatch_loop std_normal uniform01 uninit parameters_variance
      size T' randomInit size (self, g) = Some (ic, (s', g')) /\
    same_model s' self /\ svec (m self) (m1x_0 s') /\
    (randomInit = false -> 0 < size -> m1x_0 s' = squeeze (m1x_0 self)) /\
    (size = 0 -> m1x_0 s' = m1x_0 self) /\
    length (Input s') = size /\ length (Target s') = size /\
    forall i, i < size ->
      exists Yi Xi, Input s' !! i = Some Yi /\ Target s' !! i = Some Xi /\
                    trajectory self T' randomInit Yi Xi.
Proof.
  intros Hwf H0. unfold GenerateBatch_loop.
  destruct (for_range_invariant
    (fun k (st : tensor * (SystemModel * gen)) =>
       same_model st.2.1 self /\ svec (m self) st.1 /\
       svec (m self) (m1x_0 st.2.1) /\
       (randomInit = false -> st.1 = m1x_0 self) /\
       (0 < k -> m1x_0 st.2.1 = squeeze st.1) /\
       (k = 0 -> m1x_0 st.2.1 = m1x_0 self) /\
       length (Input st.2.1) = size /\ length (Target st.2.1) = size /\
       forall i, i < k ->
         exists Yi Xi, Input st.2.1 !! i = Some Yi /\
                       Target st.2.1 !! i = Some Xi /\
                       trajectory self T' randomInit Yi Xi)
    (GenerateBatch_body std_normal uniform01 uninit parameters_variance
       T' randomInit) size
    (m1x_0 (GenerateBatch_start uninit size T' self),
     (GenerateBatch_start uninit size T' self, g)))
    as ([ic [s' g']] & Hrun & Hinv).
  - cbn [fst snd]. split; [by repeat split|]. split; [done|]. split; [done|].
    split; [done|]. split; [lia|]. split; [done|].
    split; [apply empty3_length|]. split; [apply empty3_length|].
    intros i Hi. lia.
  - intros k [ic [s g0]] Hk. cbn [fst snd].
    intros (Hsame & Hic & Hm1 & Hfix & _ & _ & HI & HT & Htraj).
    unfold GenerateBatch_body.
    set (pick := if randomInit
                 then let '(u, g') := rand_like uniform01 (m1x_0 s) g0 in
                      (scale parameters_variance u, g')
                 else (ic, g0)).
    assert (Hpick : pick.1 = (if randomInit
                              then random_init uniform01 parameters_variance
                                     s g0
                              else ic)).
    { unfold pick, random_init. destruct randomInit; [|done].
      by destruct (rand_like uniform01 (m1x_0 s) g0). }
    destruct pick as [ic' g1]. simpl in Hpick.
    assert (Hic' : svec (m self) ic').
    { rewrite Hpick. destruct randomInit; [|done].
      by apply random_init_svec. }
    set (self1 := InitSequence ic' (m2x_0 s) s).
    pose proof Hsame as (Ef & Eh & Em & En & Eq & Er).
    assert (Hwf1 : well_configured self1)
      by (by apply (same_model_well_configured self1 self)).
    assert (Hstart : svec (m self1) (m1x_0 self1)).
    { change (m self1) with (m s). rewrite Em. simpl. by apply svec_squeeze. }
    destruct (GenerateSequence_trace std_normal uninit (Q_ self1) (R_ self1)
                T' self1 g1 Hwf1 Hstart)
      as (xs & ys & X & Y & Hgen & Hlx & Hly & Hsv & HX & HY & HcX & HcY
          & Hobs & Hdet).
    rewrite Hgen. cbn [mbind option_bind].
    eexists. split; [done|]. cbn [fst snd].
    change (m self1) with (m s) in *. change (n self1) with (n s) in *.
    change (f self1) with (f s) in *. change (h self1) with (h s) in *.
    change (q self1) with (q s) in *. change (r self1) with (r s) in *.
    rewrite Em, En in *.
    cbn [Input Target set_Input set_Target upd set_x set_y set_x_prev x y
         m1x_0].
    split; [done|]. split; [done|]. split; [by apply svec_squeeze|].
    split; [intros ->; by rewrite Hpick, Hfix|]. split; [done|].
    split; [intros; lia|].
    split; [by rewrite length_insert|]. split; [by rewrite length_insert|].
    intros i Hi. destruct (decide (i = k)) as [->|Hne].
    + exists Y, X. cbn [Input Target set_Input set_Target upd set_x set_y
                        set_x_prev x y].
      split; [apply list_lookup_insert_eq; simpl; lia|].
      split; [apply list_lookup_insert_eq; simpl; lia|].
      split; [done|]. split; [done|]. split.
      * intros Hr0 t Ht.
        destruct (lookup_lt_is_Some_2 xs t) as [xt Hxt]; [lia|].
        exists xt. split; [by apply (Forall_lookup_1 _ _ _ _ Hsv Hxt)|].
        split; [by apply HcX|]. rewrite <- Eh. apply HcY, Hobs; [|done].
        by rewrite Er.
      * intros Hmode Hq0 t Ht. subst randomInit.
        rewrite (HcX t _ (Hdet ltac:(by rewrite Eq) t Ht)).
        cbn [m1x_0 self1 InitSequence set_m1x_0 set_m2x_0].
        by rewrite Ef, Hpick, Hfix.
    + cbn [Input Target set_Input set_Target upd set_x set_y set_x_prev].
      rewrite !list_lookup_insert_ne by done. apply Htraj. lia.
  - exists ic, s', g'. split; [exact Hrun|]. cbn [fst snd] in Hinv.
    destruct Hinv as (Hsame & _ & Hm1 & Hfix & Hsq & Hz & HI & HT & Htraj).
    split; [done|]. split; [done|].
    split; [intros Hmode Hpos; by rewrite (Hsq Hpos), (Hfix Hmode)|].
    split; [done|]. split; [done|]. split; [done|]. exact Htraj.
Qed.

(** X10.  On a well-configured model [GenerateBatch(size, T, randomInit)]
    returns [size] input matrices of [n] rows and [size] target matrices of
    [m] rows, each of [T] entries; without observation noise every input
    column is [h] of the state in the same column of its target. *)
Theorem GenerateBatch_returns_aligned (size T' : nat) (randomInit : bool)
    (self : SystemModel) (g : gen) :
  well_configured self -> svec (m self) (m1x_0 self) ->
  exists inputs targets w',
    GenerateBatch std_normal uniform01 uninit parameters_variance
      size T' randomInit (self, g) = Some ((inputs, targets), w') /\
    length inputs = size /\ length targets = size /\
    forall i, i < size ->
      exists Yi Xi,
        inputs !! i = Some Yi /\ targets !! i = Some Xi /\
        shaped (n self) T' Yi /\ shaped (m self) T' Xi /\
        (r self = 0%R -> forall t, t < T' ->
           exists xt, svec (m self) xt /\ column t Xi = Some (data xt) /\
                      column t Yi = Some (data (h self xt))).
Proof.
  intros Hwf H0.
  destruct (GenerateBatch_trajectories self g size T' randomInit Hwf H0)
    as (ic & s' & g' & Hrun & _ & _ & _ & _ & HI & HT & Htraj).
  exists (Input s'), (Target s'), (s', g').
  split; [unfold GenerateBatch; by rewrite Hrun|].
  split; [done|]. split; [done|]. intros i Hi.
  destruct (Htraj i Hi) as (Yi & Xi & HYi & HXi & Hs1 & Hs2 & Hal & _).
  by exists Yi, Xi.
Qed.

(** X11.  Two consecutive calls [GenerateBatch(size, T, randomInit=False)]
    on a well-configured model without process noise return the same
    targets: the first call leaves [m1x_0] squeezed, and squeezing again
    changes nothing. *)
Theorem GenerateBatch_repeatable (size T' : nat) (self : SystemModel)
    (g : gen) :
  well_configured self -> svec (m self) (m1x_0 self) -> q self = 0%R ->
  exists in1 in2 targets self1 g1 w2,
    GenerateBatch std_normal uniform01 uninit parameters_variance
      size T' false (self, g) = Some ((in1, targets), (self1, g1)) /\
    GenerateBatch std_normal uniform01 uninit parameters_variance
      size T' false (self1, g1) = Some ((in2, targets), w2).
Proof.
  intros Hwf H0 Hq.
  destruct (GenerateBatch_trajectories self g size T' false Hwf H0)
    as (ic & s1 & g1 & Hrun1 & Hsame & Hm1 & Hsq & Hz & HI1 & HT1 & Htr1).
  assert (Hwf1 : well_configured s1)
    by (by apply (same_model_well_configured s1 self)).
  pose proof Hsame as (Ef & Eh & Em & En & Eq & Er).
  assert (H01 : svec (m s1) (m1x_0 s1)) by (by rewrite Em).
  destruct (GenerateBatch_trajectories s1 g1 size T' false Hwf1 H01)
    as (ic2 & s2 & g2 & Hrun2 & _ & _ & _ & _ & HI2 & HT2 & Htr2).
  assert (Hstart : squeeze (m1x_0 s1) = squeeze (m1x_0 self)).
  { destruct size as [|k]; [by rewrite Hz|].
    rewrite Hsq by (done || lia). apply squeeze_idemp. }
  assert (Htg : Target s2 = Target s1).
  { apply list_eq_same_length with size; [done|done|].
    intros i X2 X1 Hi HX2 HX1.
    destruct (Htr1 i Hi) as (Y1' & X1' & _ & HX1' & _ & [Hl1 Hr1] & _ & Hd1).
    destruct (Htr2 i Hi) as (Y2' & X2' & _ & HX2' & _ & [Hl2 Hr2] & _ & Hd2).
    rewrite HX1 in HX1'. injection HX1' as <-.
    rewrite HX2 in HX2'. injection HX2' as <-.
    rewrite Em in Hl2.
    apply (matrix_eq_columns T'); [lia|done|done|].
    intros t Ht. rewrite (Hd1 eq_refl Hq t Ht).
    rewrite (Hd2 eq_refl ltac:(by rewrite Eq) t Ht). by rewrite Ef, Hstart. }
  exists (Input s1), (Input s2), (Target s1), s1, g1, (s2, g2).
  split; [unfold GenerateBatch; by rewrite Hrun1|].
  unfold GenerateBatch. rewrite Hrun2. cbn [mbind option_bind].
  by rewrite Htg.
Qed.
End Batches.

(** *** Instances on the scenario model

    The scenario model with a counting generator, and two variants of it
    with a negative observation noise scale and with a motion model of the
    wrong output size, meet the hypotheses above. *)

Import SimulationExamples.

Ltac scenario_configured :=
  split; [intros v Hv; exact Hv|]; split; [|simpl; lra];
  intros v [Hl _]; simpl in *; split; [|left; reflexivity]; simpl;
  rewrite length_take; lia.

Ltac scenario_state := split; [reflexivity|left; reflexivity].

Lemma GenerateSequence_returns_shaped_witness :
  exists X Y P g',
    GenerateSequence counting_sampler (fun _ => 0%R) (zeros []) (zeros []) 5
      (example_model, 0) = Some (upd X Y P example_model, g') /\
    shaped (m example_model) 5 X /\ shaped (n example_model) 5 Y /\
    svec (m example_model) P.
Proof.
  apply (GenerateSequence_returns_shaped counting_sampler (fun _ => 0%R)
           (zeros []) (zeros []) 5 example_model 0).
  - scenario_configured.
  - scenario_state.
Defined.

Lemma GenerateSequence_last_state_witness :
  exists self' g',
    GenerateSequence counting_sampler (fun _ => 0%R) (zeros []) (zeros []) 5
      (example_model, 0) = Some (self', g') /\
    column (5 - 1) (x self') = Some (data (x_prev self')).
Proof.
  apply (GenerateSequence_last_state counting_sampler (fun _ => 0%R)
           (zeros []) (zeros []) 5 example_model 0).
  - scenario_configured.
  - scenario_state.
  - lia.
Defined.

Lemma GenerateSequence_noiseless_observations_witness :
  r example_model = 0%R /\
  exists self' g',
    GenerateSequence counting_sampler (fun _ => 0%R) (zeros []) (zeros []) 5
      (example_model, 0) = Some (self', g') /\
    forall t, t < 5 ->
      exists xt, svec (m example_model) xt /\
        column t (x self') = Some (data xt) /\
        column t (y self') = Some (data (h example_model xt)).
Proof.
  split; [reflexivity|].
  apply (GenerateSequence_noiseless_observations counting_sampler
           (fun _ => 0%R) (zeros []) (zeros []) 5 example_model 0).
  - scenario_configured.
  - scenario_state.
  - reflexivity.
Defined.

Lemma GenerateSequence_generator_witness :
  exists self',
    GenerateSequence counting_sampler (fun _ => 0%R) (zeros []) (zeros []) 5
      (example_model, 0)
    = Some (self',
            Nat.iter 5 (step_generator counting_sampler example_model) 0).
Proof.
  apply (GenerateSequence_generator counting_sampler (fun _ => 0%R)
           (zeros []) (zeros []) 5 example_model 0).
  - scenario_configured.
  - scenario_state.
Defined.

Lemma GenerateSequence_ignores_uninitialised_witness :
  GenerateSequence counting_sampler (fun _ => 0%R) (zeros []) (zeros []) 5
    (example_model, 0)
  = GenerateSequence counting_sampler (fun _ => 1%R) (zeros [2; 2])
      (zeros [1; 1]) 5 (example_model, 0).
Proof.
  apply (GenerateSequence_ignores_uninitialised counting_sampler
           (fun _ => 0%R) (fun _ => 1%R) (zeros []) (zeros [])
           (zeros [2; 2]) (zeros [1; 1]) 5 example_model 0).
  - scenario_configured.
  - scenario_state.
Defined.

Lemma UpdateCovariance_Gain_takes_effect_witness :
  exists self' g',
    GenerateSequence counting_sampler (fun _ => 0%R) (zeros []) (zeros []) 5
      (UpdateCovariance_Gain 0 1 negative_scale_model, 0)
      = Some (self', g') /\
    q self' = 0%R /\ r self' = 1%R /\
    forall t, t < 5 ->
      column t (x self')
        = Some (data (Nat.iter (S t) (f negative_scale_model)
                        (m1x_0 negative_scale_model))).
Proof.
  apply (UpdateCovariance_Gain_takes_effect counting_sampler (fun _ => 0%R)
           1 (zeros []) (zeros []) 5 negative_scale_model 0).
  - intros v Hv. exact Hv.
  - intros v [Hl _]. simpl in *. split; [|left; reflexivity]. simpl.
    rewrite length_take. lia.
  - scenario_state.
  - lra.
Defined.

Lemma GenerateSequence_negative_scale_witness :
  GenerateSequence counting_sampler (fun _ => 0%R) (zeros []) (zeros []) 5
    (negative_scale_model, 0) = None.
Proof.
  apply (GenerateSequence_negative_scale counting_sampler (fun _ => 0%R)
           (zeros []) (zeros []) 5 negative_scale_model 0).
  - right. simpl. lra.
  - lia.
Defined.

Lemma GenerateSequence_shape_mismatch_witness :
  GenerateSequence counting_sampler (fun _ => 0%R) (zeros []) (zeros []) 5
    (misshaped_model, 0) = None.
Proof.
  apply (GenerateSequence_shape_mismatch counting_sampler (fun _ => 0%R)
           (zeros []) (zeros []) 5 3 misshaped_model 0).
  - reflexivity.
  - reflexivity.
  - simpl. lia.
  - lia.
  - lia.
Defined.

Lemma GenerateBatch_returns_aligned_witness :
  exists inputs targets w',
    GenerateBatch counting_sampler counting_sampler (fun _ => 0%R) 2
      3 5 false (example_model, 0) = Some ((inputs, targets), w') /\
    length inputs = 3 /\ length targets = 3 /\
    forall i, i < 3 ->
      exists Yi Xi,
        inputs !! i = Some Yi /\ targets !! i = Some Xi /\
        shaped (n example_model) 5 Yi /\ shaped (m example_model) 5 Xi /\
        (r example_model = 0%R -> forall t, t < 5 ->
           exists xt, svec (m example_model) xt /\
                      column t Xi = Some (data xt) /\
                      column t Yi = Some (data (h example_model xt))).
Proof.
  apply (GenerateBatch_returns_aligned counting_sampler counting_sampler
           (fun _ => 0%R) 2 3 5 false example_model 0).
  - scenario_configured.
  - scenario_state.
Defined.

Lemma GenerateBatch_repeatable_witness :
  exists in1 in2 targets self1 g1 w2,
    GenerateBatch counting_sampler counting_sampler (fun _ => 0%R) 2
      3 5 false (example_model, 0) = Some ((in1, targets), (self1, g1)) /\
    GenerateBatch counting_sampler counting_sampler (fun _ => 0%R) 2
      3 5 false (self1, g1) = Some ((in2, targets), w2).
Proof.
  apply (GenerateBatch_repeatable counting_sampler counting_sampler
           (fun _ => 0%R) 2 3 5 example_model 0).
  - scenario_configured.
  - scenario_state.
  - reflexivity.
Defined.
End SystemModelExtra.

(** ** More on the loss functions *)

Module LossExtra.
Import TF PiSSM PiSSMRest LossSpec.

Lemma rsum_const (k : nat) (c : R) : rsum k (fun _ => c) = (INR k * c)%R.
Proof.
  induction k as [|k IH]; [simpl; lra|]. cbn [rsum]. rewrite IH, S_INR. lra.
Qed.

Lemma rsum_ge (k : nat) (g : nat -> R) (c : R) :
  (forall i, i < k -> (c <= g i)%R) -> (INR k * c <= rsum k g)%R.
Proof.
  induction k as [|k IH]; intros Hg; [simpl; lra|].
  cbn [rsum]. rewrite S_INR.
  assert (INR k * c <= rsum k g)%R by (apply IH; intros i Hi; apply Hg; lia).
  assert (c <= g k)%R by (apply Hg; lia). lra.
Qed.

Lemma mean_const (B T' : nat) (c : R) :
  0 < B -> 0 < T' ->
  (rsum B (fun _ => rsum T' (fun _ => c)) / INR (B * T') = c)%R.
Proof.
  intros HB HT. rewrite !rsum_const, mult_INR.
  assert (INR B <> 0%R) by (apply not_0_INR; lia).
  assert (INR T' <> 0%R) by (apply not_0_INR; lia). by field.
Qed.

Lemma zip3_last_mismatch (op : R -> R -> R) (a b : tensor3) :
  bdim (dim2 a) (dim2 b) = None -> zip3 op a b = None.
Proof.
  intros H. unfold zip3. rewrite H.
  destruct (bdim (dim0 a) (dim0 b)); [|done].
  by destruct (bdim (dim1 a) (dim1 b)).
Qed.

Section Extras.
Variable output_dim : nat.

(** X12.  [rmse] ignores the predicted variance: two predictions with the
    same first [output_dim] components give the same value against every
    target, and raise alike. *)
Theorem rmse_ignores_variance (target p p' : tensor3) :
  dim0 p = dim0 p' -> dim1 p = dim1 p' ->
  Nat.min output_dim (dim2 p) = Nat.min output_dim (dim2 p') ->
  (forall b t k, k < output_dim -> at3 p b t k = at3 p' b t k) ->
  rmse output_dim target p = rmse output_dim target p'.
Proof.
  intros H0 H1 H2 Hent. unfold rmse, zip3. cbn [dim0 dim1 dim2 slice_to].
  rewrite <- H0, <- H1, <- H2.
  destruct (bdim (dim0 p) (dim0 target)) as [d0|]; [|done].
  destruct (bdim (dim1 p) (dim1 target)) as [d1|]; [|done].
  destruct (bdim _ (dim2 target)) as [d2|] eqn:E2; [|done].
  cbn [mbind option_bind]. do 2 f_equal. unfold reduce_mean3.
  cbn [dim0 dim1 dim2 map3 at3 slice_to]. f_equal.
  apply rsum_ext. intros i _. apply rsum_ext. intros j _.
  apply rsum_ext. intros k Hk.
  rewrite Hent; [done|]. pose proof (bidx_lt _ _ _ _ E2 Hk). lia.
Qed.

(** X13.  For a target of shape [[B, T, D]] with [B, T, D >= 1] and a
    prediction of the same leading shape with at least [D] last entries:
    [rmse] is zero when the predicted mean equals the target entry by
    entry, whatever the predicted variance. *)
Theorem rmse_zero_at_target (target p : tensor3) :
  dim0 p = dim0 target -> dim1 p = dim1 target ->
  dim2 target = output_dim -> output_dim <= dim2 p ->
  0 < dim0 target -> 0 < dim1 target -> 0 < output_dim ->
  (forall b t k, b < dim0 target -> t < dim1 target -> k < output_dim ->
     at3 p b t k = at3 target b t k) ->
  rmse output_dim target p = Some 0%R.
Proof.
  intros H0 H1 H2 HD _ _ _ Hent. unfold rmse, zip3.
  cbn [dim0 dim1 dim2 slice_to]. rewrite H0, H1, H2, Nat.min_l by done.
  rewrite !bdim_same. cbn [mbind option_bind]. f_equal.
  transitivity (sqrt 0); [|apply sqrt_0]. f_equal. unfold reduce_mean3.
  cbn [dim0 dim1 dim2 map3 at3 slice_to].
  rewrite (rsum_ext _ _ (fun _ => 0%R)); [rewrite rsum_const; lra|].
  intros b Hb.
  rewrite (rsum_ext _ _ (fun _ => 0%R)); [rewrite rsum_const; lra|].
  intros t Ht.
  rewrite (rsum_ext _ _ (fun _ => 0%R)); [rewrite rsum_const; lra|].
  intros k Hk. rewrite !bidx_id by done. rewrite Hent by done. ring.
Qed.

(** X14.  For a target of shape [[B, T, D]] and a prediction of shape
    [[B, T, 2D]] with [B, T >= 1] whose predicted variances are not
    negative, [gaussian_nll] is at least [D * 0.5 * (ln (2 pi) + ln 1e-8)]:
    the shift by [1e-8] bounds the loss from below. *)
Theorem gaussian_nll_lower_bound (target p : tensor3) :
  dim2 target = output_dim -> dim2 p = output_dim + output_dim ->
  dim0 p = dim0 target -> dim1 p = dim1 target ->
  0 < dim0 target -> 0 < dim1 target ->
  (forall b t k, b < dim0 target -> t < dim1 target -> k < output_dim ->
     (0 <= at3 p b t (output_dim + k))%R) ->
  exists v, gaussian_nll output_dim target p = Some v /\
    (INR output_dim * (0.5 * (ln (2 * PI) + ln epsilon)) <= v)%R.
Proof.
  intros H2 HP2 HP0 HP1 HB HT Hvar.
  destruct (element_wise_nll_entries output_dim target p H2 HP2 HP0 HP1)
    as (e & He & E0 & E1 & E2 & Hent).
  unfold gaussian_nll, sample_wise_error. rewrite He.
  cbn [fmap option_fmap option_map]. eexists. split; [done|].
  unfold reduce_mean2, reduce_sum_last. cbn [rows cols at2].
  rewrite E0, E1, E2.
  set (c := (INR output_dim * (0.5 * (ln (2 * PI) + ln epsilon)))%R).
  assert (HN : (0 < INR (dim0 target * dim1 target))%R).
  { apply lt_0_INR. lia. }
  apply Rmult_le_reg_r with (r := INR (dim0 target * dim1 target)); [done|].
  unfold Rdiv. rewrite Rmult_assoc, Rinv_l, Rmult_1_r by lra.
  rewrite mult_INR.
  replace (c * (INR (dim0 target) * INR (dim1 target)))%R
    with (INR (dim0 target) * (INR (dim1 target) * c))%R by ring.
  apply rsum_ge. intros b Hb. apply rsum_ge. intros t Ht.
  apply rsum_ge. intros k Hk. rewrite Hent by done. unfold nll_entry.
  specialize (Hvar b t k Hb Ht Hk).
  set (var := at3 p b t (output_dim + k)) in *.
  assert (Heps : (0 < epsilon)%R) by (unfold epsilon; lra).
  assert (Hln : (ln epsilon <= ln (var + epsilon))%R).
  { destruct (Req_dec var 0) as [->|Hne].
    - rewrite Rplus_0_l. lra.
    - left. apply ln_increasing; lra. }
  assert (Hq : (0 <= (at3 target b t k - at3 p b t k) ^ 2
                     / (var + epsilon))%R).
  { apply Rmult_le_pos; [apply pow2_ge_0|].
    left. apply Rinv_0_lt_compat. lra. }
  lra.
Qed.

(** X15.  The bound is attained: when the predicted mean equals the target
    and every predicted variance is zero, [gaussian_nll] is exactly
    [D * 0.5 * (ln (2 pi) + ln 1e-8)]. *)
Theorem gaussian_nll_perfect_prediction (target p : tensor3) :
  dim2 target = output_dim -> dim2 p = output_dim + output_dim ->
  dim0 p = dim0 target -> dim1 p = dim1 target ->
  0 < dim0 target -> 0 < dim1 target ->
  (forall b t k, b < dim0 target -> t < dim1 target -> k < output_dim ->
     at3 p b t k = at3 target b t k /\
     at3 p b t (output_dim + k) = 0%R) ->
  gaussian_nll output_dim target p
    = Some (INR output_dim * (0.5 * (ln (2 * PI) + ln epsilon)))%R.
Proof.
  intros H2 HP2 HP0 HP1 HB HT Hp.
  destruct (element_wise_nll_entries output_dim target p H2 HP2 HP0 HP1)
    as (e & He & E0 & E1 & E2 & Hent).
  unfold gaussian_nll, sample_wise_error. rewrite He.
  cbn [fmap option_fmap option_map]. f_equal.
  unfold reduce_mean2, reduce_sum_last. cbn [rows cols at2].
  rewrite E0, E1, E2.
  set (c := (0.5 * (ln (2 * PI) + ln epsilon))%R).
  rewrite <- (mean_const (dim0 target) (dim1 target) (INR output_dim * c))
    by done.
  f_equal. apply rsum_ext. intros b Hb. apply rsum_ext. intros t Ht.
  rewrite <- rsum_const. apply rsum_ext. intros k Hk.
  rewrite Hent by done. destruct (Hp b t k Hb Ht Hk) as [-> ->].
  unfold nll_entry, c. rewrite Rplus_0_l. unfold Rdiv. ring.
Qed.

(** X16.  For a batch of one trajectory (target [[1, T, D]], prediction
    [[1, T, 2D]], log-probabilities [[1, T, 1]], [T >= 1]) with predicted
    variances that are not negative, every reward is its own baseline: the
    advantage is zero and [reinforce_loss] is zero, whatever the
    log-probabilities. *)
Theorem reinforce_loss_single_trajectory (target p logp_list : tensor3) :
  dim2 target = output_dim -> dim2 p = output_dim + output_dim ->
  dim0 target = 1 -> dim0 p = 1 -> dim0 logp_list = 1 ->
  dim1 p = dim1 target -> dim1 logp_list = dim1 target ->
  dim2 logp_list = 1 -> 0 < dim1 target ->
  (forall t k, t < dim1 target -> k < output_dim ->
     (0 <= at3 p 0 t (output_dim + k))%R) ->
  reinforce_loss output_dim target p logp_list = Some 0%R.
Proof.
  intros H2 HP2 H0 HP0 HL0 HP1 HL1 HL2 _ _.
  destruct (element_wise_nll_entries output_dim target p H2 HP2
              ltac:(by rewrite HP0, H0) HP1)
    as (e & He & E0 & E1 & E2 & Hent).
  unfold reinforce_loss, sample_wise_error. rewrite He.
  cbn [fmap option_fmap option_map mbind option_bind].
  unfold reinforce_from_reward, squeeze_last.
  rewrite decide_True by done. cbn [mbind option_bind].
  unfold zip2.
  cbn [rows cols at2 map2 reduce_sum_last tile_rows expand_dims0
       reduce_mean_axis0 dim0 dim1 dim2 slice_to TF.len at1].
  rewrite E0, E1, E2, HP0, HL0, HL1, H0, !bdim_same.
  cbn [mbind option_bind rows cols at2 Nat.mul Nat.add]. rewrite !bdim_same.
  cbn [mbind option_bind]. f_equal.
  unfold reduce_mean2. cbn [rows cols at2].
  cbn [rsum Nat.mul Nat.add].
  rewrite (rsum_ext (dim1 target) _ (fun _ => 0%R));
    [rewrite rsum_const; lra|].
  intros t Ht. rewrite !(bidx_id _ t) by done.
  rewrite !(bidx_id 1 0) by lia. cbn [rsum INR]. unfold Rdiv.
  rewrite Rinv_1. ring.
Qed.

(** X17.  Shape errors of the losses: [reinforce_loss] raises whenever the
    last dimension of [logp_list] is not one, and [gaussian_nll] raises
    whenever the last dimension of the target and the number of predicted
    means differ and neither is one. *)
Theorem losses_raise_on_shape_mismatch (target p logp_list : tensor3) :
  (dim2 logp_list <> 1 ->
   reinforce_loss output_dim target p logp_list = None) /\
  (dim2 target <> Nat.min output_dim (dim2 p) ->
   dim2 target <> 1 -> Nat.min output_dim (dim2 p) <> 1 ->
   gaussian_nll output_dim target p = None).
Proof.
  split.
  - intros Hl. unfold reinforce_loss.
    destruct (sample_wise_error _ _ _) as [s|]; [|done].
    cbn [mbind option_bind]. unfold reinforce_from_reward, squeeze_last.
    by rewrite decide_False.
  - intros Hne H1 H2. unfold gaussian_nll, sample_wise_error.
    unfold element_wise_nll. rewrite zip3_last_mismatch; [done|].
    cbn [dim2 slice_to]. unfold bdim. by rewrite !decide_False.
Qed.
End Extras.

(** *** Instances with one output dimension *)

Lemma rmse_ignores_variance_witness :
  rmse 1 target_zero prediction_unit_variance
    = rmse 1 target_zero prediction_negative_variance.
Proof.
  apply (rmse_ignores_variance 1 target_zero prediction_unit_variance
           prediction_negative_variance).
  - reflexivity.
  - reflexivity.
  - reflexivity.
  - intros b t k Hk. destruct k; [reflexivity|lia].
Defined.

Lemma rmse_zero_at_target_witness :
  rmse 1 target_zero prediction_unit_variance = Some 0%R.
Proof.
  apply (rmse_zero_at_target 1 target_zero prediction_unit_variance).
  - reflexivity.
  - reflexivity.
  - reflexivity.
  - simpl. lia.
  - simpl. lia.
  - simpl. lia.
  - lia.
  - intros b t k _ _ Hk. destruct k; [reflexivity|lia].
Defined.

Lemma gaussian_nll_lower_bound_witness :
  exists v, gaussian_nll 1 target_zero prediction_unit_variance = Some v /\
    (INR 1 * (0.5 * (ln (2 * PI) + ln epsilon)) <= v)%R.
Proof.
  apply (gaussian_nll_lower_bound 1 target_zero prediction_unit_variance).
  - reflexivity.
  - reflexivity.
  - reflexivity.
  - reflexivity.
  - simpl. lia.
  - simpl. lia.
  - intros b t k _ _ _. simpl. lra.
Defined.

Lemma gaussian_nll_perfect_prediction_witness :
  gaussian_nll 1 target_zero (mkT3 1 1 2 (fun _ _ _ => 0%R))
    = Some (INR 1 * (0.5 * (ln (2 * PI) + ln epsilon)))%R.
Proof.
  apply (gaussian_nll_perfect_prediction 1 target_zero
           (mkT3 1 1 2 (fun _ _ _ => 0%R))).
  - reflexivity.
  - reflexivity.
  - reflexivity.
  - reflexivity.
  - simpl. lia.
  - simpl. lia.
  - intros b t k _ _ _. split; reflexivity.
Defined.

Lemma reinforce_loss_single_trajectory_witness :
  reinforce_loss 1 target_zero prediction_unit_variance
    (mkT3 1 1 1 (fun _ _ _ => 1%R)) = Some 0%R.
Proof.
  apply (reinforce_loss_single_trajectory 1 target_zero
           prediction_unit_variance (mkT3 1 1 1 (fun _ _ _ => 1%R))).
  - reflexivity.
  - reflexivity.
  - reflexivity.
  - reflexivity.
  - reflexivity.
  - reflexivity.
  - reflexivity.
  - reflexivity.
  - simpl. lia.
  - intros t k _ _. simpl. lra.
Defined.

(** A well-shaped target and prediction, for which the per-step errors are
    computed, with log-probabilities of last dimension two; and a target of
    three outputs against two predicted means. *)
Lemma losses_raise_on_shape_mismatch_witness :
  (exists s,
     sample_wise_error 1 target_zero prediction_unit_variance = Some s) /\
  reinforce_loss 1 target_zero prediction_unit_variance
    prediction_unit_variance = None /\
  gaussian_nll 2 (mkT3 1 1 3 (fun _ _ _ => 0%R)) prediction_unit_variance
    = None.
Proof.
  split; [eexists; reflexivity|].
  destruct (losses_raise_on_shape_mismatch 1 target_zero
              prediction_unit_variance prediction_unit_variance)
    as [H1 _].
  destruct (losses_raise_on_shape_mismatch 2
              (mkT3 1 1 3 (fun _ _ _ => 0%R)) prediction_unit_variance
              prediction_unit_variance) as [_ H2].
  split.
  - apply H1. simpl. lia.
  - apply H2; simpl; lia.
Defined.
End LossExtra.

(** ** More on the class: activations, layers, constructor and loops *)

Module PiSSMExtra.
Import TF PiSSM PiSSMRest PiSSMSpec.

(** *** Activations *)

Lemma elu_plus_one_nonneg (v : R) : (0 <= elu_plus_one v)%R.
Proof.
  unfold elu_plus_one, elu. destruct (Rlt_dec 0 v); [lra|].
  pose proof (exp_pos v). lra.
Qed.

(** X19.  A variance head ends in [elu(x) + 1], which is never negative;
    so for a prediction whose variance half comes from such a head, what
    [gaussian_nll] and [reinforce_loss] take the logarithm of and divide by
    is at least [1e-8], and in particular positive: such a prediction is
    never the one that makes the divisor zero. *)
Theorem decoder_variance_divisor_bounded (output_dim : nat) (p : tensor3)
    (z : nat -> nat -> nat -> R) :
  (forall b t k, at3 p b t (output_dim + k) = elu_plus_one (z b t k)) ->
  forall b t k,
    (epsilon <= at3 (shifted_variance output_dim p) b t k)%R /\
    (0 < at3 (shifted_variance output_dim p) b t k)%R.
Proof.
  intros Hp b t k. unfold shifted_variance, epsilon.
  cbn [at3 map3 slice_from].
  rewrite Hp. pose proof (elu_plus_one_nonneg (z b t k)). lra.
Qed.

Lemma sum_squares_nonneg (v : list R) : (0 <= sum_squares v)%R.
Proof.
  induction v as [|a v IH]; [simpl; lra|].
  cbn [sum_squares foldr]. fold (sum_squares v). nra.
Qed.

Lemma sum_squares_pos (v : list R) :
  (exists a, a ∈ v /\ a <> 0%R) -> (0 < sum_squares v)%R.
Proof.
  intros (a & Hin & Hne). induction v as [|c v IH].
  { by apply elem_of_nil in Hin. }
  cbn [sum_squares foldr]. fold (sum_squares v).
  pose proof (sum_squares_nonneg v).
  apply elem_of_cons in Hin as [<-|Hin]; [nra|].
  specialize (IH Hin). nra.
Qed.

Lemma sum_squares_scale (c : R) (v : list R) :
  c <> 0%R ->
  sum_squares ((fun a => (a / c)%R) <$> v) = (sum_squares v / (c * c))%R.
Proof.
  intros Hc. induction v as [|a v IH]; [simpl; field; done|].
  rewrite fmap_cons. cbn [sum_squares foldr].
  fold (sum_squares ((fun a => (a / c)%R) <$> v)). fold (sum_squares v).
  rewrite IH. by field.
Qed.

(** X20.  The normalisation [x / tf.norm(x)] of the encoder mean returns a
    vector of Euclidean norm one whenever [x] has a non-zero entry. *)
Theorem unit_normalise_norm (v : list R) :
  (exists a, a ∈ v /\ a <> 0%R) -> norm (unit_normalise v) = 1%R.
Proof.
  intros Hv. pose proof (sum_squares_pos v Hv) as Hpos.
  unfold unit_normalise, norm.
  assert (Hn : sqrt (sum_squares v) <> 0%R).
  { pose proof (sqrt_lt_R0 _ Hpos). lra. }
  rewrite sum_squares_scale by done.
  rewrite sqrt_sqrt by lra.
  replace (sum_squares v / sum_squares v)%R with 1%R by (field; lra).
  apply sqrt_1.
Qed.

(** *** Layers *)

Lemma time_distribute_acc {A : Type} (layers : list (A -> A))
    (acc : list (list A -> list A)) :
  foldl (fun td_layers l => td_layers ++ [TimeDistributed l]) acc layers
    = acc ++ (TimeDistributed <$> layers).
Proof.
  revert acc. induction layers as [|l layers IH]; intros acc.
  { by rewrite app_nil_r. }
  cbn [foldl]. rewrite IH, <- app_assoc. done.
Qed.

(** X21.  Propagating a sequence through the time-distributed versions of
    a list of layers is propagating each time slice through the layers
    themselves, in the same order; [_time_distribute_layers] keeps the
    number and the order of the layers. *)
Theorem time_distributed_layers_fuse {A : Type} (layers : list (A -> A))
    (xs : list A) :
  length (_time_distribute_layers layers) = length layers /\
  _prop_through_layers xs (_time_distribute_layers layers)
    = (fun a => _prop_through_layers a layers) <$> xs.
Proof.
  unfold _time_distribute_layers. rewrite time_distribute_acc, app_nil_l.
  split; [by rewrite length_fmap|].
  unfold _prop_through_layers. revert xs.
  induction layers as [|l layers IH]; intros xs.
  { cbn [fmap list_fmap foldl]. by rewrite list_fmap_id. }
  rewrite fmap_cons. cbn [foldl]. rewrite IH. unfold TimeDistributed.
  by rewrite <- list_fmap_compose.
Qed.

(** *** The constructor *)

Lemma lower_ascii_idemp (c : Ascii.ascii) :
  lower_ascii (lower_ascii c) = lower_ascii c.
Proof. by destruct c as [[] [] [] [] [] [] [] []]. Qed.

Lemma lower_idemp (s : string) : lower (lower s) = lower s.
Proof.
  induction s as [|c s IH]; [done|].
  cbn [lower]. by rewrite lower_ascii_idemp, IH.
Qed.

(** X22.  The constructor matches [cell_type] without regard to case:
    replacing the argument by its lower-case form changes neither the
    model built nor the error raised. *)
Theorem init_case_insensitive {layer : Type}
    (enc dec vdec : result (list layer)) (obs : list nat) (lod : nat)
    (out : output_shape) (num_basis : nat) (units : list nat)
    (never_invalid : bool) (cell_type : string) :
  __init__ enc dec vdec obs lod out num_basis units never_invalid cell_type
  = __init__ enc dec vdec obs lod out num_basis units never_invalid
      (lower cell_type).
Proof.
  unfold __init__, build_transition. by rewrite lower_idemp.
Qed.


(** *** Mini-batches *)

Lemma batch_count {A : Type} (xs : list A) (batch_size : Z) :
  (0 < batch_size)%Z ->
  Z.to_nat (Z.quot (Z.of_nat (length xs)) batch_size)
    = length xs / Z.to_nat batch_size.
Proof.
  intros Hpos. rewrite Z.quot_div_nonneg by lia.
  rewrite <- (Z2Nat.id batch_size) at 1 by lia.
  rewrite <- Nat2Z.inj_div. apply Nat2Z.id.
Qed.

Lemma mjoin_slices {A : Type} (xs : list A) (n k : nat) :
  mjoin ((fun bid => take n (drop (bid * n) xs)) <$> seq 0 k)
    = take (k * n) xs.
Proof.
  induction k as [|k IH]; [done|].
  rewrite seq_S, fmap_app, join_app, IH.
  cbn [fmap list_fmap mjoin list_join Nat.add].
  rewrite app_nil_r, take_take_drop. f_equal. lia.
Qed.

(** X24.  The mini-batches of [training] and [testing] for a positive
    batch size: there are [len(x) // batch_size] of them, each has exactly
    [batch_size] samples, and together they are the first
    [count * batch_size] samples in order; the remaining
    [len(x) % batch_size] samples are never used. *)
Theorem batches_drop_remainder {A : Type} (xs : list A) (batch_size : Z) :
  (0 < batch_size)%Z ->
  exists bl, batches xs batch_size = Ok bl /\
    length bl = length xs / Z.to_nat batch_size /\
    Forall (fun b => length b = Z.to_nat batch_size) bl /\
    mjoin bl = take (length bl * Z.to_nat batch_size) xs.
Proof.
  intros Hpos. unfold batches.
  destruct (Z.eqb_spec batch_size 0) as [->|_]; [lia|].
  eexists. split; [done|]. rewrite batch_count by done.
  set (n := Z.to_nat batch_size). assert (Hn : 0 < n) by (unfold n; lia).
  split; [by rewrite length_fmap, length_seq|]. split.
  - apply Forall_fmap, Forall_forall. intros bid Hin.
    apply elem_of_seq in Hin. cbn [compose].
    rewrite length_take, length_drop.
    pose proof (Nat.Div0.mul_div_le (length xs) n) as Hle.
    assert (S bid * n <= n * (length xs / n)) by nia. lia.
  - by rewrite mjoin_slices, length_fmap, length_seq.
Qed.

(** X25.  A negative batch size is not rejected: [range] of the negative
    count is empty, so there are no mini-batches, and [training] then
    returns an empty loss history and the model as it was, without a
    single forward pass.  A batch size of zero raises
    [ZeroDivisionError]. *)
Theorem training_nonpositive_batch_size
    {W Obs Tgt Pred Logp Grad : Type}
    (model_call : W -> list Obs -> result (Pred * Logp))
    (self_reinforce_loss : list Tgt -> Pred -> Logp -> result tfloat)
    (self_gaussian_nll : list Tgt -> Pred -> result tfloat)
    (self_lr : option R)
    (reinforce_gradients phi_gradients : W -> list Obs -> list Tgt ->
                                         result Grad)
    (apply_gradients : R -> Grad -> W -> result W)
    (validation : W -> result tfloat)
    (model : W) (Train_Obs : list Obs) (Train_Target : list Tgt)
    (Valid_Obs : list Obs) (Valid_Target : list Tgt)
    (epochs batch_size ratio : Z) :
  let r := training model_call self_reinforce_loss self_gaussian_nll
             self_lr reinforce_gradients phi_gradients apply_gradients
             validation model Train_Obs Train_Target Valid_Obs
             Valid_Target epochs batch_size ratio in
  ((batch_size < 0)%Z -> r = Ok ([], model)) /\
  (batch_size = 0%Z -> r = Raise ZeroDivisionError).
Proof.
  cbv zeta. split.
  - intros Hneg. unfold training, batches.
    destruct (Z.eqb_spec batch_size 0) as [->|_]; [lia|].
    assert (Hq : forall k : nat,
              Z.to_nat (Z.quot (Z.of_nat k) batch_size) = 0).
    { intros k. pose proof (Z.quot_opp_r (Z.of_nat k) batch_size).
      assert (0 <= Z.quot (Z.of_nat k) (- batch_size))%Z
        by (apply Z.quot_pos; lia).
      lia. }
    rewrite !Hq. cbn [seq fmap list_fmap mbind result_bind length].
    induction (seq 0 (Z.to_nat epochs)) as [|e es IH]; [done|].
    cbn [epoch_loop batch_loop mbind result_bind]. exact IH.
  - intros ->. done.
Qed.

(** *** The training loop *)

Section TrainingLoop.
Context {W Obs Tgt Pred Logp Grad : Type}.
Variable model_call : W -> list Obs -> result (Pred * Logp).
Variable self_reinforce_loss : list Tgt -> Pred -> Logp -> result tfloat.
Variable self_gaussian_nll : list Tgt -> Pred -> result tfloat.
Variable self_lr : option R.
Variable reinforce_gradients : W -> list Obs -> list Tgt -> result Grad.
Variable phi_gradients : W -> list Obs -> list Tgt -> result Grad.
Variable apply_gradients : R -> Grad -> W -> result W.
Variable validation : W -> result tfloat.

(** An iteration that starts with [loss] unassigned raises, at
    [loss_show_tr += loss] or before. *)
Lemma batch_body_raises (batch_size ratio : Z) (Ubatch : list (list Obs))
    (Ybatch : list (list Tgt)) (i : nat) (s : train_state) :
  loss s = None ->
  exists e,
    batch_body model_call self_reinforce_loss self_gaussian_nll self_lr
      reinforce_gradients phi_gradients apply_gradients validation
      batch_size ratio Ubatch Ybatch i s = Raise e.
Proof.
  intros Hl. unfold batch_body.
  destruct (index Ubatch i) as [u|e]; [|by eexists].
  cbn [mbind result_bind].
  destruct (model_call (weights s) u) as [[preds logp]|e]; [|by eexists].
  cbn [mbind result_bind].
  destruct (index Ybatch i) as [y|e]; [|by eexists].
  cbn [mbind result_bind].
  destruct (self_reinforce_loss y preds logp) as [rl|e]; [|by eexists].
  cbn [mbind result_bind]. rewrite Hl. by eexists.
Qed.

Lemma epoch_loop_returns_initial (batch_size ratio : Z)
    (Ubatch : list (list Obs)) (Ybatch : list (list Tgt))
    (epochs : list nat) (s s' : train_state) :
  loss s = None ->
  epoch_loop model_call self_reinforce_loss self_gaussian_nll self_lr
    reinforce_gradients phi_gradients apply_gradients validation
    batch_size ratio Ubatch Ybatch epochs s = Ok s' ->
  Training_Loss s' = Training_Loss s /\ weights s' = weights s.
Proof.
  revert s. induction epochs as [|e es IH]; intros s Hl.
  { cbn [epoch_loop]. by intros [= <-]. }
  cbn [epoch_loop]. destruct (seq 0 (length Ybatch)) as [|i steps].
  - cbn [batch_loop mbind result_bind]. intros Hrun.
    by apply IH in Hrun.
  - cbn [batch_loop].
    edestruct (batch_body_raises batch_size ratio Ubatch Ybatch i) as [x ->];
      [|done].
    done.
Qed.

(** X26.  [training] never returns a loss history with an entry, nor an
    updated model: whatever the model, the data and the parameters, a call
    that returns at all returns the empty list and the variables it was
    given, because the first iteration of the batch loop always raises. *)
Theorem training_returns_nothing_learned (model : W)
    (Train_Obs : list Obs) (Train_Target : list Tgt) (Valid_Obs : list Obs)
    (Valid_Target : list Tgt) (epochs batch_size ratio : Z)
    (history : list tfloat) (w : W) :
  training model_call self_reinforce_loss self_gaussian_nll self_lr
    reinforce_gradients phi_gradients apply_gradients validation
    model Train_Obs Train_Target Valid_Obs Valid_Target
    epochs batch_size ratio = Ok (history, w) ->
  history = [] /\ w = model.
Proof.
  unfold training.
  destruct (batches Valid_Target batch_size) as [yv|e]; [|done].
  destruct (batches Valid_Obs batch_size) as [uv|e]; [|done].
  destruct (batches Train_Target batch_size) as [Y|e]; [|done].
  destruct (batches Train_Obs batch_size) as [U|e]; [|done].
  cbn [mbind result_bind].
  destruct (epoch_loop _ _ _ _ _ _ _ _ _ _ _ _ _ _) as [s'|e] eqn:E;
    [|done].
  apply epoch_loop_returns_initial in E as [E1 E2]; [|done].
  cbn [mbind result_bind]. intros [= <- <-]. done.
Qed.
End TrainingLoop.

(** X27.  [training] calls the model on the observations alone, so with a
    model built with [never_invalid = False] a run with at least one epoch
    and one full mini-batch stops in the first forward pass with the
    assertion error of [call] about the missing [obs_valid] mask. *)
Theorem training_needs_never_invalid {W Obs Tgt Pred Logp Grad Mask : Type}
    (ones_like : list Obs -> Mask)
    (network : W -> list Obs -> Mask -> result (Pred * Logp))
    (self_reinforce_loss : list Tgt -> Pred -> Logp -> result tfloat)
    (self_gaussian_nll : list Tgt -> Pred -> result tfloat)
    (self_lr : option R)
    (reinforce_gradients phi_gradients : W -> list Obs -> list Tgt ->
                                         result Grad)
    (apply_gradients : R -> Grad -> W -> result W)
    (validation : W -> result tfloat)
    (model : W) (Train_Obs : list Obs) (Train_Target : list Tgt)
    (Valid_Obs : list Obs) (Valid_Target : list Tgt)
    (epochs batch_size ratio : Z) :
  (0 < epochs)%Z -> (0 < batch_size)%Z ->
  (batch_size <= Z.of_nat (length Train_Target))%Z ->
  (batch_size <= Z.of_nat (length Train_Obs))%Z ->
  training
    (fun w NetIn => call ones_like (network w) false (Alone NetIn))
    self_reinforce_loss self_gaussian_nll self_lr reinforce_gradients
    phi_gradients apply_gradients validation model Train_Obs Train_Target
    Valid_Obs Valid_Target epochs batch_size ratio
  = Raise (AssertionError missing_mask_message).
Proof.
  intros He Hb HT HO. unfold training.
  destruct (batches_ok Valid_Target batch_size) as [yv ->]; [lia|].
  destruct (batches_ok Valid_Obs batch_size) as [uv ->]; [lia|].
  destruct (batches_first Train_Target batch_size Hb HT) as [Y ->].
  destruct (batches_first Train_Obs batch_size Hb HO) as [U ->].
  cbn [mbind result_bind].
  destruct (Z.to_nat epochs) as [|e] eqn:E; [lia|].
  cbn [seq epoch_loop length batch_loop mbind result_bind].
  unfold batch_body, index. cbn [lookup list_lookup mbind result_bind call].
  done.
Qed.

(** *** The testing loop *)

Lemma batches_one {A : Type} (xs : list A) :
  batches xs 1 = Ok ((fun x => [x]) <$> xs).
Proof.
  unfold batches. cbn [Z.eqb]. rewrite Z.quot_1_r, Nat2Z.id. f_equal.
  change (Z.to_nat 1) with 1.
  induction xs as [|x xs IH]; [done|].
  cbn [length]. rewrite <- cons_seq, <- fmap_S_seq, !fmap_cons.
  rewrite <- list_fmap_compose, <- IH. f_equal.
Qed.

Section TestingLoop.
Context {W Obs Tgt Pred Logp Mask : Type}.
Variable ones_like : list Obs -> Mask.
Variable network : W -> list Obs -> Mask -> result (Pred * Logp).
Variable tensor_rmse : list Tgt -> Pred -> result tfloat.

(** The first iteration on an instance of the class, when there is an
    observation for the first target: it raises whatever [call] raises,
    and [TypeError] in [rmse] when [call] returns. *)
Lemma testing_first_iteration (never_invalid : bool) (model : W)
    (ratio : Z) (u : Obs) (obs : list Obs) (y : Tgt) (tgts : list Tgt)
    (s : test_state) :
  testing_body (own_model ones_like network never_invalid) tensor_rmse
    model ratio ((fun x => [x]) <$> u :: obs) ((fun x => [x]) <$> y :: tgts)
    0 s
  = match call ones_like (network model) never_invalid (Alone [u]) with
    | Ok _ => Raise TypeError
    | Raise e => Raise e
    end.
Proof.
  unfold testing_body, index, own_model.
  rewrite !fmap_cons. cbn [lookup list_lookup mbind result_bind].
  destruct (call ones_like (network model) never_invalid (Alone [u]))
    as [[pred logp_list]|e]; done.
Qed.

(** X28.  [testing] cannot score an instance of the class: [call] returns
    the tuple of prediction and [logp_list], which [rmse] cannot slice.
    On at least one target and one observation, for every [ratio] and
    [batch_size], it raises [TypeError] in the first iteration when the
    network returns on the first observation (the model built with
    [never_invalid = True]), and the assertion error of [call] about the
    missing mask for a model built with [never_invalid = False]. *)
Theorem testing_own_model_raises (model : W) (u : Obs)
    (test_obs : list Obs) (y : Tgt) (test_targets : list Tgt)
    (batch_size ratio : Z) (pred : Pred) (logp_list : Logp) :
  network model [u] (ones_like [u]) = Ok (pred, logp_list) ->
  testing (own_model ones_like network true) tensor_rmse model
    (u :: test_obs) (y :: test_targets) batch_size ratio
    = Raise TypeError /\
  testing (own_model ones_like network false) tensor_rmse model
    (u :: test_obs) (y :: test_targets) batch_size ratio
    = Raise (AssertionError missing_mask_message).
Proof.
  intros Hnet. unfold testing. rewrite !batches_one.
  cbn [mbind result_bind]. rewrite length_fmap.
  cbn [length seq testing_loop]. rewrite !testing_first_iteration.
  cbn [call]. by rewrite Hnet.
Qed.

(** X29.  On an instance of the class [testing] returns only when there
    are no targets, and then the empty list, for every [ratio],
    [batch_size] and list of observations: with a target and no
    observation it raises [IndexError], and with both its first iteration
    raises, so no loss is ever returned. *)
Theorem testing_returns_only_without_targets (never_invalid : bool)
    (model : W) (test_obs : list Obs) (test_targets : list Tgt)
    (batch_size ratio : Z) :
  let run := testing (own_model ones_like network never_invalid)
               tensor_rmse model test_obs test_targets batch_size ratio in
  (test_targets = [] -> run = Ok []) /\
  (test_targets <> [] -> test_obs = [] -> run = Raise IndexError) /\
  (forall losses, run = Ok losses -> test_targets = [] /\ losses = []).
Proof.
  cbv zeta. unfold testing. rewrite !batches_one.
  cbn [mbind result_bind]. rewrite length_fmap.
  destruct test_targets as [|y tgts].
  { split; [done|]. split; [done|]. by intros losses [= <-]. }
  split; [done|]. cbn [length seq testing_loop].
  destruct test_obs as [|u obs].
  { split; [done|]. intros losses. unfold testing_body, index.
    rewrite fmap_nil. done. }
  split; [done|]. intros losses. rewrite testing_first_iteration.
  by destruct (call _ _ _ _).
Qed.
End TestingLoop.

(** *** Instances *)

Lemma decoder_variance_divisor_bounded_witness :
  (epsilon <= at3 (shifted_variance 1
                     (mkT3 1 1 2 (fun _ _ _ => elu_plus_one 0))) 0 0 0)%R /\
  (0 < at3 (shifted_variance 1
              (mkT3 1 1 2 (fun _ _ _ => elu_plus_one 0))) 0 0 0)%R.
Proof.
  apply (decoder_variance_divisor_bounded 1
           (mkT3 1 1 2 (fun _ _ _ => elu_plus_one 0)) (fun _ _ _ => 0%R)).
  intros b t k. reflexivity.
Defined.

Lemma unit_normalise_norm_witness : norm (unit_normalise [3; 4]%R) = 1%R.
Proof.
  apply (unit_normalise_norm [3; 4]%R).
  exists 3%R. split; [left|lra].
Defined.


Lemma batches_drop_remainder_witness :
  exists bl, batches [1; 2; 3; 4; 5] 2 = Ok bl /\
    length bl = length [1; 2; 3; 4; 5] / Z.to_nat 2 /\
    Forall (fun b => length b = Z.to_nat 2) bl /\
    mjoin bl = take (length bl * Z.to_nat 2) [1; 2; 3; 4; 5].
Proof. apply (batches_drop_remainder [1; 2; 3; 4; 5] 2). lia. Defined.

Lemma training_nonpositive_batch_size_witness :
  toy_training (Fin 1) [1; 2] [1; 2] 1 (-1) 2 = Ok ([], tt) /\
  toy_training (Fin 1) [1; 2] [1; 2] 1 0 2 = Raise ZeroDivisionError.
Proof.
  unfold toy_training. split.
  - apply training_nonpositive_batch_size. lia.
  - apply training_nonpositive_batch_size. reflexivity.
Defined.

Lemma training_returns_nothing_learned_witness :
  toy_training (Fin 1) [1; 2] [1; 2] 0 1 2 = Ok ([], tt) /\
  (@nil tfloat = [] /\ tt = tt).
Proof.
  split; [reflexivity|].
  apply (training_returns_nothing_learned (W := unit) (Obs := nat)
           (Tgt := nat) (Pred := unit) (Logp := unit) (Grad := unit)
           (fun _ _ => Ok (tt, tt)) (fun _ _ _ => Ok (Fin 1))
           (fun _ _ => Ok (Fin 1)) (Some 0.001%R)
           (fun _ _ _ => Ok tt) (fun _ _ _ => Ok tt) (fun _ _ w => Ok w)
           (fun _ => Ok (Fin 0))
           tt [1; 2] [1; 2] [] [] 0 1 2 [] tt).
  reflexivity.
Defined.

Lemma training_needs_never_invalid_witness :
  training (W := unit) (Obs := nat) (Tgt := nat) (Pred := unit)
    (Logp := unit) (Grad := unit)
    (fun w NetIn =>
       call (fun _ => tt) ((fun _ _ _ => Ok (tt, tt)) w) false
         (Alone NetIn))
    (fun _ _ _ => Ok (Fin 1)) (fun _ _ => Ok (Fin 1)) (Some 0.001%R)
    (fun _ _ _ => Ok tt) (fun _ _ _ => Ok tt) (fun _ _ w => Ok w)
    (fun _ => Ok (Fin 0)) tt [1; 2] [1; 2] [] [] 1 1 2
  = Raise (AssertionError missing_mask_message).
Proof.
  apply (training_needs_never_invalid (W := unit) (Obs := nat)
           (Tgt := nat) (Pred := unit) (Logp := unit) (Grad := unit)
           (Mask := unit)
           (fun _ => tt) (fun _ _ _ => Ok (tt, tt))
           (fun _ _ _ => Ok (Fin 1)) (fun _ _ => Ok (Fin 1))
           (Some 0.001%R) (fun _ _ _ => Ok tt) (fun _ _ _ => Ok tt)
           (fun _ _ w => Ok w) (fun _ => Ok (Fin 0))
           tt [1; 2] [1; 2] [] [] 1 1 2).
  - lia.
  - lia.
  - simpl. lia.
  - simpl. lia.
Defined.

Lemma testing_own_model_raises_witness :
  toy_testing true [7; 8] [1; 2] 5 3 = Raise TypeError /\
  toy_testing false [7; 8] [1; 2] 5 3
    = Raise (AssertionError missing_mask_message).
Proof.
  unfold toy_testing.
  apply (testing_own_model_raises (W := unit) (Obs := nat) (Tgt := nat)
           (Pred := unit) (Logp := unit) (Mask := unit)
           (fun _ => tt) (fun _ _ _ => Ok (tt, tt)) (fun _ _ => Ok (Fin 1))
           tt 7 [8] 1 [2] 5 3 tt tt).
  reflexivity.
Defined.

Lemma testing_returns_only_without_targets_witness :
  toy_testing true [7; 8] [] 5 1 = Ok [] /\
  toy_testing true [] [1; 2] 5 3 = Raise IndexError.
Proof.
  unfold toy_testing.
  destruct (testing_returns_only_without_targets (W := unit) (Obs := nat)
              (Tgt := nat) (Pred := unit) (Logp := unit) (Mask := unit)
              (fun _ => tt) (fun _ _ _ => Ok (tt, tt))
              (fun _ _ => Ok (Fin 1)) true tt [7; 8] [] 5 1) as (H1 & _).
  destruct (testing_returns_only_without_targets (W := unit) (Obs := nat)
              (Tgt := nat) (Pred := unit) (Logp := unit) (Mask := unit)
              (fun _ => tt) (fun _ _ _ => Ok (tt, tt))
              (fun _ _ => Ok (Fin 1)) true tt [] [1; 2] 5 3) as (_ & H2 & _).
  split.
  - apply H1. reflexivity.
  - apply H2; [discriminate|reflexivity].
Defined.
End PiSSMExtra.
